(** * crython: cron-style field, expression and scheduler semantics

    A shallow embedding of [crython.py] (Python 2) and the properties of its
    matching engine and scheduler loop.  Python values are embedded as
    follows: unbounded [int]/[long] as [Z], byte strings as [string],
    exceptions through the [res] monad, the hash-ordered [dict] through the
    open-addressing table of the reference interpreter (the iteration order
    of [PHRASES.keys()] decides the alternation order of [PHRASES_REGEX]),
    and the scheduler thread as a program counter stepping over the shared
    [CronTab] state. *)

From Stdlib Require Import ZArith Ascii String List Bool Lia.
From Stdlib Require Import Sorting.Sorted Sorting.Permutation.
From stdpp Require Import gmap strings.
Import ListNotations.

Local Open Scope string_scope.
Local Open Scope list_scope.
Local Open Scope Z_scope.

(** ** Python builtins used by the module *)

Module Py.

(** Exceptions the module can raise or let escape. *)
Inductive exn : Type :=
| ValueError (msg : string)         (* raise ValueError(msg) in crython.py *)
| InvalidLiteral (literal : string) (* ValueError of int() on a bad literal *)
| KeyError (key : string)
| ZeroDivisionError.

Inductive res (A : Type) : Type :=
| Return (a : A)
| Raise (e : exn).
Arguments Return {A} a.
Arguments Raise {A} e.

Definition bind {A B} (m : res A) (k : A -> res B) : res B :=
  match m with
  | Return a => k a
  | Raise e => Raise e
  end.

Fixpoint mapM {A B} (f : A -> res B) (l : list A) : res (list B) :=
  match l with
  | [] => Return []
  | x :: l' =>
      bind (f x) (fun y => bind (mapM f l') (fun ys => Return (y :: ys)))
  end.

(** [all(f(x) for x in l)]: the generator is consumed lazily, so the
    first falsy element stops the evaluation of the remaining ones. *)
Fixpoint all {A} (f : A -> res bool) (l : list A) : res bool :=
  match l with
  | [] => Return true
  | x :: l' => bind (f x) (fun b => if b then all f l' else Return false)
  end.

(** *** Characters and strings *)

Definition ord (c : ascii) : Z := Z.of_N (N_of_ascii c).

Definition isspace (c : ascii) : bool :=
  (ord c =? 32) || ((9 <=? ord c) && (ord c <=? 13)).

Definition isdigit (c : ascii) : bool :=
  (48 <=? ord c) && (ord c <=? 57).

Definition isupper (c : ascii) : bool :=
  (65 <=? ord c) && (ord c <=? 90).

Definition lower_char (c : ascii) : ascii :=
  if isupper c then ascii_of_N (N_of_ascii c + 32) else c.

(** [s.lower()] *)
Fixpoint lower (s : string) : string :=
  match s with
  | EmptyString => EmptyString
  | String c s' => String (lower_char c) (lower s')
  end.

(** Splitting at every character satisfying [p]: [s.split(c)] for a
    one-character separator and [re.split('[..]', s)] for a character
    class.  The result is never empty. *)
Fixpoint split_on (p : ascii -> bool) (s : string) : list string :=
  match s with
  | EmptyString => [EmptyString]
  | String c s' =>
      if p c then EmptyString :: split_on p s'
      else match split_on p s' with
           | h :: t => String c h :: t
           | [] => [String c EmptyString]
           end
  end.

(** [s.split(sep)] *)
Definition split (sep : ascii) (s : string) : list string :=
  split_on (Ascii.eqb sep) s.

(** [sep.join(l)] *)
Fixpoint join (sep : string) (l : list string) : string :=
  match l with
  | [] => EmptyString
  | [x] => x
  | x :: l' => x +:+ sep +:+ join sep l'
  end.

(** [s.lstrip(c)] for a one-character argument. *)
Fixpoint lstrip (c : ascii) (s : string) : string :=
  match s with
  | String d s' => if Ascii.eqb c d then lstrip c s' else s
  | EmptyString => EmptyString
  end.

(** [s.split()]: split on runs of whitespace, no empty pieces. *)
Fixpoint split_ws_go (cur : option string) (s : string) : list string :=
  match s with
  | EmptyString => match cur with Some w => [w] | None => [] end
  | String c s' =>
      if isspace c then
        match cur with
        | Some w => w :: split_ws_go None s'
        | None => split_ws_go None s'
        end
      else
        split_ws_go
          (Some (match cur with Some w => w | None => EmptyString end
                 +:+ String c EmptyString)) s'
  end.

Definition split_ws (s : string) : list string := split_ws_go None s.

Fixpoint chars (s : string) : list ascii :=
  match s with
  | EmptyString => []
  | String c s' => c :: chars s'
  end.

(** *** [int(s)] and [str(n)] *)

Fixpoint skip_space (s : string) : string :=
  match s with
  | String c s' => if isspace c then skip_space s' else s
  | EmptyString => EmptyString
  end.

Fixpoint rstrip_space (s : string) : string :=
  match s with
  | EmptyString => EmptyString
  | String c s' =>
      match rstrip_space s' with
      | EmptyString => if isspace c then EmptyString else String c EmptyString
      | r => String c r
      end
  end.

(** Value of a run of decimal digits, most significant first. *)
Fixpoint digits_value (acc : Z) (s : string) : option Z :=
  match s with
  | EmptyString => Some acc
  | String c s' =>
      if isdigit c then digits_value (acc * 10 + (ord c - 48)) s' else None
  end.

Definition unsigned_literal (s : string) : option Z :=
  match s with
  | EmptyString => None
  | _ => digits_value 0 s
  end.

(** [int(s)] on a byte string: surrounding whitespace, an optional sign
    and at least one decimal digit; anything else is a [ValueError]. *)
Definition int (s : string) : res Z :=
  let body := rstrip_space (skip_space s) in
  let parsed :=
    match body with
    | String "+"%char d => unsigned_literal d
    | String "-"%char d => option_map Z.opp (unsigned_literal d)
    | _ => unsigned_literal body
    end in
  match parsed with
  | Some n => Return n
  | None => Raise (InvalidLiteral s)
  end.

Definition digit_char (d : Z) : ascii := ascii_of_N (Z.to_N (48 + d)).

Fixpoint str_digits (fuel : nat) (n : Z) (acc : string) : string :=
  match fuel with
  | O => acc
  | S fuel' =>
      let acc' := String (digit_char (n mod 10)) acc in
      if n <? 10 then acc' else str_digits fuel' (n / 10) acc'
  end.

(** Decimal numeral of a non-negative integer. *)
Definition str_nat (n : Z) : string :=
  str_digits (S (Z.to_nat (Z.log2 n))) n EmptyString.

(** [str(n)] *)
Definition str (n : Z) : string :=
  if n <? 0 then String "-"%char (str_nat (- n)) else str_nat n.

(** [sys.maxint] of a 64-bit build: larger values are [long]. *)
Definition maxint : Z := 2 ^ 63 - 1.

(** [repr(n)]: a [long] prints with a trailing [L]. *)
Definition repr (n : Z) : string :=
  if (- maxint - 1 <=? n) && (n <=? maxint) then str n
  else str n +:+ "L".

(** [str(l)] of a list of integers. *)
Definition str_list (l : list Z) : string :=
  "[" +:+ join ", " (map repr l) +:+ "]".

(** [a % b] *)
Definition modulo (a b : Z) : res Z :=
  if b =? 0 then Raise ZeroDivisionError else Return (a mod b).

(** Truth value of an optional integer: [None] and [0] are falsy. *)
Definition truthy (x : option Z) : bool :=
  match x with
  | Some n => negb (n =? 0)
  | None => false
  end.

(** *** [sorted(l)] on integers *)

Fixpoint insert_sorted (x : Z) (l : list Z) : list Z :=
  match l with
  | [] => [x]
  | y :: l' => if x <=? y then x :: l else y :: insert_sorted x l'
  end.

Definition sorted (l : list Z) : list Z := fold_right insert_sorted [] l.

Fixpoint enumerate_from {A} (k : Z) (l : list A) : list (Z * A) :=
  match l with
  | [] => []
  | x :: l' => (k, x) :: enumerate_from (k + 1) l'
  end.

Definition enumerate {A} (l : list A) : list (Z * A) := enumerate_from 0 l.

End Py.

Notation "x <- m ;; k" := (Py.bind m (fun x => k))
  (at level 100, m at next level, right associativity).

(** ** The [dict] of the reference interpreter

    [PHRASES.keys()], [FIELDS.items()] and [self.__dict__.items()] list a
    dict in the order of its hash table, so the table is modelled: string
    hashing (64-bit words, no hash randomisation, which is the default),
    open addressing with the perturbed probe sequence, growth to four
    times the number of entries once the table is two thirds full. *)

Module PyDict.

Definition word : Z := 2 ^ 64.

(** [hash(s)] of a byte string, as the unsigned machine word. *)
Definition string_hash (s : string) : Z :=
  match s with
  | EmptyString => 0
  | String c0 _ =>
      let x := fold_left (fun x c => Z.lxor ((1000003 * x) mod word) (Py.ord c))
                         (Py.chars s) (Z.shiftl (Py.ord c0) 7) in
      let x := Z.lxor x (Z.of_nat (String.length s)) in
      if x =? word - 1 then word - 2 else x
  end.

Record entry (V : Type) : Type :=
  { me_hash : Z; me_key : string; me_value : V }.
Arguments me_hash {V} e.
Arguments me_key {V} e.
Arguments me_value {V} e.

(** The table; its length is a power of two and [ma_mask] is length - 1. *)
Definition dict (V : Type) : Type := list (option (entry V)).

Definition ma_mask {V} (d : dict V) : Z := Z.of_nat (length d) - 1.

Definition live {V} (d : dict V) : list (entry V) :=
  flat_map (fun e => match e with Some e => [e] | None => [] end) d.

Definition ma_used {V} (d : dict V) : Z := Z.of_nat (length (live d)).

Definition slot {V} (d : dict V) (i : Z) : option (entry V) :=
  nth (Z.to_nat (Z.land i (ma_mask d))) d None.

(** The probe sequence of [lookdict_string]: the slot index of [key],
    or of the first free slot met. *)
Fixpoint lookdict {V} (fuel : nat) (d : dict V) (key : string)
         (i perturb : Z) : option Z :=
  match fuel with
  | O => None
  | S fuel' =>
      match slot d i with
      | None => Some (Z.land i (ma_mask d))
      | Some e =>
          if String.eqb (me_key e) key then Some (Z.land i (ma_mask d))
          else lookdict fuel' d key
                        ((Z.shiftl i 2 + i + perturb + 1) mod word)
                        (Z.shiftr perturb 5)
      end
  end.

Definition probe_limit : nat := 1024.

Fixpoint set_nth {A} (n : nat) (x : A) (l : list A) : list A :=
  match l, n with
  | [], _ => []
  | _ :: l', O => x :: l'
  | y :: l', S n' => y :: set_nth n' x l'
  end.

Definition store {V} (d : dict V) (e : entry V) : dict V :=
  match lookdict probe_limit d (me_key e) (Z.land (me_hash e) (ma_mask d)) (me_hash e) with
  | Some i => set_nth (Z.to_nat i) (Some e) d
  | None => d
  end.

Fixpoint newsize (fuel : nat) (size minused : Z) : Z :=
  match fuel with
  | O => size
  | S fuel' => if size <=? minused then newsize fuel' (2 * size) minused else size
  end.

(** [dictresize]: the entries are re-inserted in table order. *)
Definition dictresize {V} (d : dict V) (minused : Z) : dict V :=
  fold_left store (live d) (repeat None (Z.to_nat (newsize 64 8 minused))).

Definition empty {V} : dict V := repeat None 8.

(** [d[key] = value] *)
Definition setitem {V} (d : dict V) (key : string) (value : V) : dict V :=
  let n_used := ma_used d in
  let d' := store d {| me_hash := string_hash key; me_key := key; me_value := value |} in
  if (n_used <? ma_used d') && (2 * (ma_mask d' + 1) <=? 3 * ma_used d')
  then dictresize d' (4 * ma_used d')
  else d'.

(** [dict(pairs)] *)
Definition of_list {V} (pairs : list (string * V)) : dict V :=
  fold_left (fun d kv => setitem d (fst kv) (snd kv)) pairs empty.

Definition items {V} (d : dict V) : list (string * V) :=
  map (fun e => (me_key e, me_value e)) (live d).

Definition keys {V} (d : dict V) : list string := map me_key (live d).

(** [d.get(key)] *)
Definition get {V} (d : dict V) (key : string) : option V :=
  match List.find (fun e => String.eqb (me_key e) key) (live d) with
  | Some e => Some (me_value e)
  | None => None
  end.

(** [d[key]] *)
Definition getitem {V} (d : dict V) (key : string) : Py.res V :=
  match get d key with
  | Some v => Py.Return v
  | None => Py.Raise (Py.KeyError key)
  end.

End PyDict.

(** ** Module constants *)

Module calendar.
Definition day_name : list string :=
  ["Monday"; "Tuesday"; "Wednesday"; "Thursday"; "Friday"; "Saturday"; "Sunday"].
Definition day_abbr : list string :=
  ["Mon"; "Tue"; "Wed"; "Thu"; "Fri"; "Sat"; "Sun"].
Definition month_name : list string :=
  [""; "January"; "February"; "March"; "April"; "May"; "June"; "July";
   "August"; "September"; "October"; "November"; "December"].
Definition month_abbr : list string :=
  [""; "Jan"; "Feb"; "Mar"; "Apr"; "May"; "Jun"; "Jul"; "Aug"; "Sep"; "Oct";
   "Nov"; "Dec"].
End calendar.

(** [dict((v.lower(), k) for k, v in enumerate(names))] *)
Definition name_table (names : list string) : PyDict.dict Z :=
  PyDict.of_list (map (fun kv => (Py.lower (snd kv), fst kv)) (Py.enumerate names)).

Definition DAY_NAME : PyDict.dict Z := name_table calendar.day_name.
Definition DAY_ABBR : PyDict.dict Z := name_table calendar.day_abbr.
Definition MON_NAME : PyDict.dict Z := name_table calendar.month_name.
Definition MON_ABBR : PyDict.dict Z := name_table calendar.month_abbr.

Definition PHRASES : PyDict.dict Z :=
  Eval vm_compute in
    PyDict.of_list (PyDict.items DAY_NAME ++ PyDict.items DAY_ABBR ++
                    PyDict.items MON_NAME ++ PyDict.items MON_ABBR).

(** ** Regular expressions: an alternation of literals

    [PHRASES_REGEX] is the only compiled pattern; its source text is a
    [|]-separated list of literal words. *)

Module re.

Record pattern : Type :=
  { alternatives : list string; ignorecase : bool }.

(** [re.compile(p, flags)] for a pattern without metacharacters other
    than [|]. *)
Definition compile (p : string) (ignorecase : bool) : pattern :=
  {| alternatives := Py.split "|" p; ignorecase := ignorecase |}.

Definition fold_case (ic : bool) (c : ascii) : ascii :=
  if ic then Py.lower_char c else c.

(** The text matched by literal [lit] at the start of [s]. *)
Fixpoint match_literal (ic : bool) (lit s : string) : option string :=
  match lit with
  | EmptyString => Some EmptyString
  | String a lit' =>
      match s with
      | String c s' =>
          if Ascii.eqb (fold_case ic a) (fold_case ic c)
          then option_map (String c) (match_literal ic lit' s')
          else None
      | EmptyString => None
      end
  end.

(** Alternatives are tried left to right; the first that matches wins. *)
Fixpoint match_first (ic : bool) (alts : list string) (s : string) : option string :=
  match alts with
  | [] => None
  | a :: alts' =>
      match match_literal ic a s with
      | Some m => Some m
      | None => match_first ic alts' s
      end
  end.

Definition match_at (p : pattern) (s : string) : option string :=
  match_first (ignorecase p) (alternatives p) s.

(** [p.sub(repl, s)] with a callable [repl]: leftmost non-overlapping
    matches are replaced; [skip] counts the characters of the current
    match still to be consumed and [after_match] records that a match
    ended just here (an empty match there is not replaced). *)
Fixpoint sub_go (p : pattern) (repl : string -> Py.res string)
         (skip : nat) (after_match : bool) (s : string) : Py.res string :=
  match skip with
  | S k =>
      match s with
      | String _ s' => sub_go p repl k true s'
      | EmptyString => Py.Return EmptyString
      end
  | O =>
      match match_at p s with
      | Some m =>
          match String.length m with
          | O =>
              r <- (if after_match then Py.Return EmptyString else repl m);;
              match s with
              | String c s' =>
                  rest <- sub_go p repl O false s';;
                  Py.Return (r +:+ String c rest)
              | EmptyString => Py.Return r
              end
          | S k =>
              r <- repl m;;
              match s with
              | String _ s' =>
                  rest <- sub_go p repl k true s';;
                  Py.Return (r +:+ rest)
              | EmptyString => Py.Return r
              end
          end
      | None =>
          match s with
          | String c s' =>
              rest <- sub_go p repl O false s';;
              Py.Return (String c rest)
          | EmptyString => Py.Return EmptyString
          end
      end
  end.

Definition sub (p : pattern) (repl : string -> Py.res string) (s : string)
  : Py.res string :=
  sub_go p repl O false s.

End re.

Definition PHRASES_REGEX : re.pattern :=
  Eval vm_compute in
    re.compile (Py.lstrip "|" (Py.join "|" (PyDict.keys PHRASES))) true.

(** ** CronField *)

Module CronField.

(** The three kinds of value a field is built from. *)
Inductive Value : Type :=
| VInt (n : Z)
| VStr (s : string)
| VIter (l : list Z).

Record t : Type :=
  { value : Value; min : Z; max : Z; specials : list ascii }.

Definition SPECIALS : list ascii :=
  ["*"; "/"; "%"; ","; "-"; "L"; "W"; "#"; "?"]%char.

(** Sets of characters are kept as lists in the order of [SPECIALS];
    the interpreter's own iteration order of a set is unspecified. *)
Definition mem (c : ascii) (l : list ascii) : bool := existsb (Ascii.eqb c) l.

Definition difference (a b : list ascii) : list ascii :=
  List.filter (fun c => negb (mem c b)) a.

Definition intersection (a b : list ascii) : list ascii :=
  List.filter (fun c => mem c b) a.

Definition char_str (c : ascii) : string := String c EmptyString.

(** Replace any full or abbreviated english dow/mon phrase of the field
    value with its integer representation. *)
Definition sub_english_phrases (value : string) : Py.res string :=
  let _repl := fun m =>
    n <- PyDict.getitem PHRASES (Py.lower m);; Py.Return (Py.str n) in
  re.sub PHRASES_REGEX _repl value.

Definition __init__ (value : Value) (min max : Z) (specials : list ascii)
  : Py.res t :=
  _ <- match value with
       | VInt n =>
           if (min <=? n) && (n <=? max) then Py.Return tt
           else Py.Raise (Py.ValueError
                  ("Value must be between " +:+ Py.str min +:+ " and " +:+ Py.str max))
       | _ => Py.Return tt
       end;;
  match value with
  | VStr s =>
      s' <- sub_english_phrases s;;
      let invalid_chars := intersection (difference SPECIALS specials) (Py.chars s') in
      match invalid_chars with
      | [] => Py.Return {| value := VStr s'; min := min; max := max; specials := specials |}
      | _ => Py.Raise (Py.ValueError
               ("Field contains invalid special characters: " +:+
                Py.join "," (map char_str invalid_chars)))
      end
  | VIter l =>
      Py.Return {| value := VIter (Py.sorted l); min := min; max := max; specials := specials |}
  | VInt n =>
      Py.Return {| value := VInt n; min := min; max := max; specials := specials |}
  end.

Definition first_char (s : string) : string :=
  match s with
  | String c _ => char_str c
  | EmptyString => EmptyString
  end.

Fixpoint last_char (s : string) : string :=
  match s with
  | EmptyString => EmptyString
  | String c EmptyString => char_str c
  | String _ s' => last_char s'
  end.

Definition __str__ (self : t) : string :=
  match value self with
  | VInt n => Py.str n
  | VStr s =>
      if 5 <=? Z.of_nat (String.length s)
      then "[" +:+ first_char s +:+ "..." +:+ last_char s +:+ "]"
      else s
  | VIter l =>
      if 5 <=? Z.of_nat (length l)
      then "[" +:+ Py.str (hd 0 l) +:+ "..." +:+ Py.str (List.last l 0) +:+ "]"
      else Py.str_list l
  end.

(** A piece of a clause: a string out of [re.split], or one of the
    field's own integer bounds. *)
Inductive piece : Type :=
| PInt (n : Z)
| PStr (s : string).

Definition int_piece (v : piece) : Py.res Z :=
  match v with
  | PInt n => Py.Return n
  | PStr s => Py.int s
  end.

Definition range_or_step (c : ascii) : bool :=
  Ascii.eqb c "-" || Ascii.eqb c "/".

(** The loop over the comma separated clauses, with the running
    [result]; a bare wildcard returns at once. *)
Fixpoint contains_clauses (self : t) (item : Z) (clauses : list string)
         (result : bool) : Py.res bool :=
  match clauses with
  | [] => Py.Return result
  | clause :: rest =>
      let parts := Py.split_on range_or_step clause in
      match parts with
      | [v0] =>
          if String.eqb v0 "*"
          then Py.Return ((min self <=? item) && (item <=? max self))
          else
            n <- Py.int v0;;
            contains_clauses self item rest (result || (n =? item))
      | _ =>
          let value :=
            if String.eqb (hd EmptyString parts) "*"
            then [PInt (min self); PInt (max self); PStr (nth 1 parts EmptyString)]
            else map PStr parts in
          bounds <- Py.mapM int_piece (firstn 2 value);;
          match Py.sorted bounds with
          | [start; stop] =>
              step <- (if (2 <? length value)%nat
                       then n <- int_piece (nth 2 value (PStr EmptyString));;
                            Py.Return (Some n)
                       else Py.Return None);;
              hit <- (if (start <=? item) && (item <=? stop)
                      then
                        match step with
                        | Some st =>
                            if negb (Py.truthy step) then Py.Return true
                            else r <- Py.modulo (item + start) st;; Py.Return (r =? 0)
                        | None => Py.Return true
                        end
                      else Py.Return false);;
              contains_clauses self item rest (result || hit)
          | _ => Py.Raise (Py.ValueError "need more than 1 value to unpack")
          end
      end
  end.

(** Determines if the given time is within the time denoted by this
    individual field. *)
Definition __contains__ (self : t) (item : Z) : Py.res bool :=
  match value self with
  | VInt n => Py.Return (n =? item)
  | VStr s => contains_clauses self item (Py.split "," s) false
  | VIter l => Py.Return (existsb (Z.eqb item) l)
  end.

End CronField.

Import CronField(VInt, VStr, VIter).

Definition sec v := CronField.__init__ v 0 59 ["*"; "/"; ","; "-"]%char.
Definition min v := CronField.__init__ v 0 59 ["*"; "/"; ","; "-"]%char.
Definition hr v := CronField.__init__ v 0 23 ["*"; "/"; ","; "-"]%char.
Definition dom v := CronField.__init__ v 1 31 ["*"; "/"; ","; "-"; "?"; "L"; "W"]%char.
Definition mon v := CronField.__init__ v 1 12 ["*"; "/"; ","; "-"]%char.
Definition dow v := CronField.__init__ v 0 6 ["*"; "/"; "-"; "?"; "L"; "#"]%char.
Definition yr v := CronField.__init__ v 1970 2099 ["*"; "/"; ","; "-"]%char.

(** ** [datetime.datetime] and the objects tested against an expression *)

Module datetime.

Record datetime : Type :=
  { year : Z; month : Z; day : Z; hour : Z; minute : Z; second : Z;
    microsecond : Z }.

Definition is_leap (y : Z) : bool :=
  (y mod 4 =? 0) && (negb (y mod 100 =? 0) || (y mod 400 =? 0)).

Definition days_before_year (y : Z) : Z :=
  let y := y - 1 in y * 365 + y / 4 - y / 100 + y / 400.

Definition days_before_month (y m : Z) : Z :=
  nth (Z.to_nat m) [0; 0; 31; 59; 90; 120; 151; 181; 212; 243; 273; 304; 334] 0
  + (if (2 <? m) && is_leap y then 1 else 0).

Definition ymd2ord (y m d : Z) : Z :=
  days_before_year y + days_before_month y m + d.

(** Monday is 0. *)
Definition weekday (dt : datetime) : Z :=
  (ymd2ord (year dt) (month dt) (day dt) + 6) mod 7.

(** [dt.timetuple()] *)
Definition timetuple (dt : datetime) : list Z :=
  [year dt; month dt; day dt; hour dt; minute dt; second dt; weekday dt;
   days_before_month (year dt) (month dt) + day dt; -1].

End datetime.

(** Objects a caller may hand to [item in expression]. *)
Inductive object : Type :=
| Datetime (dt : datetime.datetime)
| Date (y m d : Z)
| Int (n : Z)
| Str (s : string)
| NoneObject.

Definition isinstance_datetime (o : object) : bool :=
  match o with
  | Datetime _ => true
  | _ => false
  end.

(** ** CronExpression *)

Module CronExpression.

Definition STRUCT_TIME : list string :=
  ["year"; "month"; "day"; "hour"; "minute"; "second"; "weekday"].

Definition FIELD_NAMES : list string :=
  ["second"; "minute"; "hour"; "day"; "month"; "weekday"; "year"; "expr"].

(** field name -> init func; [zip] stops at the seven constructors. *)
Definition FIELDS : PyDict.dict (CronField.Value -> Py.res CronField.t) :=
  PyDict.of_list (combine FIELD_NAMES [sec; min; hr; dom; mon; dow; yr]).

(** The seven attributes of an instance. *)
Record t : Type :=
  { second : CronField.t; minute : CronField.t; hour : CronField.t;
    day : CronField.t; month : CronField.t; weekday : CronField.t;
    year : CronField.t }.

Definition getattr (self : t) (field : string) : CronField.t :=
  if String.eqb field "second" then second self
  else if String.eqb field "minute" then minute self
  else if String.eqb field "hour" then hour self
  else if String.eqb field "day" then day self
  else if String.eqb field "month" then month self
  else if String.eqb field "weekday" then weekday self
  else year self.

(** [self.__dict__]: the attributes were set while iterating over
    [FIELDS.items()], which fixes the order of its table. *)
Definition __dict__ (self : t) : PyDict.dict CronField.t :=
  fold_left (fun d field => PyDict.setitem d field (getattr self field))
            (PyDict.keys FIELDS) PyDict.empty.

(** [CronExpression(expr=..., **kwargs)]; [expr] is [None] when the
    keyword is absent. *)
Definition __init__ (expr : option string) (kwargs : list (string * CronField.Value))
  : Py.res t :=
  let kwargs := PyDict.of_list kwargs in
  let expression :=
    PyDict.of_list
      (combine FIELD_NAMES
               (Py.split_ws (match expr with Some e => e | None => "* * * * * * *" end))) in
  attrs <- Py.mapM
    (fun fc : string * (CronField.Value -> Py.res CronField.t) =>
       let (field, ctor) := fc in
       f <- ctor (match PyDict.get kwargs field with
                  | Some v => v
                  | None => match PyDict.get expression field with
                            | Some tok => VStr tok
                            | None => VStr "*"
                            end
                  end);;
       Py.Return (field, f))
    (PyDict.items FIELDS);;
  let d := PyDict.of_list attrs in
  second <- PyDict.getitem d "second";;
  minute <- PyDict.getitem d "minute";;
  hour <- PyDict.getitem d "hour";;
  day <- PyDict.getitem d "day";;
  month <- PyDict.getitem d "month";;
  weekday <- PyDict.getitem d "weekday";;
  year <- PyDict.getitem d "year";;
  Py.Return {| second := second; minute := minute; hour := hour; day := day;
               month := month; weekday := weekday; year := year |}.

Definition __str__ (self : t) : string :=
  Py.join " " (map (fun k => CronField.__str__ (getattr self k))
                   ["second"; "minute"; "hour"; "day"; "month"; "weekday"; "year"]).

Definition __contains__ (self : t) (item : object) : Py.res bool :=
  match item with
  | Datetime dt =>
      let item := PyDict.of_list (combine STRUCT_TIME (firstn 7 (datetime.timetuple dt))) in
      Py.all (fun kv : string * CronField.t =>
                c <- PyDict.getitem item (fst kv);;
                CronField.__contains__ (snd kv) c)
             (PyDict.items (__dict__ self))
  | _ => Py.Return false
  end.

End CronExpression.

(** ** CronTab: the job registry and the scheduler loop *)

Module CronTab.

(** A registered job: the wrapper [f] with [f.name] and [f.cron]. *)
Record Job : Type := { name : string; cron : CronExpression.t }.

Record t : Type :=
  { jobs : gmap string Job; proc_event : bool; stop_event : bool }.

Definition __init__ : t :=
  {| jobs := ∅; proc_event := false; stop_event := false |}.

Definition register (self : t) (name : string) (job : Job) : t :=
  {| jobs := <[name := job]> (jobs self); proc_event := true;
     stop_event := stop_event self |}.

Definition deregister (self : t) (name : string) : t :=
  match jobs self !! name with
  | Some _ =>
      let jobs' := delete name (jobs self) in
      {| jobs := jobs';
         proc_event := if (size jobs' =? 0)%nat then false else proc_event self;
         stop_event := stop_event self |}
  | None => self
  end.

Definition stop (self : t) : t :=
  {| jobs := jobs self; proc_event := false; stop_event := true |}.

(** Where the thread executing [run] stands. *)
Inductive location : Type :=
| AtWait        (* self.proc_event.wait() *)
| AtStopCheck   (* if self.stop_event.is_set(): return *)
| AtSweep       (* now = datetime.now(); for _, job in self.jobs.items(): ... *)
| AtSleep       (* time.sleep(1) *)
| Returned      (* left through the stop check *)
| Crashed.      (* an exception escaped the sweep and was logged *)

Record system : Type :=
  { tab : t; loop : location; invoked : list string }.

(** One sweep: the names of the jobs whose expression accepts [now], or
    the exception raised by a membership test.  Job bodies are opaque
    and do not touch the scheduler; the jobs are visited in the order of
    the map, which no property below depends on. *)
Definition sweep (now : datetime.datetime) (js : list (string * Job))
  : Py.res (list string) :=
  ran <- Py.mapM
    (fun nj : string * Job =>
       b <- CronExpression.__contains__ (cron (snd nj)) (Datetime now);;
       Py.Return (if b then [name (snd nj)] else []))
    js;;
  Py.Return (concat ran).

(** One step of the [run] thread; [None] when it cannot move: blocked
    in [wait()] on a cleared event, or finished. *)
Definition run_step (now : datetime.datetime) (s : system) : option system :=
  match loop s with
  | AtWait =>
      if proc_event (tab s)
      then Some {| tab := tab s; loop := AtStopCheck; invoked := invoked s |}
      else None
  | AtStopCheck =>
      Some {| tab := tab s;
              loop := if stop_event (tab s) then Returned else AtSweep;
              invoked := invoked s |}
  | AtSweep =>
      match sweep now (map_to_list (jobs (tab s))) with
      | Py.Return ran =>
          Some {| tab := tab s; loop := AtSleep; invoked := invoked s ++ ran |}
      | Py.Raise _ =>
          Some {| tab := tab s; loop := Crashed; invoked := invoked s |}
      end
  | AtSleep => Some {| tab := tab s; loop := AtWait; invoked := invoked s |}
  | Returned | Crashed => None
  end.

(** What can happen to a running scheduler: a call from another thread,
    or the loop thread being scheduled at clock reading [now]. *)
Inductive event : Type :=
| CallRegister (name : string) (job : Job)
| CallDeregister (name : string)
| CallStop
| Tick (now : datetime.datetime).

Definition on_tab (f : t -> t) (s : system) : system :=
  {| tab := f (tab s); loop := loop s; invoked := invoked s |}.

Definition step (s : system) (e : event) : system :=
  match e with
  | CallRegister n j => on_tab (fun c => register c n j) s
  | CallDeregister n => on_tab (fun c => deregister c n) s
  | CallStop => on_tab stop s
  | Tick now => match run_step now s with Some s' => s' | None => s end
  end.

Definition exec (s : system) (es : list event) : system := fold_left step es s.

(** [tab.start()] on a fresh scheduler. *)
Definition started (c : t) : system :=
  {| tab := c; loop := AtWait; invoked := [] |}.

End CronTab.

(** ** Predicates used in the statements *)

(** Runs of decimal digits. *)
Definition is_digits (s : string) : bool := forallb Py.isdigit (Py.chars s).

(** No character of [s] satisfies [p]. *)
Definition free_of (p : ascii -> bool) (s : string) : bool :=
  forallb (fun c => negb (p c)) (Py.chars s).

(** A clause piece as the matcher needs it: free of separators, not the
    wildcard, and read by [int] as [n]. *)
Definition reads_as (tok : string) (n : Z) : Prop :=
  free_of CronField.range_or_step tok = true /\
  String.eqb tok "*" = false /\
  Py.int tok = Py.Return n.

(** The hit computed for a range with an optional step. *)
Definition range_hit (lo hi : Z) (step : option Z) (item : Z) : bool :=
  (lo <=? item) && (item <=? hi) &&
  match step with
  | Some st => (st =? 0) || ((item + lo) mod st =? 0)
  | None => true
  end.

(** A character no phrase can start with. *)
Definition starts_no_phrase (c : ascii) : bool :=
  forallb (fun alt =>
             match alt with
             | String a _ => negb (Ascii.eqb (Py.lower_char a) (Py.lower_char c))
             | EmptyString => false
             end) (re.alternatives PHRASES_REGEX).

(** Characters of a numeric range or step clause. *)
Definition clause_char (c : ascii) : bool :=
  Py.isdigit c || CronField.range_or_step c.

(** Once [stop] has run, the loop thread can neither pass [wait()] nor
    reach the stop check, as long as nobody sets [proc_event] again. *)
Definition parked_for_good (s : CronTab.system) : Prop :=
  CronTab.proc_event (CronTab.tab s) = false /\
  CronTab.stop_event (CronTab.tab s) = true /\
  CronTab.loop s <> CronTab.AtStopCheck /\
  CronTab.loop s <> CronTab.Returned.

(** A clock reading for the examples. *)
Definition noon : datetime.datetime :=
  {| datetime.year := 2013; datetime.month := 1; datetime.day := 1;
     datetime.hour := 12; datetime.minute := 0; datetime.second := 0;
     datetime.microsecond := 0 |}.

(** ** Well-formed clauses

    The clauses a pattern is normally written with, their text and the
    candidates they stand for in a field with bounds [mn] and [mx]. *)

Inductive clause_form : Type :=
| Exactly (n : N)                (* n *)
| Between (a b : N)              (* a-b *)
| BetweenStep (a b step : N)     (* a-b/step *)
| EveryStep (step : N).          (* * / step *)

Definition render (cl : clause_form) : string :=
  match cl with
  | Exactly n => Py.str (Z.of_N n)
  | Between a b => Py.str (Z.of_N a) +:+ "-" +:+ Py.str (Z.of_N b)
  | BetweenStep a b st =>
      Py.str (Z.of_N a) +:+ "-" +:+ Py.str (Z.of_N b) +:+ "/" +:+ Py.str (Z.of_N st)
  | EveryStep st => "*/" +:+ Py.str (Z.of_N st)
  end.

Definition clause_hit (mn mx item : Z) (cl : clause_form) : bool :=
  match cl with
  | Exactly n => Z.of_N n =? item
  | Between a b =>
      range_hit (Z.min (Z.of_N a) (Z.of_N b)) (Z.max (Z.of_N a) (Z.of_N b)) None item
  | BetweenStep a b st =>
      range_hit (Z.min (Z.of_N a) (Z.of_N b)) (Z.max (Z.of_N a) (Z.of_N b))
                (Some (Z.of_N st)) item
  | EveryStep st => range_hit (Z.min mn mx) (Z.max mn mx) (Some (Z.of_N st)) item
  end.

(** Characters a rendered pattern is made of. *)
Definition pattern_char (c : ascii) : bool :=
  Py.isdigit c || CronField.range_or_step c || Ascii.eqb c "*" || Ascii.eqb c ",".

(** ** Phrases

    The replacement function of [sub_english_phrases], the phrases that are
    replaced as a whole and those of which only the leading abbreviation
    is replaced. *)

Definition phrase_repl (m : string) : Py.res string :=
  n <- PyDict.getitem PHRASES (Py.lower m);; Py.Return (Py.str n).

Definition whole_phrases : list string :=
  ["mon"; "tue"; "wed"; "thu"; "fri"; "sat"; "sun";
   "jan"; "feb"; "mar"; "apr"; "may"; "jun"; "jul"; "aug"; "sep"; "oct"; "nov"; "dec";
   "monday"; "tuesday"; "thursday"; "saturday"; "november"; "december"].

Definition cut_phrases : list string :=
  ["wednesday"; "friday"; "sunday";
   "january"; "february"; "march"; "april"; "june"; "july"; "august";
   "september"; "october"].

Fixpoint string_drop (n : nat) (s : string) : string :=
  match n, s with
  | S n', String _ s' => string_drop n' s'
  | _, _ => s
  end.

(** No phrase matches at any position of [s]. *)
Fixpoint unmatched (s : string) : bool :=
  match s with
  | EmptyString => true
  | String _ s' =>
      match re.match_at PHRASES_REGEX s with
      | None => unmatched s'
      | Some _ => false
      end
  end.

Definition is_lower_letter (c : ascii) : bool :=
  (97 <=? Py.ord c) && (Py.ord c <=? 122).

(** ** Named presets and the job decorator *)

(** [KEYWORDS]: the expressions are built when the module is loaded;
    [reboot] has none. *)
Definition KEYWORDS : PyDict.dict (option (Py.res CronExpression.t)) :=
  PyDict.of_list
    [("yearly", Some (CronExpression.__init__ (Some "0 0 0 1 1 *") []));
     ("annually", Some (CronExpression.__init__ (Some "0 0 0 1 1 *") []));
     ("monthly", Some (CronExpression.__init__ (Some "0 0 0 1 * *") []));
     ("weekly", Some (CronExpression.__init__ (Some "0 0 0 * * 0") []));
     ("daily", Some (CronExpression.__init__ (Some "0 0 0 * * *") []));
     ("hourly", Some (CronExpression.__init__ (Some "0 0 * * * *") []));
     ("minutely", Some (CronExpression.__init__ (Some "0 * * * * *") []));
     ("reboot", None)].

(** [func.__module__ or '__main__'], joined with [func.__name__]. *)
Definition job_name (module_ : option string) (func_name : string) : string :=
  Py.join "." [match module_ with
               | Some m => if String.eqb m "" then "__main__" else m
               | None => "__main__"
               end; func_name].

(** [job(tab=ctab, expr=..., **kwargs)(func)]: the expression is built
    first; the wrapper carries it and the qualified name of [func], and is
    registered under that name.  The call of [func] itself is not part
    of the model. *)
Definition job (ctab : CronTab.t) (expr : option string)
           (kwargs : list (string * CronField.Value))
           (module_ : option string) (func_name : string)
  : Py.res (CronTab.Job * CronTab.t) :=
  cron <- CronExpression.__init__ expr kwargs;;
  let f := {| CronTab.name := job_name module_ func_name; CronTab.cron := cron |} in
  Py.Return (f, CronTab.register ctab (CronTab.name f) f).

(** ** Timestamps a [datetime] can hold *)

Definition days_in_month (y m : Z) : Z :=
  if (m =? 2) && datetime.is_leap y then 29
  else nth (Z.to_nat m) [0; 31; 28; 31; 30; 31; 30; 31; 31; 30; 31; 30; 31] 0.

Definition valid_datetime (dt : datetime.datetime) : Prop :=
  1 <= datetime.year dt <= 9999 /\
  1 <= datetime.month dt <= 12 /\
  1 <= datetime.day dt <= days_in_month (datetime.year dt) (datetime.month dt) /\
  0 <= datetime.hour dt <= 23 /\
  0 <= datetime.minute dt <= 59 /\
  0 <= datetime.second dt <= 59 /\
  0 <= datetime.microsecond dt <= 999999.

(** ** Registry states *)

(** The has-jobs signal says whether the registry holds a job. *)
Definition tracks_jobs (c : CronTab.t) : Prop :=
  CronTab.proc_event c = true <-> CronTab.jobs c <> ∅.

(** ** Arguments of the field constructors *)

(** The argument a field constructor receives. *)
Definition field_argument (kwargs : list (string * CronField.Value))
           (toks : list string) (name : string) (position : nat) : CronField.Value :=
  match PyDict.get (PyDict.of_list kwargs) name with
  | Some v => v
  | None => match nth_error toks position with
            | Some tok => VStr tok
            | None => VStr "*"
            end
  end.

(** ** Texts that survive printing *)

(** A whitespace-separated token: not empty and free of whitespace. *)
Definition is_token (s : string) : bool :=
  negb (String.eqb s "") && free_of Py.isspace s.

(** A text field whose stored text is printed in full. *)
Definition short_text (f : CronField.t) : bool :=
  match CronField.value f with
  | VStr s => (String.length s <? 5)%nat
  | _ => false
  end.

(** ** The loop with the calls of the jobs *)

(** What a call [job()] does, as far as the loop can tell: the scheduler
    it leaves behind and the exception that escapes it, if any.  The
    wrapper built by [job] hands what the function or [on_success] raises
    to [on_failure]; what [on_failure] raises escapes.  A job can itself
    call [register], [deregister] or [stop].  Calls are taken to
    return. *)
Definition call_effect : Type := CronTab.t -> CronTab.t * option Py.exn.

(** The [for] loop of [run] over [self.jobs.items()], a list taken when
    the loop is entered: each job is tested against [now] and called when
    it matches, in turn.  [c] is the scheduler and [ran] the jobs called
    so far; the first exception out of a test or a call ends the loop. *)
Fixpoint sweep_calling (call : CronTab.Job -> call_effect) (now : datetime.datetime)
         (js : list (string * CronTab.Job)) (c : CronTab.t) (ran : list string)
  : CronTab.t * list string * option Py.exn :=
  match js with
  | [] => (c, ran, None)
  | nj :: rest =>
      match CronExpression.__contains__ (CronTab.cron (snd nj)) (Datetime now) with
      | Py.Raise e => (c, ran, Some e)
      | Py.Return false => sweep_calling call now rest c ran
      | Py.Return true =>
          match call (snd nj) c with
          | (c', Some e) => (c', ran ++ [CronTab.name (snd nj)], Some e)
          | (c', None) =>
              sweep_calling call now rest c' (ran ++ [CronTab.name (snd nj)])
          end
      end
  end.

(** One step of the [run] thread, the calls included; outside the sweep
    it is [CronTab.run_step]. *)
Definition run_step_calling (call : CronTab.Job -> call_effect)
           (now : datetime.datetime) (s : CronTab.system) : option CronTab.system :=
  match CronTab.loop s with
  | CronTab.AtSweep =>
      match sweep_calling call now (map_to_list (CronTab.jobs (CronTab.tab s)))
                          (CronTab.tab s) [] with
      | (c', ran, exc) =>
          Some {| CronTab.tab := c';
                  CronTab.loop := match exc with
                                  | Some _ => CronTab.Crashed
                                  | None => CronTab.AtSleep
                                  end;
                  CronTab.invoked := CronTab.invoked s ++ ran |}
      end
  | _ => CronTab.run_step now s
  end.

Definition step_calling (call : CronTab.Job -> call_effect)
           (s : CronTab.system) (e : CronTab.event) : CronTab.system :=
  match e with
  | CronTab.Tick now =>
      match run_step_calling call now s with Some s' => s' | None => s end
  | _ => CronTab.step s e
  end.

Definition exec_calling (call : CronTab.Job -> call_effect)
           (s : CronTab.system) (es : list CronTab.event) : CronTab.system :=
  fold_left (step_calling call) es s.

(** A call that returns and leaves the scheduler alone. *)
Definition quiet : call_effect := fun c => (c, None).

(** * Properties *)

(** ** The builtins on concrete values *)

Example int_examples :
  Py.int "10" = Py.Return 10 /\ Py.int " +7 " = Py.Return 7 /\
  Py.int "foo" = Py.Raise (Py.InvalidLiteral "foo") /\
  Py.int "" = Py.Raise (Py.InvalidLiteral "").
Proof. repeat split; reflexivity. Qed.

Example str_examples :
  Py.str 0 = "0" /\ Py.str 2099 = "2099" /\ Py.str (-15) = "-15" /\
  Py.str_list [1; 2; 3] = "[1, 2, 3]".
Proof. repeat split; reflexivity. Qed.

Example split_examples :
  Py.split "," "1,4,,10" = ["1"; "4"; ""; "10"] /\
  Py.split "," "" = [""] /\
  Py.split_on CronField.range_or_step "0-10/2" = ["0"; "10"; "2"] /\
  Py.split_ws " 0  30 14 " = ["0"; "30"; "14"].
Proof. repeat split; reflexivity. Qed.

Example hash_examples :
  PyDict.string_hash "a" = 12416037344 /\
  PyDict.keys (PyDict.of_list [("a", 1); ("b", 2); ("c", 3)]) = ["a"; "c"; "b"].
Proof. split; vm_compute; reflexivity. Qed.

Example weekday_examples :
  datetime.weekday noon = 1 /\
  datetime.timetuple noon = [2013; 1; 1; 12; 0; 0; 1; 1; -1].
Proof. split; reflexivity. Qed.

(** The expression [0 30 14 * * * *] holds at 14:30:00 and not one
    second or one minute later. *)
Example half_past_two :
  let at_ := fun mi s =>
    Datetime {| datetime.year := 2013; datetime.month := 1; datetime.day := 1;
                datetime.hour := 14; datetime.minute := mi; datetime.second := s;
                datetime.microsecond := 0 |} in
  exists e,
    CronExpression.__init__ (Some "0 30 14 * * * *") [] = Py.Return e /\
    CronExpression.__str__ e = "0 30 14 * * * *" /\
    CronExpression.__contains__ e (at_ 30 0) = Py.Return true /\
    CronExpression.__contains__ e (at_ 30 1) = Py.Return false /\
    CronExpression.__contains__ e (at_ 31 0) = Py.Return false.
Proof.
  eexists. split; [vm_compute; reflexivity|]. repeat split; vm_compute; reflexivity.
Qed.

(** ** Decimal numerals: [int(str(n)) = n] *)

Lemma ord_range c : 0 <= Py.ord c < 256.
Proof.
  unfold Py.ord. pose proof (N_ascii_bounded c). lia.
Qed.

Lemma ord_digit_char d : 0 <= d < 10 -> Py.ord (Py.digit_char d) = 48 + d.
Proof.
  intros Hd. unfold Py.ord, Py.digit_char.
  rewrite N_ascii_embedding by lia. lia.
Qed.

Lemma isdigit_digit_char d : 0 <= d < 10 -> Py.isdigit (Py.digit_char d) = true.
Proof.
  intros Hd. unfold Py.isdigit. rewrite ord_digit_char by assumption.
  apply andb_true_intro; split; apply Z.leb_le; lia.
Qed.

Lemma str_digits_is_digits fuel : forall n acc,
  0 <= n -> is_digits acc = true -> is_digits (Py.str_digits fuel n acc) = true.
Proof.
  induction fuel as [|fuel IH]; intros n acc Hn Hacc; simpl; [assumption|].
  assert (Hd : is_digits (String (Py.digit_char (n mod 10)) acc) = true).
  { unfold is_digits; simpl. rewrite isdigit_digit_char.
    - exact Hacc.
    - apply Z.mod_pos_bound; lia. }
  destruct (n <? 10); [exact Hd|].
  apply IH; [apply Z.div_pos; lia | exact Hd].
Qed.

Lemma str_digits_nonempty fuel : forall n acc,
  acc <> EmptyString -> Py.str_digits fuel n acc <> EmptyString.
Proof.
  induction fuel as [|fuel IH]; intros n acc Hacc; simpl; [assumption|].
  destruct (n <? 10); [discriminate|]. apply IH; discriminate.
Qed.

Lemma str_digits_S fuel n acc :
  Py.str_digits (S fuel) n acc =
  if n <? 10 then String (Py.digit_char (n mod 10)) acc
  else Py.str_digits fuel (n / 10) (String (Py.digit_char (n mod 10)) acc).
Proof. reflexivity. Qed.

Lemma digits_value_str_digits f : forall n rest,
  0 <= n < 2 ^ Z.of_nat (S f) ->
  Py.digits_value 0 (Py.str_digits (S f) n rest) = Py.digits_value n rest.
Proof.
  induction f as [|f IH]; intros n rest Hn.
  - change (2 ^ Z.of_nat 1) with 2 in Hn.
    cbn [Py.str_digits]. replace (n <? 10) with true by (symmetry; apply Z.ltb_lt; lia).
    cbn [Py.digits_value]. rewrite isdigit_digit_char by (apply Z.mod_pos_bound; lia).
    rewrite ord_digit_char by (apply Z.mod_pos_bound; lia).
    f_equal. rewrite Z.mod_small by lia. lia.
  - rewrite str_digits_S. destruct (Z.ltb_spec n 10) as [Hlt|Hge].
    + cbn [Py.digits_value]. rewrite isdigit_digit_char by (apply Z.mod_pos_bound; lia).
      rewrite ord_digit_char by (apply Z.mod_pos_bound; lia).
      f_equal. rewrite Z.mod_small by lia. lia.
    + rewrite IH.
      * cbn [Py.digits_value]. rewrite isdigit_digit_char by (apply Z.mod_pos_bound; lia).
        rewrite ord_digit_char by (apply Z.mod_pos_bound; lia).
        f_equal. pose proof (Z.div_mod n 10). lia.
      * split; [apply Z.div_pos; lia|].
        apply Z.div_lt_upper_bound; [lia|].
        replace (Z.of_nat (S (S f))) with (Z.succ (Z.of_nat (S f))) in Hn by lia.
        rewrite Z.pow_succ_r in Hn by lia. lia.
Qed.

Lemma str_nat_is_digits n : 0 <= n -> is_digits (Py.str_nat n) = true.
Proof.
  intros Hn. unfold Py.str_nat. apply str_digits_is_digits; [assumption|reflexivity].
Qed.

Lemma str_nat_nonempty n : Py.str_nat n <> EmptyString.
Proof.
  unfold Py.str_nat. cbn [Py.str_digits].
  destruct (n <? 10); [discriminate|]. apply str_digits_nonempty; discriminate.
Qed.

Lemma digits_value_str_nat n :
  0 <= n -> Py.digits_value 0 (Py.str_nat n) = Some n.
Proof.
  intros Hn. unfold Py.str_nat. rewrite digits_value_str_digits; [reflexivity|].
  split; [assumption|].
  destruct (Z.eq_dec n 0) as [->|Hne]; [reflexivity|].
  rewrite Nat2Z.inj_succ, Z2Nat.id by apply Z.log2_nonneg.
  apply Z.log2_spec. lia.
Qed.

Lemma isdigit_not_space c : Py.isdigit c = true -> Py.isspace c = false.
Proof.
  unfold Py.isdigit, Py.isspace. intros H.
  apply andb_prop in H as [H1 H2]. apply Z.leb_le in H1. apply Z.leb_le in H2.
  apply orb_false_intro; [apply Z.eqb_neq; lia|].
  apply andb_false_intro2. apply Z.leb_gt. lia.
Qed.

Lemma rstrip_space_digits s : is_digits s = true -> Py.rstrip_space s = s.
Proof.
  induction s as [|c s IH]; intros H; [reflexivity|].
  unfold is_digits in H; simpl in H. apply andb_prop in H as [Hc Hs].
  cbn [Py.rstrip_space]. rewrite (IH Hs).
  destruct s; [|reflexivity]. now rewrite (isdigit_not_space c Hc).
Qed.

Lemma isdigit_not_sign c :
  Py.isdigit c = true -> c <> "+"%char /\ c <> "-"%char /\ c <> "*"%char.
Proof.
  intros H. repeat split; intros ->; discriminate H.
Qed.

(** [int] reads back a run of digits as its decimal value. *)
Lemma int_digits s v :
  is_digits s = true -> s <> EmptyString -> Py.digits_value 0 s = Some v ->
  Py.int s = Py.Return v.
Proof.
  intros Hd Hne Hv. unfold Py.int.
  assert (Hskip : Py.skip_space s = s).
  { destruct s as [|c s]; [reflexivity|]. cbn [Py.skip_space].
    unfold is_digits in Hd; simpl in Hd. apply andb_prop in Hd as [Hc _].
    now rewrite (isdigit_not_space c Hc). }
  rewrite Hskip, (rstrip_space_digits s Hd).
  destruct s as [|c s]; [congruence|].
  unfold is_digits in Hd; simpl in Hd. apply andb_prop in Hd as [Hc _].
  destruct (isdigit_not_sign c Hc) as (Hp & Hm & _).
  assert (Hparsed : match String c s with
                    | String "+"%char d => Py.unsigned_literal d
                    | String "-"%char d => option_map Z.opp (Py.unsigned_literal d)
                    | _ => Py.unsigned_literal (String c s)
                    end = Py.unsigned_literal (String c s)).
  { destruct c as [[] [] [] [] [] [] [] []]; try reflexivity; congruence. }
  rewrite Hparsed. unfold Py.unsigned_literal. now rewrite Hv.
Qed.

Lemma int_str_nat n : 0 <= n -> Py.int (Py.str_nat n) = Py.Return n.
Proof.
  intros Hn. apply int_digits.
  - now apply str_nat_is_digits.
  - apply str_nat_nonempty.
  - now apply digits_value_str_nat.
Qed.

(** ** Splitting *)

Lemma chars_app s1 s2 : Py.chars (s1 +:+ s2) = Py.chars s1 ++ Py.chars s2.
Proof.
  induction s1 as [|c s1 IH]; [reflexivity|]. simpl. now rewrite IH.
Qed.

Lemma free_of_app p s1 s2 :
  free_of p (s1 +:+ s2) = free_of p s1 && free_of p s2.
Proof.
  unfold free_of. now rewrite chars_app, forallb_app.
Qed.

Lemma split_on_free p s : free_of p s = true -> Py.split_on p s = [s].
Proof.
  induction s as [|c s IH]; intros H; [reflexivity|].
  unfold free_of in H; simpl in H. apply andb_prop in H as [Hc Hs].
  cbn [Py.split_on]. apply negb_true_iff in Hc. rewrite Hc.
  now rewrite (IH Hs).
Qed.

Lemma split_on_app p s1 c s2 :
  free_of p s1 = true -> p c = true ->
  Py.split_on p (s1 +:+ String c s2) = s1 :: Py.split_on p s2.
Proof.
  intros H Hc. induction s1 as [|d s1 IH].
  - simpl. now rewrite Hc.
  - unfold free_of in H; simpl in H. apply andb_prop in H as [Hd Hs].
    apply negb_true_iff in Hd. simpl. rewrite Hd. now rewrite (IH Hs).
Qed.

Lemma is_digits_free p s :
  (forall c, Py.isdigit c = true -> p c = false) ->
  is_digits s = true -> free_of p s = true.
Proof.
  intros Hp. unfold is_digits, free_of. rewrite !forallb_forall.
  intros H c Hin. apply negb_true_iff. apply Hp. now apply H.
Qed.

Lemma digit_not_separator c :
  Py.isdigit c = true -> CronField.range_or_step c = false.
Proof.
  intros H. unfold CronField.range_or_step.
  destruct (Ascii.eqb_spec c "-") as [->|_]; [discriminate H|].
  destruct (Ascii.eqb_spec c "/") as [->|_]; [discriminate H|]. reflexivity.
Qed.

Lemma digit_not_comma c : Py.isdigit c = true -> Ascii.eqb "," c = false.
Proof.
  intros H. destruct (Ascii.eqb_spec "," c) as [<-|_]; [discriminate H|reflexivity].
Qed.

Lemma is_digits_not_star s : is_digits s = true -> String.eqb s "*" = false.
Proof.
  intros H. destruct (String.eqb_spec s "*") as [->|_]; [discriminate H|reflexivity].
Qed.

(** ** Clauses of a pattern *)

Lemma str_nat_reads_as n : 0 <= n -> reads_as (Py.str_nat n) n.
Proof.
  intros Hn. pose proof (str_nat_is_digits n Hn) as Hd. repeat split.
  - apply (is_digits_free _ _ digit_not_separator Hd).
  - now apply is_digits_not_star.
  - now apply int_str_nat.
Qed.

Lemma sorted_pair a b : Py.sorted [a; b] = [Z.min a b; Z.max a b].
Proof.
  unfold Py.sorted; simpl. destruct (Z.leb_spec a b).
  - now rewrite Z.min_l, Z.max_r by lia.
  - now rewrite Z.min_r, Z.max_l by lia.
Qed.

Lemma clause_without_step self item ta tb a b c1 rest result :
  reads_as ta a -> reads_as tb b -> CronField.range_or_step c1 = true ->
  CronField.contains_clauses self item ((ta +:+ String c1 tb) :: rest) result =
  CronField.contains_clauses self item rest
    (result || range_hit (Z.min a b) (Z.max a b) None item).
Proof.
  intros (Fa & Sa & Ia) (Fb & Sb & Ib) Hc1.
  cbn [CronField.contains_clauses].
  rewrite (split_on_app _ _ _ _ Fa Hc1), (split_on_free _ _ Fb).
  cbn [hd map firstn Py.mapM CronField.int_piece]. rewrite Sa.
  cbn [map firstn Py.mapM CronField.int_piece]. rewrite Ia, Ib.
  cbn [Py.bind]. rewrite sorted_pair.
  cbn [length Nat.ltb Nat.leb Py.bind]. unfold range_hit.
  destruct ((Z.min a b <=? item) && (item <=? Z.max a b)); cbn [Py.bind];
    now rewrite ?andb_true_r, ?andb_false_l.
Qed.

Lemma clause_with_step self item ta tb ts a b st c1 c2 rest result :
  reads_as ta a -> reads_as tb b -> reads_as ts st ->
  CronField.range_or_step c1 = true -> CronField.range_or_step c2 = true ->
  CronField.contains_clauses self item
    ((ta +:+ String c1 (tb +:+ String c2 ts)) :: rest) result =
  CronField.contains_clauses self item rest
    (result || range_hit (Z.min a b) (Z.max a b) (Some st) item).
Proof.
  intros (Fa & Sa & Ia) (Fb & Sb & Ib) (Fs & Ss & Is) Hc1 Hc2.
  cbn [CronField.contains_clauses].
  rewrite (split_on_app _ _ _ _ Fa Hc1), (split_on_app _ _ _ _ Fb Hc2),
    (split_on_free _ _ Fs).
  cbn [hd map firstn Py.mapM CronField.int_piece]. rewrite Sa.
  cbn [map firstn Py.mapM CronField.int_piece]. rewrite Ia, Ib.
  cbn [Py.bind]. rewrite sorted_pair.
  cbn [length Nat.ltb Nat.leb nth map CronField.int_piece Py.bind]. rewrite Is.
  cbn [Py.bind Py.truthy]. unfold range_hit, Py.modulo.
  destruct ((Z.min a b <=? item) && (item <=? Z.max a b)); cbn [Py.bind];
    [|now rewrite ?andb_false_l].
  destruct (st =? 0); cbn [negb Py.bind]; now rewrite ?andb_true_l.
Qed.

(** ** Phrase substitution *)

Lemma PHRASES_keys :
  PyDict.keys PHRASES =
  [""; "sep"; "september"; "december"; "tuesday"; "november"; "saturday";
   "sat"; "feb"; "aug"; "wed"; "sun"; "fri"; "thursday"; "jan"; "apr";
   "sunday"; "oct"; "mar"; "march"; "august"; "monday"; "may"; "jun";
   "friday"; "june"; "jul"; "mon"; "july"; "tue"; "february"; "october";
   "nov"; "january"; "thu"; "wednesday"; "april"; "dec"].
Proof. vm_compute. reflexivity. Qed.

Lemma PHRASES_REGEX_pattern :
  Py.lstrip "|" (Py.join "|" (PyDict.keys PHRASES)) =
  "sep|september|december|tuesday|november|saturday|sat|feb|aug|wed|sun|fri|thursday|jan|apr|sunday|oct|mar|march|august|monday|may|jun|friday|june|jul|mon|july|tue|february|october|nov|january|thu|wednesday|april|dec".
Proof. vm_compute. reflexivity. Qed.

Lemma match_literal_lower lit : forall s m,
  re.match_literal true lit s = Some m -> Py.lower m = Py.lower lit.
Proof.
  induction lit as [|a lit IH]; intros s m H; simpl in H.
  - now inversion H.
  - destruct s as [|c s]; [discriminate|].
    destruct (Ascii.eqb_spec (Py.lower_char a) (Py.lower_char c)) as [E|_];
      [|discriminate].
    destruct (re.match_literal true lit s) as [m'|] eqn:Hm; [|discriminate].
    inversion H; subst. simpl. rewrite E. f_equal. now apply (IH s).
Qed.

Lemma match_first_alternative ic alts : forall s m,
  re.match_first ic alts s = Some m ->
  exists alt, In alt alts /\ re.match_literal ic alt s = Some m.
Proof.
  induction alts as [|a alts IH]; intros s m H; simpl in H; [discriminate|].
  destruct (re.match_literal ic a s) as [m'|] eqn:Hm.
  - inversion H; subst. exists a. split; [now left|assumption].
  - destruct (IH s m H) as (alt & Hin & Halt). exists alt. split; [now right|assumption].
Qed.

(** Every word the pattern can match is a key of [PHRASES]: the lookup
    in [_repl] never fails. *)
Lemma repl_defined s m :
  re.match_at PHRASES_REGEX s = Some m ->
  exists n, PyDict.getitem PHRASES (Py.lower m) = Py.Return n.
Proof.
  intros H. apply match_first_alternative in H as (alt & Hin & Hm).
  apply match_literal_lower in Hm. rewrite Hm.
  assert (Hall : forallb (fun alt =>
            match PyDict.get PHRASES (Py.lower alt) with Some _ => true | None => false end)
            (re.alternatives PHRASES_REGEX) = true) by (vm_compute; reflexivity).
  rewrite forallb_forall in Hall. specialize (Hall alt Hin).
  unfold PyDict.getitem. destruct (PyDict.get PHRASES (Py.lower alt)) as [n|];
    [now exists n|discriminate].
Qed.

Lemma sub_go_total s : forall skip after_match,
  exists s', re.sub_go PHRASES_REGEX
               (fun m => n <- PyDict.getitem PHRASES (Py.lower m);; Py.Return (Py.str n))
               skip after_match s = Py.Return s'.
Proof.
  induction s as [|c s IH]; intros skip am.
  - destruct skip as [|k]; cbn [re.sub_go]; [|now eexists].
    destruct (re.match_at PHRASES_REGEX "") as [m|] eqn:Hm; [|now eexists].
    destruct (repl_defined _ _ Hm) as (n & Hn).
    destruct (String.length m); [destruct am|]; cbn [Py.bind];
      rewrite ?Hn; cbn [Py.bind]; now eexists.
  - destruct skip as [|k]; cbn [re.sub_go]; [|apply IH].
    destruct (re.match_at PHRASES_REGEX (String c s)) as [m|] eqn:Hm.
    + destruct (repl_defined _ _ Hm) as (n & Hn).
      destruct (String.length m) as [|k].
      * destruct (IH O false) as (r & Hr).
        destruct am; cbn [Py.bind]; rewrite ?Hn, Hr; cbn [Py.bind]; now eexists.
      * destruct (IH k true) as (r & Hr).
        rewrite Hn; cbn [Py.bind]. rewrite Hr; cbn [Py.bind]. now eexists.
    + destruct (IH O false) as (r & Hr). rewrite Hr; cbn [Py.bind]. now eexists.
Qed.

Lemma sub_english_phrases_total s :
  exists s', CronField.sub_english_phrases s = Py.Return s'.
Proof. apply sub_go_total. Qed.

Lemma match_at_no_phrase c s :
  starts_no_phrase c = true -> re.match_at PHRASES_REGEX (String c s) = None.
Proof.
  unfold starts_no_phrase, re.match_at.
  change (re.ignorecase PHRASES_REGEX) with true.
  induction (re.alternatives PHRASES_REGEX) as [|alt alts IH]; intros H; [reflexivity|].
  simpl in H. apply andb_prop in H as [Ha Hs]. cbn [re.match_first].
  destruct alt as [|a alt]; [discriminate|].
  cbn [re.match_literal re.fold_case]. apply negb_true_iff in Ha. rewrite Ha.
  now apply IH.
Qed.

Lemma sub_english_phrases_plain s :
  forallb starts_no_phrase (Py.chars s) = true ->
  CronField.sub_english_phrases s = Py.Return s.
Proof.
  unfold CronField.sub_english_phrases, re.sub.
  generalize false as am. induction s as [|c s IH]; intros am H.
  - reflexivity.
  - simpl in H. apply andb_prop in H as [Hc Hs].
    cbn [re.sub_go]. rewrite (match_at_no_phrase c s Hc).
    rewrite (IH false Hs). reflexivity.
Qed.

Lemma digit_starts_no_phrase c :
  Py.isdigit c = true -> starts_no_phrase c = true.
Proof.
  destruct c as [[] [] [] [] [] [] [] []]; intros H;
    solve [discriminate H | vm_compute; reflexivity].
Qed.

(** ** Construction of pattern fields *)

Lemma mem_In c l : CronField.mem c l = true <-> In c l.
Proof.
  unfold CronField.mem. rewrite existsb_exists. split.
  - intros (x & Hin & Heq). apply Ascii.eqb_eq in Heq. now subst.
  - intros Hin. exists c. split; [assumption|apply Ascii.eqb_refl].
Qed.

Lemma invalid_chars_spec sp cs c :
  In c (CronField.intersection (CronField.difference CronField.SPECIALS sp) cs) <->
  In c CronField.SPECIALS /\ ~ In c sp /\ In c cs.
Proof.
  unfold CronField.intersection, CronField.difference.
  rewrite !filter_In, negb_true_iff, mem_In, <- not_true_iff_false, mem_In.
  tauto.
Qed.

Lemma init_pattern_accepted s mn mx sp :
  forallb starts_no_phrase (Py.chars s) = true ->
  (forall c, In c (Py.chars s) -> In c CronField.SPECIALS -> In c sp) ->
  CronField.__init__ (VStr s) mn mx sp =
  Py.Return {| CronField.value := VStr s; CronField.min := mn;
               CronField.max := mx; CronField.specials := sp |}.
Proof.
  intros Hplain Hsp. unfold CronField.__init__. cbn [Py.bind].
  rewrite (sub_english_phrases_plain s Hplain). cbn [Py.bind].
  destruct (CronField.intersection _ _) as [|c l] eqn:E; [reflexivity|].
  assert (Hin : In c (c :: l)) by now left.
  rewrite <- E in Hin. apply invalid_chars_spec in Hin as (HS & Hn & Hc).
  exfalso. apply Hn. now apply Hsp.
Qed.

Lemma clause_char_cases c :
  clause_char c = true -> Py.isdigit c = true \/ c = "-"%char \/ c = "/"%char.
Proof.
  unfold clause_char, CronField.range_or_step. intros H.
  apply orb_prop in H as [H|H]; [now left|right].
  apply orb_prop in H as [H|H]; apply Ascii.eqb_eq in H; auto.
Qed.

Lemma init_clause_accepted s mn mx sp :
  forallb clause_char (Py.chars s) = true ->
  In "-"%char sp -> In "/"%char sp ->
  CronField.__init__ (VStr s) mn mx sp =
  Py.Return {| CronField.value := VStr s; CronField.min := mn;
               CronField.max := mx; CronField.specials := sp |}.
Proof.
  intros Hs Hminus Hslash. rewrite forallb_forall in Hs.
  apply init_pattern_accepted.
  - apply forallb_forall. intros c Hc.
    destruct (clause_char_cases c (Hs c Hc)) as [Hd|[->| ->]];
      [now apply digit_starts_no_phrase|reflexivity|reflexivity].
  - intros c Hc HS.
    destruct (clause_char_cases c (Hs c Hc)) as [Hd|[->| ->]]; try assumption.
    exfalso. simpl in HS.
    repeat (destruct HS as [<-|HS]; [discriminate Hd|]). exact HS.
Qed.

Lemma str_of_N n : Py.str (Z.of_N n) = Py.str_nat (Z.of_N n).
Proof.
  unfold Py.str. now replace (Z.of_N n <? 0) with false by (symmetry; apply Z.ltb_ge; lia).
Qed.

Lemma str_N_clause_chars n : forallb clause_char (Py.chars (Py.str (Z.of_N n))) = true.
Proof.
  rewrite str_of_N. pose proof (str_nat_is_digits (Z.of_N n) (N2Z.is_nonneg n)) as H.
  unfold is_digits in H. rewrite forallb_forall in *. intros c Hc.
  unfold clause_char. now rewrite (H c Hc).
Qed.

Lemma str_N_reads_as n : reads_as (Py.str (Z.of_N n)) (Z.of_N n).
Proof. rewrite str_of_N. apply str_nat_reads_as, N2Z.is_nonneg. Qed.

Lemma str_N_no_comma n : free_of (Ascii.eqb ",") (Py.str (Z.of_N n)) = true.
Proof.
  rewrite str_of_N.
  apply (is_digits_free _ _ digit_not_comma (str_nat_is_digits _ (N2Z.is_nonneg n))).
Qed.

(** ** Range and step clauses (C1, C9) *)

Lemma single_clause_field f s item :
  CronField.value f = VStr s -> free_of (Ascii.eqb ",") s = true ->
  CronField.__contains__ f item = CronField.contains_clauses f item [s] false.
Proof.
  intros Hv Hs. unfold CronField.__contains__, Py.split. rewrite Hv.
  now rewrite (split_on_free _ _ Hs).
Qed.

(** C1, as the code has it.  A field built from the single three-part
    clause [a-b/step] (decimal numerals, for any field kind that allows
    [-] and [/]) is accepted, and with [lo = min(a,b)], [hi = max(a,b)] it
    matches a candidate exactly when [lo <= candidate <= hi] and either
    [step] is 0 (the step test is skipped) or [(candidate + lo) % step]
    is 0.  Inside a longer pattern the clause contributes the same test
    to the running disjunction. *)
Theorem three_part_clause_matches (a b step : N) (mn mx : Z) (sp : list ascii) :
  let lo := Z.min (Z.of_N a) (Z.of_N b) in
  let hi := Z.max (Z.of_N a) (Z.of_N b) in
  let st := Z.of_N step in
  let clause :=
    Py.str (Z.of_N a) +:+ "-" +:+ Py.str (Z.of_N b) +:+ "/" +:+ Py.str st in
  let hit := fun item =>
    (lo <=? item) && (item <=? hi) && ((st =? 0) || ((item + lo) mod st =? 0)) in
  In "-"%char sp -> In "/"%char sp ->
  exists f,
    CronField.__init__ (VStr clause) mn mx sp = Py.Return f /\
    CronField.value f = VStr clause /\
    (forall item, CronField.__contains__ f item = Py.Return (hit item)) /\
    (forall self item rest result,
       CronField.contains_clauses self item (clause :: rest) result =
       CronField.contains_clauses self item rest (result || hit item)).
Proof.
  intros lo hi st clause hit Hminus Hslash.
  assert (Hclause : forall self item rest result,
             CronField.contains_clauses self item (clause :: rest) result =
             CronField.contains_clauses self item rest (result || hit item)).
  { intros self item rest result.
    unfold clause, st.
    change (Py.str (Z.of_N a) +:+ "-" +:+ Py.str (Z.of_N b) +:+ "/" +:+ Py.str (Z.of_N step))
      with (Py.str (Z.of_N a) +:+
            String "-" (Py.str (Z.of_N b) +:+ String "/" (Py.str (Z.of_N step)))).
    rewrite (clause_with_step self item _ _ _ _ _ _ "-" "/" rest result
               (str_N_reads_as a) (str_N_reads_as b) (str_N_reads_as step)
               eq_refl eq_refl).
    reflexivity. }
  pose (f := {| CronField.value := VStr clause; CronField.min := mn;
                CronField.max := mx; CronField.specials := sp |}).
  exists f. split; [|split; [|split]].
  - apply init_clause_accepted; [|assumption|assumption].
    unfold clause, st. rewrite !chars_app, !forallb_app, !str_N_clause_chars.
    reflexivity.
  - reflexivity.
  - intros item. rewrite (single_clause_field f clause item eq_refl).
    + rewrite Hclause. reflexivity.
    + unfold clause, st. rewrite !free_of_app, !str_N_no_comma. reflexivity.
  - exact Hclause.
Qed.

(** C1 witness: the seconds field [10-50/5]. *)
Lemma three_part_clause_matches_witness :
  In "-"%char ["*"; "/"; ","; "-"]%char /\ In "/"%char ["*"; "/"; ","; "-"]%char /\
  exists f, sec (VStr "10-50/5") = Py.Return f /\
            forall item, CronField.__contains__ f item =
                         Py.Return ((10 <=? item) && (item <=? 50) &&
                                    ((5 =? 0) || ((item + 10) mod 5 =? 0))).
Proof.
  assert (H1 : In "-"%char ["*"; "/"; ","; "-"]%char) by (simpl; tauto).
  assert (H2 : In "/"%char ["*"; "/"; ","; "-"]%char) by (simpl; tauto).
  split; [exact H1|split; [exact H2|]].
  destruct (three_part_clause_matches 10 50 5 0 59 _ H1 H2) as (f & Hf & _ & Hc & _).
  exists f. split; [exact Hf|exact Hc].
Defined.

(** C1 as stated fails for a zero step: [0-10/0] accepts 5, although
    [(5 + 0) % 0 == 0] does not hold (the modulus is undefined). *)
Lemma zero_step_counterexample :
  exists f, sec (VStr "0-10/0") = Py.Return f /\
    ~ (CronField.__contains__ f 5 = Py.Return true <->
       0 <= 5 <= 10 /\ Py.modulo (5 + 0) 0 = Py.Return 0).
Proof.
  eexists. split; [vm_compute; reflexivity|].
  intros [H _]. assert (Hm : CronField.__contains__
      {| CronField.value := VStr "0-10/0"; CronField.min := 0; CronField.max := 59;
         CronField.specials := ["*"; "/"; ","; "-"]%char |} 5 = Py.Return true)
    by (vm_compute; reflexivity).
  destruct (H Hm) as [_ Hz]. discriminate Hz.
Qed.



(** ** Expression matching (C3, C5) *)

Lemma all_true_iff {A} (f : A -> Py.res bool) (l : list A) :
  Py.all f l = Py.Return true <-> forall x, In x l -> f x = Py.Return true.
Proof.
  induction l as [|x l IH]; cbn [Py.all].
  - split; [intros _ y []|reflexivity].
  - destruct (f x) as [[|]|e] eqn:Hx; cbn [Py.bind].
    + rewrite IH. split.
      * intros H y [<-|Hy]; [assumption|now apply H].
      * intros H y Hy. apply H. now right.
    + split; [discriminate|]. intros H. rewrite <- Hx. apply H. now left.
    + split; [discriminate|]. intros H. rewrite <- Hx. apply H. now left.
Qed.

Lemma FIELDS_keys :
  PyDict.keys CronExpression.FIELDS =
  ["hour"; "month"; "second"; "weekday"; "year"; "day"; "minute"].
Proof. vm_compute. reflexivity. Qed.

(** The attribute table of an instance, in iteration order. *)
Lemma dict_items e :
  PyDict.items (CronExpression.__dict__ e) =
  [("hour", CronExpression.hour e); ("month", CronExpression.month e);
   ("second", CronExpression.second e); ("weekday", CronExpression.weekday e);
   ("year", CronExpression.year e); ("day", CronExpression.day e);
   ("minute", CronExpression.minute e)].
Proof. destruct e. vm_compute. reflexivity. Qed.

(** The calendar components by name, as [__contains__] looks them up. *)
Lemma struct_time_items (y mo d h mi s w : Z) :
  let item := PyDict.of_list (combine CronExpression.STRUCT_TIME [y; mo; d; h; mi; s; w]) in
  PyDict.getitem item "year" = Py.Return y /\
  PyDict.getitem item "month" = Py.Return mo /\
  PyDict.getitem item "day" = Py.Return d /\
  PyDict.getitem item "hour" = Py.Return h /\
  PyDict.getitem item "minute" = Py.Return mi /\
  PyDict.getitem item "second" = Py.Return s /\
  PyDict.getitem item "weekday" = Py.Return w.
Proof. vm_compute. repeat split; reflexivity. Qed.

(** C3.  A timestamp matches an expression exactly when each of the seven
    fields accepts its own calendar component (second, minute, hour,
    day of month, month, weekday with Monday as 0, year); hence an
    expression with a field that accepts no candidate matches no
    timestamp. *)
Theorem expression_matches_iff_all_fields (e : CronExpression.t) :
  (forall dt,
     CronExpression.__contains__ e (Datetime dt) = Py.Return true <->
     CronField.__contains__ (CronExpression.second e) (datetime.second dt) = Py.Return true /\
     CronField.__contains__ (CronExpression.minute e) (datetime.minute dt) = Py.Return true /\
     CronField.__contains__ (CronExpression.hour e) (datetime.hour dt) = Py.Return true /\
     CronField.__contains__ (CronExpression.day e) (datetime.day dt) = Py.Return true /\
     CronField.__contains__ (CronExpression.month e) (datetime.month dt) = Py.Return true /\
     CronField.__contains__ (CronExpression.weekday e) (datetime.weekday dt) = Py.Return true /\
     CronField.__contains__ (CronExpression.year e) (datetime.year dt) = Py.Return true) /\
  (forall k,
     In k ["second"; "minute"; "hour"; "day"; "month"; "weekday"; "year"] ->
     (forall c, CronField.__contains__ (CronExpression.getattr e k) c = Py.Return false) ->
     forall dt, CronExpression.__contains__ e (Datetime dt) <> Py.Return true).
Proof.
  assert (Hiff : forall dt,
     CronExpression.__contains__ e (Datetime dt) = Py.Return true <->
     CronField.__contains__ (CronExpression.second e) (datetime.second dt) = Py.Return true /\
     CronField.__contains__ (CronExpression.minute e) (datetime.minute dt) = Py.Return true /\
     CronField.__contains__ (CronExpression.hour e) (datetime.hour dt) = Py.Return true /\
     CronField.__contains__ (CronExpression.day e) (datetime.day dt) = Py.Return true /\
     CronField.__contains__ (CronExpression.month e) (datetime.month dt) = Py.Return true /\
     CronField.__contains__ (CronExpression.weekday e) (datetime.weekday dt) = Py.Return true /\
     CronField.__contains__ (CronExpression.year e) (datetime.year dt) = Py.Return true).
  { intros dt. unfold CronExpression.__contains__.
    rewrite dict_items, all_true_iff.
    cbn [datetime.timetuple firstn].
    destruct (struct_time_items (datetime.year dt) (datetime.month dt) (datetime.day dt)
                (datetime.hour dt) (datetime.minute dt) (datetime.second dt)
                (datetime.weekday dt)) as (Hy & Hmo & Hd & Hh & Hmi & Hs & Hw).
    split.
    - intros H.
      pose proof (H ("second", CronExpression.second e)) as H1.
      pose proof (H ("minute", CronExpression.minute e)) as H2.
      pose proof (H ("hour", CronExpression.hour e)) as H3.
      pose proof (H ("day", CronExpression.day e)) as H4.
      pose proof (H ("month", CronExpression.month e)) as H5.
      pose proof (H ("weekday", CronExpression.weekday e)) as H6.
      pose proof (H ("year", CronExpression.year e)) as H7.
      cbn [fst snd] in H1, H2, H3, H4, H5, H6, H7.
      rewrite Hs in H1. rewrite Hmi in H2. rewrite Hh in H3. rewrite Hd in H4.
      rewrite Hmo in H5. rewrite Hw in H6. rewrite Hy in H7.
      cbn [Py.bind] in H1, H2, H3, H4, H5, H6, H7.
      repeat split;
        [apply H1|apply H2|apply H3|apply H4|apply H5|apply H6|apply H7];
        simpl; tauto.
    - intros (H1 & H2 & H3 & H4 & H5 & H6 & H7) kv Hin. simpl in Hin.
      repeat (destruct Hin as [<-|Hin]; [cbn [fst snd]|]); [..|contradiction];
        rewrite ?Hy, ?Hmo, ?Hd, ?Hh, ?Hmi, ?Hs, ?Hw; cbn [Py.bind]; assumption. }
  split; [exact Hiff|].
  intros k Hk Hfalse dt Hmatch. apply Hiff in Hmatch.
  destruct Hmatch as (H1 & H2 & H3 & H4 & H5 & H6 & H7).
  simpl in Hk.
  repeat (destruct Hk as [<-|Hk];
          [match goal with
           | H : CronField.__contains__ _ ?c = Py.Return true |- _ =>
               specialize (Hfalse c); cbn in Hfalse; congruence
           end|]).
  contradiction.
Qed.

(** C3 witness: an expression whose seconds field is the empty set. *)
Lemma expression_matches_iff_all_fields_witness :
  exists e,
    CronExpression.__init__ None [("second", VIter [])] = Py.Return e /\
    In "second" ["second"; "minute"; "hour"; "day"; "month"; "weekday"; "year"] /\
    (forall c, CronField.__contains__ (CronExpression.getattr e "second") c = Py.Return false) /\
    forall dt, CronExpression.__contains__ e (Datetime dt) <> Py.Return true.
Proof.
  eexists. split; [vm_compute; reflexivity|].
  split; [simpl; tauto|]. split; [intros c; reflexivity|].
  apply (proj2 (expression_matches_iff_all_fields _) "second");
    [simpl; tauto|intros c; reflexivity].
Defined.

(** C5.  Anything that is not a [datetime] is answered with [False]; no
    exception is raised, whatever the fields are. *)
Theorem non_datetime_is_rejected (e : CronExpression.t) (o : object) :
  isinstance_datetime o = false ->
  CronExpression.__contains__ e o = Py.Return false.
Proof.
  destruct o; intros H; [discriminate H|reflexivity..].
Qed.

(** C5 witness: a date string against the all-wildcard expression. *)
Lemma non_datetime_is_rejected_witness :
  exists e,
    CronExpression.__init__ None [] = Py.Return e /\
    isinstance_datetime (Str "2013-01-01 00:00:00") = false /\
    CronExpression.__contains__ e (Str "2013-01-01 00:00:00") = Py.Return false.
Proof.
  eexists. split; [vm_compute; reflexivity|]. split; [reflexivity|].
  apply non_datetime_is_rejected. reflexivity.
Defined.

(** ** Iterable fields (C4) *)

Lemma insert_sorted_perm x l : Permutation (Py.insert_sorted x l) (x :: l).
Proof.
  induction l as [|y l IH]; cbn [Py.insert_sorted]; [reflexivity|].
  destruct (x <=? y); [reflexivity|].
  rewrite IH. apply perm_swap.
Qed.

Lemma sorted_perm l : Permutation (Py.sorted l) l.
Proof.
  induction l as [|x l IH]; [reflexivity|].
  unfold Py.sorted in *. cbn [fold_right]. rewrite insert_sorted_perm.
  now apply perm_skip.
Qed.

Lemma insert_sorted_sorted x l :
  StronglySorted Z.le l -> StronglySorted Z.le (Py.insert_sorted x l).
Proof.
  induction 1 as [|y l Hs IH Hy]; cbn [Py.insert_sorted].
  - repeat constructor.
  - destruct (Z.leb_spec x y) as [Hle|Hgt].
    + constructor; [now constructor|].
      constructor; [assumption|].
      rewrite List.Forall_forall in *. intros z Hz. specialize (Hy z Hz). lia.
    + constructor; [assumption|].
      rewrite List.Forall_forall in *. intros z Hz.
      apply (Permutation_in _ (insert_sorted_perm x l)) in Hz.
      destruct Hz as [<-|Hz]; [lia|now apply Hy].
Qed.

Lemma sorted_sorted l : StronglySorted Z.le (Py.sorted l).
Proof.
  induction l as [|x l IH]; [constructor|].
  unfold Py.sorted in *. cbn [fold_right]. now apply insert_sorted_sorted.
Qed.

Lemma existsb_eqb_In c (l : list Z) : existsb (Z.eqb c) l = true <-> In c l.
Proof.
  rewrite existsb_exists. split.
  - intros (x & Hx & E). apply Z.eqb_eq in E. now subst.
  - intros H. exists c. split; [assumption|apply Z.eqb_refl].
Qed.

(** C4, as the code has it.  A field built from an iterable of integers
    always constructs; it stores the ascending sort of the elements with
    every occurrence kept (duplicate-free exactly when the input is), and
    it matches a candidate exactly when the candidate is an element. *)
Theorem iterable_field_sorted_membership (l : list Z) (mn mx : Z) (sp : list ascii) :
  exists f stored,
    CronField.__init__ (VIter l) mn mx sp = Py.Return f /\
    CronField.value f = VIter stored /\
    StronglySorted Z.le stored /\
    Permutation stored l /\
    (List.NoDup stored <-> List.NoDup l) /\
    forall c, exists b,
      CronField.__contains__ f c = Py.Return b /\
      (b = true <-> In c stored) /\ (In c stored <-> In c l).
Proof.
  exists {| CronField.value := VIter (Py.sorted l); CronField.min := mn;
            CronField.max := mx; CronField.specials := sp |}, (Py.sorted l).
  pose proof (sorted_perm l) as Hp.
  repeat split.
  - apply sorted_sorted.
  - exact Hp.
  - now apply Permutation_NoDup.
  - apply Permutation_NoDup. now symmetry.
  - intros c. exists (existsb (Z.eqb c) (Py.sorted l)). repeat split.
    + apply existsb_eqb_In.
    + apply existsb_eqb_In.
    + now apply Permutation_in.
    + apply Permutation_in. now symmetry.
Qed.

(** C4 as stated fails: an iterable with a repeated element is stored
    with the repetition. *)
Lemma duplicates_are_kept :
  exists f,
    sec (VIter [3; 1; 3]) = Py.Return f /\
    CronField.value f = VIter [1; 3; 3] /\
    ~ List.NoDup [1; 3; 3].
Proof.
  eexists. split; [vm_compute; reflexivity|]. split; [reflexivity|].
  intros H. inversion H as [|x l Hn Hd]; subst.
  inversion Hd as [|y l' Hn' _]; subst. apply Hn'. now left.
Qed.

(** ** Validation at construction (C6) *)

Lemma only_element {A} (l : list A) (x : A) :
  l <> [] -> List.NoDup l -> (forall y, In y l <-> y = x) -> l = [x].
Proof.
  intros Hne Hnd H. destruct l as [|a l]; [congruence|].
  assert (a = x) by (apply H; now left). subst a.
  destruct l as [|b l]; [reflexivity|]. exfalso.
  assert (b = x) by (apply H; right; now left). subst b.
  inversion Hnd as [|? ? Hn _]; subst. apply Hn. now left.
Qed.

(** C6.  An exact integer outside [[min, max]] raises at once, and so
    does a pattern whose text after phrase substitution holds a special
    character outside the allowed set; the message of the latter lists
    exactly the offending characters. *)
Theorem invalid_values_are_rejected (mn mx : Z) (sp : list ascii) :
  (forall n, ~ (mn <= n <= mx) ->
     CronField.__init__ (VInt n) mn mx sp =
     Py.Raise (Py.ValueError
       ("Value must be between " +:+ Py.str mn +:+ " and " +:+ Py.str mx))) /\
  (forall s, exists s',
     CronField.sub_english_phrases s = Py.Return s' /\
     ((exists c, In c (Py.chars s') /\ In c CronField.SPECIALS /\ ~ In c sp) ->
      exists cs,
        cs <> [] /\ List.NoDup cs /\
        (forall c, In c cs <->
                   In c CronField.SPECIALS /\ ~ In c sp /\ In c (Py.chars s')) /\
        CronField.__init__ (VStr s) mn mx sp =
        Py.Raise (Py.ValueError
          ("Field contains invalid special characters: " +:+
           Py.join "," (map CronField.char_str cs))))).
Proof.
  split.
  - intros n Hn. unfold CronField.__init__.
    replace ((mn <=? n) && (n <=? mx)) with false; [reflexivity|].
    symmetry. apply andb_false_iff. rewrite Z.leb_gt, Z.leb_gt. lia.
  - intros s. destruct (sub_english_phrases_total s) as (s' & Hs').
    exists s'. split; [exact Hs'|]. intros (c & Hc & HS & Hsp).
    exists (CronField.intersection
              (CronField.difference CronField.SPECIALS sp) (Py.chars s')).
    assert (Hin : In c (CronField.intersection
              (CronField.difference CronField.SPECIALS sp) (Py.chars s')))
      by (apply invalid_chars_spec; tauto).
    split; [|split; [|split]].
    + intros E. rewrite E in Hin. exact Hin.
    + unfold CronField.intersection, CronField.difference.
      do 2 apply List.NoDup_filter. apply NoDup_ListNoDup.
      apply (bool_decide_unpack _). vm_compute. exact I.
    + intros d. apply invalid_chars_spec.
    + unfold CronField.__init__. cbn [Py.bind]. rewrite Hs'. cbn [Py.bind].
      destruct (CronField.intersection _ _) as [|d ds]; [contradiction|reflexivity].
Qed.

(** C6 witness: 24 is no hour, and a weekday list is refused because
    the comma is not among the weekday specials. *)
Lemma invalid_values_are_rejected_witness :
  ~ (0 <= 24 <= 23) /\
  hr (VInt 24) = Py.Raise (Py.ValueError "Value must be between 0 and 23") /\
  dow (VStr "mon,fri") =
  Py.Raise (Py.ValueError "Field contains invalid special characters: ,").
Proof.
  split; [lia|]. split.
  - apply (proj1 (invalid_values_are_rejected 0 23 ["*"; "/"; ","; "-"]%char) 24). lia.
  - destruct (proj2 (invalid_values_are_rejected 0 6 ["*"; "/"; "-"; "?"; "L"; "#"]%char)
                "mon,fri") as (s' & Hs' & H).
    assert (E : s' = "0,4") by (vm_compute in Hs'; congruence). subst s'.
    destruct H as (cs & Hne & Hnd & Hcs & Hraise).
    + exists ","%char. simpl. repeat split; try tauto.
      intros [H|[H|[H|[H|[H|[H|[]]]]]]]; discriminate H.
    + unfold dow. rewrite Hraise.
      rewrite (only_element cs ","%char Hne Hnd); [reflexivity|].
      intros c. rewrite Hcs. simpl. split.
      * intros (HS & _ & [E|[E|[E|[]]]]); subst c; try reflexivity;
          repeat (destruct HS as [HS|HS]; [discriminate HS|]); contradiction.
      * intros ->. repeat split; try tauto.
        intros [H|[H|[H|[H|[H|[H|[]]]]]]]; discriminate H.
Defined.

(** ** Phrases in weekday fields (C7) and patterns that raise (C8) *)

(** The spellings of a lower-case word, recovered letter by letter. *)
Ltac spellings H :=
  lazymatch type of H with
  | Py.lower ?s = EmptyString =>
      destruct s; [clear H|discriminate H]
  | Py.lower ?s = String _ _ =>
      let c := fresh "c" in
      let s' := fresh "s" in
      let Hc := fresh "Hc" in
      let Hs := fresh "Hs" in
      destruct s as [|c s']; [discriminate H|];
      cbn [Py.lower] in H; injection H as Hc Hs;
      destruct c as [[] [] [] [] [] [] [] []];
      vm_compute in Hc; try discriminate Hc; clear Hc;
      spellings Hs
  end.

(** Monday's names.  Phrase substitution ignores case and treats the
    full name like the abbreviation for Monday: every spelling of [mon]
    and of [monday], among them [mon], [Mon] and [monday], builds one and
    the same weekday field, and that field accepts exactly the
    candidate 0. *)
Theorem monday_phrases_agree :
  exists f,
    (forall s, Py.lower s = "mon" \/ Py.lower s = "monday" ->
               dow (VStr s) = Py.Return f) /\
    dow (VStr "mon") = Py.Return f /\
    dow (VStr "Mon") = Py.Return f /\
    dow (VStr "monday") = Py.Return f /\
    forall c, CronField.__contains__ f c = Py.Return (c =? 0).
Proof.
  exists {| CronField.value := VStr "0"; CronField.min := 0; CronField.max := 6;
            CronField.specials := ["*"; "/"; "-"; "?"; "L"; "#"]%char |}.
  split; [|split; [|split; [|split]]].
  - intros s [H|H]; spellings H; vm_compute; reflexivity.
  - vm_compute; reflexivity.
  - vm_compute; reflexivity.
  - vm_compute; reflexivity.
  - intros c. unfold CronField.__contains__. cbn [CronField.value].
    change (Py.split "," "0") with ["0"]. cbn [CronField.contains_clauses].
    change (Py.split_on CronField.range_or_step "0") with ["0"].
    change ("0" =? "*")%string with false. change (Py.int "0") with (Py.Return 0).
    cbn [Py.bind CronField.contains_clauses orb]. now rewrite Z.eqb_sym.
Qed.

(** The upper-case spelling [MONDAY]. *)
Lemma monday_phrases_agree_witness :
  Py.lower "MONDAY" = "monday" /\
  exists f, dow (VStr "MONDAY") = Py.Return f /\
            dow (VStr "mon") = Py.Return f /\
            CronField.__contains__ f 0 = Py.Return true /\
            CronField.__contains__ f 1 = Py.Return false.
Proof.
  split; [reflexivity|].
  destruct monday_phrases_agree as (f & Hall & Hmon & _ & _ & Hc).
  exists f. split; [apply Hall; right; reflexivity|].
  split; [exact Hmon|]. split; apply Hc.
Defined.

(** The alternation tries [sun] before [sunday] (and [monday] before
    [mon]): in [sunday] the abbreviation is what gets replaced. *)
Remark abbreviation_inside_full_name :
  CronField.sub_english_phrases "sunday" = Py.Return "6day" /\
  CronField.sub_english_phrases "sun" = Py.Return "6" /\
  CronField.sub_english_phrases "monday" = Py.Return "0".
Proof. repeat split; vm_compute; reflexivity. Qed.

(** C7.  The code breaks the claim for twelve full names.  The
    alternation of [PHRASES_REGEX] lists the abbreviation before the full
    name for these, so that only the first three letters are replaced: a
    weekday or month field built from the full name stores the number
    followed by the rest of the name, and every membership test on it
    raises, while the field built from the abbreviation accepts exactly
    the number.  [sub_english_phrases] is documented to replace any full
    or abbreviated phrase by its number. *)
Theorem full_name_is_cut_to_its_abbreviation (name : string) :
  In name cut_phrases ->
  let abbr := String.substring 0 3 name in
  let tail := string_drop 3 name in
  exists n,
    PyDict.get PHRASES name = Some n /\
    PyDict.get PHRASES abbr = Some n /\
    forall ctor, ctor = dow \/ ctor = mon ->
      (exists f, ctor (VStr abbr) = Py.Return f /\
                 forall c, CronField.__contains__ f c = Py.Return (n =? c)) /\
      (exists g, ctor (VStr name) = Py.Return g /\
                 CronField.value g = VStr (Py.str n +:+ tail) /\
                 forall c, CronField.__contains__ g c =
                           Py.Raise (Py.InvalidLiteral (Py.str n +:+ tail))).
Proof.
  intros Hin. simpl in Hin.
  repeat (destruct Hin as [<-|Hin];
    [cbv zeta; eexists; split; [vm_compute; reflexivity|];
     split; [vm_compute; reflexivity|];
     intros ctor [->| ->];
     (split;
      [eexists; split; [vm_compute; reflexivity|];
       intros c; vm_compute; reflexivity
      |eexists; split; [vm_compute; reflexivity|];
       split; [vm_compute; reflexivity|];
       intros c; vm_compute; reflexivity])|]).
  contradiction.
Qed.

(** C7 witness: the failing input [sunday]; the weekday field stores
    [6day]. *)
Lemma full_name_is_cut_to_its_abbreviation_witness :
  In "sunday" cut_phrases /\
  (exists f, dow (VStr "sun") = Py.Return f /\
             CronField.__contains__ f 6 = Py.Return true) /\
  (exists g, dow (VStr "sunday") = Py.Return g /\
             CronField.value g = VStr "6day" /\
             CronField.__contains__ g 6 = Py.Raise (Py.InvalidLiteral "6day")).
Proof.
  assert (Hin : In "sunday" cut_phrases) by (right; right; left; reflexivity).
  split; [exact Hin|].
  destruct (full_name_is_cut_to_its_abbreviation "sunday" Hin) as (n & Hn & _ & Hc).
  assert (En : n = 6) by (vm_compute in Hn; congruence). subst n.
  destruct (Hc dow (or_introl eq_refl)) as ((f & Hf & Hfc) & (g & Hg & Hv & Hgc)).
  split.
  - exists f. split; [exact Hf|]. rewrite Hfc. reflexivity.
  - exists g. split; [exact Hg|]. split; [exact Hv|]. apply Hgc.
Defined.

(** C8.  Validation does not make matching total: the seconds pattern
    [5,foo] has only allowed specials and is accepted, yet every
    membership test on it raises, because [foo] is no integer. *)
Theorem accepted_pattern_can_raise :
  exists pattern f,
    sec (VStr pattern) = Py.Return f /\
    CronField.value f = VStr pattern /\
    forall item, exists e, CronField.__contains__ f item = Py.Raise e.
Proof.
  exists "5,foo".
  exists {| CronField.value := VStr "5,foo"; CronField.min := 0; CronField.max := 59;
            CronField.specials := ["*"; "/"; ","; "-"]%char |}.
  split; [vm_compute; reflexivity|]. split; [reflexivity|].
  intros item. exists (Py.InvalidLiteral "foo").
  unfold CronField.__contains__. cbn [CronField.value].
  change (Py.split "," "5,foo") with ["5"; "foo"].
  cbn [CronField.contains_clauses].
  change (Py.split_on CronField.range_or_step "5") with ["5"].
  change (Py.split_on CronField.range_or_step "foo") with ["foo"].
  change ("5" =? "*")%string with false. change ("foo" =? "*")%string with false.
  change (Py.int "5") with (Py.Return 5).
  change (Py.int "foo") with (@Py.Raise Z (Py.InvalidLiteral "foo")).
  reflexivity.
Qed.

(** ** Rendering (C10) *)

Lemma first_char_get s :
  (1 <= String.length s)%nat ->
  exists c, String.get 0 s = Some c /\ CronField.first_char s = String c EmptyString.
Proof.
  destruct s as [|c s]; simpl; intros H; [lia|]. now exists c.
Qed.

Lemma last_char_get s :
  (1 <= String.length s)%nat ->
  exists c, String.get (String.length s - 1) s = Some c /\
            CronField.last_char s = String c EmptyString.
Proof.
  induction s as [|c s IH]; intros H; [simpl in H; lia|].
  destruct s as [|d s].
  - exists c. split; reflexivity.
  - destruct IH as (x & Hget & Hlast); [simpl; lia|].
    exists x. split; [|exact Hlast].
    replace (String.length (String c (String d s)) - 1)%nat
      with (S (String.length (String d s) - 1))%nat by (simpl; lia).
    exact Hget.
Qed.

Lemma last_nth (l : list Z) : List.last l 0 = nth (length l - 1) l 0.
Proof.
  induction l as [|x l IH]; [reflexivity|].
  destruct l as [|y l]; [reflexivity|].
  change (List.last (x :: y :: l) 0) with (List.last (y :: l) 0). rewrite IH.
  simpl. now rewrite Nat.sub_0_r.
Qed.

(** C10.  Any field value with a length of at least 5 is rendered
    abbreviated, a pattern string like a list: a pattern of 5 or more
    characters prints as [[], its first character, [...], its last
    character and []]; a list of 5 or more integers prints its first and
    last element in the same frame. *)
Theorem long_values_render_abbreviated (f : CronField.t) :
  (forall s, CronField.value f = VStr s -> (5 <= String.length s)%nat ->
     exists c0 c1,
       String.get 0 s = Some c0 /\
       String.get (String.length s - 1) s = Some c1 /\
       CronField.__str__ f =
       "[" +:+ String c0 EmptyString +:+ "..." +:+ String c1 EmptyString +:+ "]") /\
  (forall l, CronField.value f = VIter l -> (5 <= length l)%nat ->
     CronField.__str__ f =
     "[" +:+ Py.str (nth 0 l 0) +:+ "..." +:+ Py.str (nth (length l - 1) l 0) +:+ "]").
Proof.
  split.
  - intros s Hv Hlen.
    destruct (first_char_get s ltac:(lia)) as (c0 & Hg0 & Hf).
    destruct (last_char_get s ltac:(lia)) as (c1 & Hg1 & Hl).
    exists c0, c1. split; [exact Hg0|]. split; [exact Hg1|].
    unfold CronField.__str__. rewrite Hv, Hf, Hl.
    now replace (5 <=? Z.of_nat (String.length s)) with true
      by (symmetry; apply Z.leb_le; lia).
  - intros l Hv Hlen. unfold CronField.__str__. rewrite Hv, last_nth.
    replace (5 <=? Z.of_nat (length l)) with true
      by (symmetry; apply Z.leb_le; lia).
    destruct l; reflexivity.
Qed.

(** C10 witness: the seconds pattern [*/15,30] prints as [[*...0]]. *)
Lemma long_values_render_abbreviated_witness :
  exists f,
    sec (VStr "*/15,30") = Py.Return f /\
    CronField.value f = VStr "*/15,30" /\
    (5 <= String.length "*/15,30")%nat /\
    CronField.__str__ f = "[*...0]".
Proof.
  eexists. split; [vm_compute; reflexivity|]. split; [reflexivity|].
  split; [simpl; lia|].
  destruct (proj1 (long_values_render_abbreviated
                     {| CronField.value := VStr "*/15,30"; CronField.min := 0;
                        CronField.max := 59;
                        CronField.specials := ["*"; "/"; ","; "-"]%char |})
                  "*/15,30" eq_refl ltac:(simpl; lia))
    as (c0 & c1 & H0 & H1 & Hstr).
  rewrite Hstr. simpl in H0, H1. inversion H0; inversion H1; subst. reflexivity.
Defined.

(** ** The scheduler loop and [stop] (C2) *)

Lemma stop_idempotent c : CronTab.stop (CronTab.stop c) = CronTab.stop c.
Proof. reflexivity. Qed.

Lemma parked_for_good_tick s now :
  parked_for_good s -> parked_for_good (CronTab.step s (CronTab.Tick now)).
Proof.
  intros (Hp & Hs & Hc & Hr). unfold CronTab.step, CronTab.run_step.
  destruct (CronTab.loop s) eqn:Hl; try congruence.
  - rewrite Hp. repeat split; congruence.
  - destruct (CronTab.sweep now _); repeat split; cbn; congruence.
  - repeat split; cbn; congruence.
  - repeat split; congruence.
Qed.

Lemma parked_for_good_ticks clock : forall s,
  parked_for_good s -> parked_for_good (CronTab.exec s (map CronTab.Tick clock)).
Proof.
  induction clock as [|now clock IH]; intros s H; [exact H|].
  cbn [map CronTab.exec fold_left]. apply IH. now apply parked_for_good_tick.
Qed.

(** C2, on the code.  [stop()] sets the stop signal, clears has-jobs and
    is idempotent; but clearing [proc_event] is what parks the loop: unless
    the thread stood exactly at the stop check when [stop()] was called, it
    never observes the stop signal and never returns, however often it
    is scheduled afterwards. *)
Theorem stop_leaves_loop_parked (s : CronTab.system) (clock : list datetime.datetime) :
  CronTab.loop s <> CronTab.AtStopCheck ->
  CronTab.loop s <> CronTab.Returned ->
  let stopped := CronTab.step s CronTab.CallStop in
  let s' := CronTab.exec stopped (map CronTab.Tick clock) in
  CronTab.stop_event (CronTab.tab stopped) = true /\
  CronTab.proc_event (CronTab.tab stopped) = false /\
  CronTab.step stopped CronTab.CallStop = stopped /\
  CronTab.proc_event (CronTab.tab s') = false /\
  CronTab.loop s' <> CronTab.Returned.
Proof.
  intros Hc Hr stopped s'.
  assert (Hparked : parked_for_good stopped) by (repeat split; assumption).
  pose proof (parked_for_good_ticks clock stopped Hparked) as (Hp & _ & _ & Hr').
  repeat split; assumption.
Qed.

(** C2 at the failing input: a started scheduler without jobs, then
    [stop()].  The thread stays blocked in [wait()]. *)
Lemma stop_leaves_loop_parked_witness :
  let idle := CronTab.started CronTab.__init__ in
  let stopped := CronTab.step idle CronTab.CallStop in
  CronTab.loop idle <> CronTab.AtStopCheck /\
  CronTab.loop idle <> CronTab.Returned /\
  CronTab.run_step noon stopped = None /\
  CronTab.loop (CronTab.exec stopped (map CronTab.Tick [noon; noon; noon]))
    <> CronTab.Returned.
Proof.
  intros idle stopped.
  assert (H1 : CronTab.loop idle <> CronTab.AtStopCheck) by discriminate.
  assert (H2 : CronTab.loop idle <> CronTab.Returned) by discriminate.
  split; [exact H1|]. split; [exact H2|]. split; [reflexivity|].
  apply (stop_leaves_loop_parked idle [noon; noon; noon] H1 H2).
Defined.

(** The stop check is reached only when some later call sets
    [proc_event] again: a registration after [stop()] makes the loop
    return. *)
Lemma stop_then_register_returns name job :
  CronTab.loop
    (CronTab.exec (CronTab.started CronTab.__init__)
       [CronTab.CallStop; CronTab.CallRegister name job;
        CronTab.Tick noon; CronTab.Tick noon]) = CronTab.Returned.
Proof. reflexivity. Qed.

(** * Further properties of the matching engine *)

(** ** Splitting and joining *)

Lemma split_on_nonempty p s : Py.split_on p s <> [].
Proof.
  destruct s as [|c s]; cbn [Py.split_on]; [discriminate|].
  destruct (p c); [discriminate|]. destruct (Py.split_on p s); discriminate.
Qed.

Lemma split_on_sep p s1 c s2 :
  p c = true ->
  Py.split_on p (s1 +:+ String c s2) = Py.split_on p s1 ++ Py.split_on p s2.
Proof.
  intros Hc. induction s1 as [|d s1 IH].
  - simpl. now rewrite Hc.
  - simpl. rewrite IH. destruct (p d); [reflexivity|].
    pose proof (split_on_nonempty p s1) as Hne.
    destruct (Py.split_on p s1); [congruence|reflexivity].
Qed.

Lemma split_join sep toks :
  toks <> [] ->
  Forall (fun t => free_of (Ascii.eqb sep) t = true) toks ->
  Py.split sep (Py.join (String sep EmptyString) toks) = toks.
Proof.
  unfold Py.split. intros Hne Hfree.
  induction Hfree as [|t toks Ht Hts IH]; [congruence|].
  destruct toks as [|u toks].
  - cbn [Py.join]. now apply split_on_free.
  - change (Py.join (String sep EmptyString) (t :: u :: toks))
      with (t +:+ String sep (Py.join (String sep EmptyString) (u :: toks))).
    rewrite split_on_sep by apply Ascii.eqb_refl.
    rewrite (split_on_free _ _ Ht), IH by discriminate. reflexivity.
Qed.

(** ** One clause at a time *)

Lemma clause_single self item t n rest result :
  reads_as t n ->
  CronField.contains_clauses self item (t :: rest) result =
  CronField.contains_clauses self item rest (result || (n =? item)).
Proof.
  intros (Ft & St & It). cbn [CronField.contains_clauses].
  rewrite (split_on_free _ _ Ft), St, It. reflexivity.
Qed.

Lemma clause_malformed self item t e rest result :
  free_of CronField.range_or_step t = true -> String.eqb t "*" = false ->
  Py.int t = Py.Raise e ->
  CronField.contains_clauses self item (t :: rest) result = Py.Raise e.
Proof.
  intros Ft St It. cbn [CronField.contains_clauses].
  rewrite (split_on_free _ _ Ft), St, It. reflexivity.
Qed.

(** Parts after the third are never looked at. *)
Lemma clause_with_step_more self item ta tb ts a b st more rest result clause :
  reads_as ta a -> reads_as tb b -> reads_as ts st ->
  Py.split_on CronField.range_or_step clause = ta :: tb :: ts :: more ->
  CronField.contains_clauses self item (clause :: rest) result =
  CronField.contains_clauses self item rest
    (result || range_hit (Z.min a b) (Z.max a b) (Some st) item).
Proof.
  intros (Fa & Sa & Ia) (Fb & Sb & Ib) (Fs & Ss & Is) Hsplit.
  cbn [CronField.contains_clauses]. rewrite Hsplit.
  cbn [hd map firstn Py.mapM CronField.int_piece]. rewrite Sa.
  cbn [map firstn Py.mapM CronField.int_piece]. rewrite Ia, Ib.
  cbn [Py.bind]. rewrite sorted_pair.
  cbn [length Nat.ltb Nat.leb nth map CronField.int_piece Py.bind]. rewrite Is.
  cbn [Py.bind Py.truthy]. unfold range_hit, Py.modulo.
  destruct ((Z.min a b <=? item) && (item <=? Z.max a b)); cbn [Py.bind];
    [|now rewrite ?andb_false_l].
  destruct (st =? 0); cbn [negb Py.bind]; now rewrite ?andb_true_l.
Qed.

(** A leading wildcard stands for the field's own bounds; the part after
    it is the step, whatever the separator, and later parts are dropped. *)
Lemma clause_every_step self item ts st more rest result clause :
  reads_as ts st ->
  Py.split_on CronField.range_or_step clause = "*" :: ts :: more ->
  CronField.contains_clauses self item (clause :: rest) result =
  CronField.contains_clauses self item rest
    (result || range_hit (Z.min (CronField.min self) (CronField.max self))
                         (Z.max (CronField.min self) (CronField.max self))
                         (Some st) item).
Proof.
  intros (Fs & Ss & Is) Hsplit.
  cbn [CronField.contains_clauses]. rewrite Hsplit.
  cbn [hd]. change ("*" =? "*")%string with true.
  cbn [nth firstn Py.mapM CronField.int_piece Py.bind]. rewrite sorted_pair.
  cbn [length Nat.ltb Nat.leb nth CronField.int_piece Py.bind]. rewrite Is.
  cbn [Py.bind Py.truthy]. unfold range_hit, Py.modulo.
  destruct ((_ <=? item) && (item <=? _)); cbn [Py.bind];
    [|now rewrite ?andb_false_l].
  destruct (st =? 0); cbn [negb Py.bind]; now rewrite ?andb_true_l.
Qed.

Lemma render_split cl :
  match cl with
  | Exactly n => reads_as (render cl) (Z.of_N n)
  | Between a b =>
      Py.split_on CronField.range_or_step (render cl) =
      [Py.str (Z.of_N a); Py.str (Z.of_N b)]
  | BetweenStep a b st =>
      Py.split_on CronField.range_or_step (render cl) =
      [Py.str (Z.of_N a); Py.str (Z.of_N b); Py.str (Z.of_N st)]
  | EveryStep st =>
      Py.split_on CronField.range_or_step (render cl) = ["*"; Py.str (Z.of_N st)]
  end.
Proof.
  destruct cl as [n|a b|a b st|st]; cbn [render].
  - apply str_N_reads_as.
  - change (Py.str (Z.of_N a) +:+ "-" +:+ Py.str (Z.of_N b))
      with (Py.str (Z.of_N a) +:+ String "-" (Py.str (Z.of_N b))).
    rewrite split_on_sep by reflexivity.
    now rewrite !(split_on_free _ _ (proj1 (str_N_reads_as _))).
  - change (Py.str (Z.of_N a) +:+ "-" +:+ Py.str (Z.of_N b) +:+ "/" +:+ Py.str (Z.of_N st))
      with (Py.str (Z.of_N a) +:+
            String "-" (Py.str (Z.of_N b) +:+ String "/" (Py.str (Z.of_N st)))).
    rewrite !split_on_sep by reflexivity.
    now rewrite !(split_on_free _ _ (proj1 (str_N_reads_as _))).
  - change ("*/" +:+ Py.str (Z.of_N st))
      with ("*" +:+ String "/" (Py.str (Z.of_N st))).
    rewrite split_on_sep by reflexivity.
    now rewrite !(split_on_free _ _ (proj1 (str_N_reads_as _))).
Qed.

Lemma clause_rendered self item cl rest result :
  CronField.contains_clauses self item (render cl :: rest) result =
  CronField.contains_clauses self item rest
    (result || clause_hit (CronField.min self) (CronField.max self) item cl).
Proof.
  pose proof (render_split cl) as H.
  destruct cl as [n|a b|a b st|st]; cbn [clause_hit].
  - now apply clause_single.
  - apply (clause_without_step self item _ _ _ _ "-" rest result
             (str_N_reads_as a) (str_N_reads_as b) eq_refl).
  - apply (clause_with_step self item _ _ _ _ _ _ "-" "/" rest result
             (str_N_reads_as a) (str_N_reads_as b) (str_N_reads_as st)
             eq_refl eq_refl).
  - apply (clause_every_step self item _ _ [] rest result _ (str_N_reads_as st) H).
Qed.

Lemma clauses_rendered self item cls : forall rest result,
  CronField.contains_clauses self item (map render cls ++ rest) result =
  CronField.contains_clauses self item rest
    (result || existsb (clause_hit (CronField.min self) (CronField.max self) item) cls).
Proof.
  induction cls as [|cl cls IH]; intros rest result.
  - cbn [map app existsb]. now rewrite orb_false_r.
  - cbn [map app existsb]. rewrite clause_rendered, IH. now rewrite orb_assoc.
Qed.

Lemma render_pattern_chars cl : forallb pattern_char (Py.chars (render cl)) = true.
Proof.
  assert (Hn : forall n, forallb pattern_char (Py.chars (Py.str (Z.of_N n))) = true).
  { intros n. pose proof (str_N_clause_chars n) as H.
    rewrite forallb_forall in *. intros c Hc. specialize (H c Hc).
    unfold pattern_char. unfold clause_char in H.
    apply orb_prop in H as [H|H]; rewrite H; now rewrite ?orb_true_r. }
  destruct cl; cbn [render]; rewrite ?chars_app, ?forallb_app, ?Hn; reflexivity.
Qed.

Lemma render_no_comma cl : free_of (Ascii.eqb ",") (render cl) = true.
Proof.
  destruct cl; cbn [render]; rewrite ?free_of_app, ?str_N_no_comma; reflexivity.
Qed.

Lemma join_pattern_chars toks :
  Forall (fun t => forallb pattern_char (Py.chars t) = true) toks ->
  forallb pattern_char (Py.chars (Py.join "," toks)) = true.
Proof.
  induction 1 as [|t toks Ht _ IH]; [reflexivity|].
  destruct toks as [|u toks]; [exact Ht|].
  change (Py.join "," (t :: u :: toks)) with (t +:+ "," +:+ Py.join "," (u :: toks)).
  rewrite !chars_app, !forallb_app, Ht, IH. reflexivity.
Qed.

Lemma pattern_char_starts_no_phrase c :
  pattern_char c = true -> starts_no_phrase c = true.
Proof.
  unfold pattern_char. intros H.
  apply orb_prop in H as [H|H]; [apply orb_prop in H as [H|H];
    [apply orb_prop in H as [H|H]|]|].
  - now apply digit_starts_no_phrase.
  - unfold CronField.range_or_step in H.
    apply orb_prop in H as [H|H]; apply Ascii.eqb_eq in H; subst; reflexivity.
  - apply Ascii.eqb_eq in H; subst; reflexivity.
  - apply Ascii.eqb_eq in H; subst; reflexivity.
Qed.

(** ** Patterns as a whole *)

Lemma pattern_accepted cls mn mx sp :
  (forall c, In c (Py.chars (Py.join "," (map render cls))) ->
             In c CronField.SPECIALS -> In c sp) ->
  CronField.__init__ (VStr (Py.join "," (map render cls))) mn mx sp =
  Py.Return {| CronField.value := VStr (Py.join "," (map render cls));
               CronField.min := mn; CronField.max := mx;
               CronField.specials := sp |}.
Proof.
  intros Hsp. apply init_pattern_accepted; [|exact Hsp].
  assert (H : forallb pattern_char (Py.chars (Py.join "," (map render cls))) = true).
  { apply join_pattern_chars. apply Forall_map, List.Forall_forall.
    intros cl _. apply render_pattern_chars. }
  rewrite forallb_forall in *. intros c Hc.
  apply pattern_char_starts_no_phrase. now apply H.
Qed.

(** A pattern of well-formed clauses is the union of its clauses: a
    single number, a range, a range with a step, or a stepped wildcard
    over the field's own bounds.  It is accepted whenever every special
    character it uses is allowed, and it matches a candidate exactly when
    one of its clauses does; no such pattern ever raises. *)
Theorem pattern_is_union_of_clauses (cls : list clause_form) (mn mx : Z)
        (sp : list ascii) :
  cls <> [] ->
  (forall c, In c (Py.chars (Py.join "," (map render cls))) ->
             In c CronField.SPECIALS -> In c sp) ->
  exists f,
    CronField.__init__ (VStr (Py.join "," (map render cls))) mn mx sp = Py.Return f /\
    forall item,
      CronField.__contains__ f item =
      Py.Return (existsb (clause_hit mn mx item) cls).
Proof.
  intros Hne Hsp. eexists. split; [now apply pattern_accepted|].
  intros item. unfold CronField.__contains__. cbn [CronField.value].
  rewrite split_join.
  - rewrite <- (app_nil_r (map render cls)), clauses_rendered. reflexivity.
  - destruct cls; [congruence|discriminate].
  - apply Forall_map, List.Forall_forall. intros cl _. apply render_no_comma.
Qed.

(** Witness: the day-of-month pattern [1,10-12,20-30/5,*/7]. *)
Lemma pattern_is_union_of_clauses_witness :
  exists f,
    dom (VStr "1,10-12,20-30/5,*/7") = Py.Return f /\
    CronField.__contains__ f 11 = Py.Return true /\
    CronField.__contains__ f 13 = Py.Return true /\
    CronField.__contains__ f 14 = Py.Return false /\
    CronField.__contains__ f 25 = Py.Return true /\
    CronField.__contains__ f 21 = Py.Return false.
Proof.
  destruct (pattern_is_union_of_clauses
              [Exactly 1; Between 10 12; BetweenStep 20 30 5; EveryStep 7] 1 31
              ["*"; "/"; ","; "-"; "?"; "L"; "W"]%char) as (f & Hf & Hc).
  - discriminate.
  - intros c Hc HS. vm_compute in Hc.
    repeat (destruct Hc as [<-|Hc];
            [first [apply mem_In; reflexivity
                   |exfalso; apply mem_In in HS; vm_compute in HS; discriminate HS]|]).
    contradiction.
  - exists f. split; [exact Hf|]. rewrite !Hc. repeat split; reflexivity.
Defined.

(** A bare [*] clause answers for the whole pattern: the clauses before
    it, matched or not, and everything after it, well-formed or not, have
    no say; the answer is whether the candidate lies within the field's
    bounds. *)
Theorem bare_wildcard_decides_alone (f : CronField.t) (s : string)
        (cls : list clause_form) (post : list string) :
  CronField.value f = VStr s ->
  Py.split "," s = map render cls ++ "*" :: post ->
  forall item,
    CronField.__contains__ f item =
    Py.Return ((CronField.min f <=? item) && (item <=? CronField.max f)).
Proof.
  intros Hv Hsplit item. unfold CronField.__contains__.
  rewrite Hv, Hsplit, clauses_rendered. reflexivity.
Qed.

(** Witness: in the seconds pattern [100,*,foo] the clause 100 does not
    make 100 match, and [foo] never raises. *)
Lemma bare_wildcard_decides_alone_witness :
  exists f,
    sec (VStr "100,*,foo") = Py.Return f /\
    CronField.value f = VStr "100,*,foo" /\
    Py.split "," "100,*,foo" = map render [Exactly 100] ++ "*" :: ["foo"] /\
    CronField.__contains__ f 100 = Py.Return false /\
    CronField.__contains__ f 59 = Py.Return true.
Proof.
  pose (f := {| CronField.value := VStr "100,*,foo"; CronField.min := 0;
                CronField.max := 59; CronField.specials := ["*"; "/"; ","; "-"]%char |}).
  exists f. split; [vm_compute; reflexivity|]. split; [reflexivity|].
  split; [reflexivity|].
  split;
    rewrite (bare_wildcard_decides_alone f "100,*,foo" [Exactly 100] ["foo"]
               eq_refl eq_refl); reflexivity.
Defined.

(** A clause that is neither [*] nor an integer, met before any bare
    [*], makes every membership test raise the error of [int]; the empty
    clause of [1,,2] or of the empty pattern is such a clause. *)
Theorem malformed_clause_always_raises (f : CronField.t) (s : string)
        (cls : list clause_form) (t : string) (post : list string) (e : Py.exn) :
  CronField.value f = VStr s ->
  Py.split "," s = map render cls ++ t :: post ->
  free_of CronField.range_or_step t = true ->
  String.eqb t "*" = false ->
  Py.int t = Py.Raise e ->
  forall item, CronField.__contains__ f item = Py.Raise e.
Proof.
  intros Hv Hsplit Ft St It item. unfold CronField.__contains__.
  rewrite Hv, Hsplit, clauses_rendered. now apply clause_malformed.
Qed.

(** Witness: the hours pattern [1,,2] is accepted and raises on 1. *)
Lemma malformed_clause_always_raises_witness :
  exists f,
    hr (VStr "1,,2") = Py.Return f /\
    CronField.value f = VStr "1,,2" /\
    Py.split "," "1,,2" = map render [Exactly 1] ++ "" :: ["2"] /\
    free_of CronField.range_or_step "" = true /\
    String.eqb "" "*" = false /\
    Py.int "" = Py.Raise (Py.InvalidLiteral "") /\
    CronField.__contains__ f 1 = Py.Raise (Py.InvalidLiteral "").
Proof.
  pose (f := {| CronField.value := VStr "1,,2"; CronField.min := 0;
                CronField.max := 23; CronField.specials := ["*"; "/"; ","; "-"]%char |}).
  exists f. split; [vm_compute; reflexivity|].
  repeat (split; [reflexivity|]).
  apply (malformed_clause_always_raises f "1,,2" [Exactly 1] "" ["2"]);
    reflexivity.
Defined.

Lemma separator_not_comma c :
  CronField.range_or_step c = true -> Ascii.eqb "," c = false.
Proof.
  unfold CronField.range_or_step. intros H.
  apply orb_prop in H as [H|H]; apply Ascii.eqb_eq in H; subst; reflexivity.
Qed.

(** Whatever follows the step is dropped: [a-b/step] followed by [-] or
    [/] and any text matches like [a-b/step] alone, and [*/step] followed
    by further parts like [*/step] alone; the separator after the wildcard
    is immaterial, so [*-step] is [*/step] as well. *)
Theorem parts_after_the_step_are_ignored (a b st : N) (c : ascii) (junk : string)
        (f : CronField.t) :
  CronField.range_or_step c = true ->
  free_of (Ascii.eqb ",") junk = true ->
  (CronField.value f = VStr (render (BetweenStep a b st) +:+ String c junk) ->
   forall item,
     CronField.__contains__ f item =
     Py.Return (clause_hit (CronField.min f) (CronField.max f) item
                           (BetweenStep a b st))) /\
  (CronField.value f = VStr (render (EveryStep st) +:+ String c junk) ->
   forall item,
     CronField.__contains__ f item =
     Py.Return (clause_hit (CronField.min f) (CronField.max f) item (EveryStep st))) /\
  (CronField.value f = VStr ("*" +:+ String c (Py.str (Z.of_N st))) ->
   forall item,
     CronField.__contains__ f item =
     Py.Return (clause_hit (CronField.min f) (CronField.max f) item (EveryStep st))).
Proof.
  intros Hc Hjunk.
  assert (Hcomma : forall cl, free_of (Ascii.eqb ",") (render cl +:+ String c junk) = true).
  { intros cl. rewrite free_of_app, render_no_comma. unfold free_of.
    cbn [Py.chars forallb]. rewrite (separator_not_comma c Hc). exact Hjunk. }
  split; [|split]; intros Hv item.
  - rewrite (single_clause_field f _ item Hv (Hcomma _)).
    rewrite (clause_with_step_more f item _ _ _ _ _ _
               (Py.split_on CronField.range_or_step junk) [] false _
               (str_N_reads_as a) (str_N_reads_as b) (str_N_reads_as st)).
    + reflexivity.
    + rewrite split_on_sep by exact Hc.
      now rewrite (render_split (BetweenStep a b st)).
  - rewrite (single_clause_field f _ item Hv (Hcomma _)).
    rewrite (clause_every_step f item _ _
               (Py.split_on CronField.range_or_step junk) [] false _
               (str_N_reads_as st)).
    + reflexivity.
    + rewrite split_on_sep by exact Hc.
      now rewrite (render_split (EveryStep st)).
  - rewrite (single_clause_field f _ item Hv).
    + rewrite (clause_every_step f item _ _ [] [] false _ (str_N_reads_as st)).
      * reflexivity.
      * rewrite split_on_sep by exact Hc.
        now rewrite (split_on_free _ _ (proj1 (str_N_reads_as st))).
    + change (free_of (Ascii.eqb ",") (String "*" (String c (Py.str (Z.of_N st)))) = true).
      unfold free_of. cbn [Py.chars forallb].
      rewrite (separator_not_comma c Hc). apply str_N_no_comma.
Qed.

(** Witness: the minutes pattern [0-30/10/foo-bar] is [0-30/10]. *)
Lemma parts_after_the_step_are_ignored_witness :
  exists f,
    min (VStr "0-30/10/foo-bar") = Py.Return f /\
    CronField.range_or_step "/" = true /\
    free_of (Ascii.eqb ",") "foo-bar" = true /\
    CronField.__contains__ f 20 = Py.Return true /\
    CronField.__contains__ f 25 = Py.Return false.
Proof.
  pose (f := {| CronField.value := VStr "0-30/10/foo-bar"; CronField.min := 0;
                CronField.max := 59; CronField.specials := ["*"; "/"; ","; "-"]%char |}).
  exists f. split; [vm_compute; reflexivity|].
  split; [reflexivity|]. split; [reflexivity|].
  split;
    rewrite (proj1 (parts_after_the_step_are_ignored 0 30 10 "/" "foo-bar" f
                      eq_refl eq_refl) eq_refl); reflexivity.
Defined.

(** ** Construction *)

Lemma digit_not_special c : Py.isdigit c = true -> ~ In c CronField.SPECIALS.
Proof.
  intros Hd HS. simpl in HS.
  repeat (destruct HS as [<-|HS]; [discriminate Hd|]). exact HS.
Qed.

Lemma init_pattern_result s s' mn mx sp :
  CronField.sub_english_phrases s = Py.Return s' ->
  CronField.__init__ (VStr s) mn mx sp =
  match CronField.intersection (CronField.difference CronField.SPECIALS sp) (Py.chars s') with
  | [] => Py.Return {| CronField.value := VStr s'; CronField.min := mn;
                       CronField.max := mx; CronField.specials := sp |}
  | cs => Py.Raise (Py.ValueError
            ("Field contains invalid special characters: " +:+
             Py.join "," (map CronField.char_str cs)))
  end.
Proof.
  intros Hs. unfold CronField.__init__. cbn [Py.bind]. rewrite Hs. cbn [Py.bind].
  now destruct (CronField.intersection _ _).
Qed.

Lemma minus_starts_no_phrase : starts_no_phrase "-" = true.
Proof. vm_compute. reflexivity. Qed.

Lemma minus_not_comma : Ascii.eqb "," "-" = false.
Proof. reflexivity. Qed.

(** A number written as text is not checked against the field's bounds,
    the integer itself is.  The numeral of a non-negative integer is
    accepted by every field kind, whatever the bounds, and matches exactly
    that integer.  The numeral of a negative integer, where it is accepted,
    is read as a range with an empty lower end, so that every membership
    test raises.  The integer itself is accepted only within the bounds,
    then matches exactly itself, and otherwise raises the [ValueError]
    that names the bounds. *)
Theorem numeric_pattern_is_not_bound_checked (n mn mx : Z) (sp : list ascii) :
  (0 <= n ->
   exists f,
     CronField.__init__ (VStr (Py.str n)) mn mx sp = Py.Return f /\
     forall item, CronField.__contains__ f item = Py.Return (n =? item)) /\
  (n < 0 ->
   ((exists f, CronField.__init__ (VStr (Py.str n)) mn mx sp = Py.Return f) <->
    In "-"%char sp) /\
   forall f, CronField.__init__ (VStr (Py.str n)) mn mx sp = Py.Return f ->
     forall item, CronField.__contains__ f item = Py.Raise (Py.InvalidLiteral "")) /\
  (mn <= n <= mx ->
   exists g,
     CronField.__init__ (VInt n) mn mx sp = Py.Return g /\
     forall item, CronField.__contains__ g item = Py.Return (n =? item)) /\
  (~ (mn <= n <= mx) ->
   CronField.__init__ (VInt n) mn mx sp =
   Py.Raise (Py.ValueError
               ("Value must be between " +:+ Py.str mn +:+ " and " +:+ Py.str mx))).
Proof.
  split; [|split; [|split]].
  - intros Hn. replace n with (Z.of_N (Z.to_N n)) by lia.
    set (k := Z.to_N n).
    pose (f := {| CronField.value := VStr (Py.str (Z.of_N k)); CronField.min := mn;
                  CronField.max := mx; CronField.specials := sp |}).
    assert (Hd : forall c, In c (Py.chars (Py.str (Z.of_N k))) -> Py.isdigit c = true).
    { rewrite str_of_N. pose proof (str_nat_is_digits _ (N2Z.is_nonneg k)) as H.
      unfold is_digits in H. rewrite forallb_forall in H. exact H. }
    exists f. split.
    + apply init_pattern_accepted.
      * apply forallb_forall. intros c Hin. apply digit_starts_no_phrase, Hd, Hin.
      * intros c Hin HS. exfalso. exact (digit_not_special c (Hd c Hin) HS).
    + intros item. rewrite (single_clause_field f _ item eq_refl (str_N_no_comma k)).
      rewrite (clause_single f item _ _ [] false (str_N_reads_as k)). reflexivity.
  - intros Hn.
    assert (Es : Py.str n = String "-" (Py.str_nat (- n))).
    { unfold Py.str. replace (n <? 0) with true; [reflexivity|].
      symmetry. apply Z.ltb_lt. exact Hn. }
    rewrite Es. set (d := Py.str_nat (- n)).
    assert (Hd : is_digits d = true) by (apply str_nat_is_digits; lia).
    assert (Hdc : forall c, In c (Py.chars d) -> Py.isdigit c = true).
    { unfold is_digits in Hd. rewrite forallb_forall in Hd. exact Hd. }
    assert (Hplain : CronField.sub_english_phrases (String "-" d) =
                     Py.Return (String "-" d)).
    { apply sub_english_phrases_plain. cbn [Py.chars forallb].
      rewrite minus_starts_no_phrase. apply forallb_forall.
      intros c Hin. apply digit_starts_no_phrase, Hdc, Hin. }
    rewrite (init_pattern_result _ _ mn mx sp Hplain).
    split.
    + destruct (CronField.intersection _ _) as [|b bs] eqn:E.
      * split; [intros _|intros _; eexists; reflexivity].
        destruct (in_dec ascii_dec "-"%char sp) as [Hin|Hout]; [exact Hin|exfalso].
        assert (H : In "-"%char []); [|exact H].
        rewrite <- E. apply invalid_chars_spec.
        split; [simpl; tauto|]. split; [exact Hout|]. left. reflexivity.
      * split; [intros (f & Hf); discriminate Hf|]. intros Hin. exfalso.
        assert (Hb : In b (b :: bs)) by (left; reflexivity).
        rewrite <- E in Hb. apply invalid_chars_spec in Hb as (HS & Hn' & Hc).
        destruct Hc as [<-|Hc]; [exact (Hn' Hin)|].
        exact (digit_not_special b (Hdc b Hc) HS).
    + destruct (CronField.intersection _ _) as [|b bs]; [|discriminate].
      intros f Hf item. inversion Hf; subst f. clear Hf.
      pose (f := {| CronField.value := VStr (String "-" d); CronField.min := mn;
                    CronField.max := mx; CronField.specials := sp |}).
      change (CronField.__contains__ f item = Py.Raise (Py.InvalidLiteral "")).
      rewrite (single_clause_field f (String "-" d) item eq_refl).
      * cbn [CronField.contains_clauses].
        change (String "-" d) with ("" +:+ String "-" d).
        rewrite (split_on_app CronField.range_or_step "" "-" d eq_refl eq_refl).
        rewrite (split_on_free _ _ (is_digits_free _ _ digit_not_separator Hd)).
        reflexivity.
      * unfold free_of. cbn [Py.chars forallb]. rewrite minus_not_comma.
        apply (is_digits_free _ _ digit_not_comma Hd).
  - intros Hb. eexists. split.
    + unfold CronField.__init__.
      replace ((mn <=? n) && (n <=? mx)) with true; [reflexivity|].
      symmetry. apply andb_true_intro. split; apply Z.leb_le; lia.
    + intros item. reflexivity.
  - intros Hb. unfold CronField.__init__.
    replace ((mn <=? n) && (n <=? mx)) with false; [reflexivity|].
    symmetry. apply andb_false_iff. rewrite !Z.leb_gt. lia.
Qed.

(** Witness: the seconds pattern [99] is built although 99 is no second,
    and the seconds pattern [-5] is built and can never be tested. *)
Lemma numeric_pattern_is_not_bound_checked_witness :
  ~ (0 <= 99 <= 59) /\
  (exists f, sec (VStr "99") = Py.Return f /\
             CronField.__contains__ f 99 = Py.Return true) /\
  sec (VInt 99) = Py.Raise (Py.ValueError "Value must be between 0 and 59") /\
  (exists f, sec (VStr "-5") = Py.Return f /\
             CronField.__contains__ f 5 = Py.Raise (Py.InvalidLiteral "")).
Proof.
  destruct (numeric_pattern_is_not_bound_checked 99 0 59 ["*"; "/"; ","; "-"]%char)
    as (Htext & _ & _ & Hraise).
  destruct (numeric_pattern_is_not_bound_checked (-5) 0 59 ["*"; "/"; ","; "-"]%char)
    as (_ & Hneg & _ & _).
  assert (H99 : ~ (0 <= 99 <= 59)) by lia.
  split; [exact H99|]. split; [|split].
  - destruct (Htext ltac:(lia)) as (f & Hf & Hc).
    exists f. split; [exact Hf|]. rewrite Hc. reflexivity.
  - exact (Hraise H99).
  - destruct (Hneg ltac:(lia)) as [[_ Hacc] Hr].
    destruct Hacc as (f & Hf); [right; right; right; left; reflexivity|].
    exists f. split; [exact Hf|]. exact (Hr f Hf 5).
Defined.

(** A pattern is accepted exactly when, after phrase substitution, every
    character of [SPECIALS] in it is allowed for the field; the field then
    stores the substituted text and the bounds and specials it was given.
    Letters other than [L] and [W] never stand in the way. *)
Theorem pattern_accepted_iff_specials_allowed (s : string) (mn mx : Z)
        (sp : list ascii) :
  exists s',
    CronField.sub_english_phrases s = Py.Return s' /\
    ((forall c, In c (Py.chars s') -> In c CronField.SPECIALS -> In c sp) <->
     exists f, CronField.__init__ (VStr s) mn mx sp = Py.Return f) /\
    (forall f, CronField.__init__ (VStr s) mn mx sp = Py.Return f ->
               f = {| CronField.value := VStr s'; CronField.min := mn;
                      CronField.max := mx; CronField.specials := sp |}).
Proof.
  destruct (sub_english_phrases_total s) as (s' & Hs'). exists s'.
  split; [exact Hs'|]. rewrite (init_pattern_result s s' mn mx sp Hs').
  destruct (CronField.intersection _ _) as [|d ds] eqn:E.
  - split.
    + split; [intros _; now eexists|]. intros _ c Hc HS.
      destruct (in_dec ascii_dec c sp) as [Hin|Hout]; [exact Hin|exfalso].
      assert (H : In c []); [|exact H].
      rewrite <- E. apply invalid_chars_spec. tauto.
    + intros f Hf. now inversion Hf.
  - split.
    + split; [|intros (f & Hf); discriminate Hf]. intros Hall. exfalso.
      assert (Hd : In d (d :: ds)) by now left.
      rewrite <- E in Hd. apply invalid_chars_spec in Hd as (HS & Hn & Hc).
      apply Hn. now apply Hall.
    + intros f Hf. discriminate Hf.
Qed.

(** Witness: [every] is no special text, so the weekday field takes it;
    [1#2] is refused by the month field, which does not allow [#]. *)
Lemma pattern_accepted_iff_specials_allowed_witness :
  (exists f, dow (VStr "every") = Py.Return f /\ CronField.value f = VStr "every") /\
  ~ (exists f, mon (VStr "1#2") = Py.Return f).
Proof.
  split.
  - destruct (pattern_accepted_iff_specials_allowed "every" 0 6
                ["*"; "/"; "-"; "?"; "L"; "#"]%char) as (s' & Hs' & [Hyes _] & Hshape).
    assert (E : s' = "every") by (vm_compute in Hs'; congruence). subst s'.
    destruct Hyes as (f & Hf).
    + intros c Hc HS. exfalso. simpl in Hc, HS.
      repeat (destruct Hc as [<-|Hc];
              [repeat (destruct HS as [HS|HS]; [discriminate HS|]); exact HS|]).
      exact Hc.
    + exists f. split; [exact Hf|]. now rewrite (Hshape f Hf).
  - destruct (pattern_accepted_iff_specials_allowed "1#2" 1 12
                ["*"; "/"; ","; "-"]%char) as (s' & Hs' & [_ Hno] & _).
    assert (E : s' = "1#2") by (vm_compute in Hs'; congruence). subst s'.
    intros Hex. specialize (Hno Hex "#"%char).
    assert (Hin : In "#"%char ["*"; "/"; ","; "-"]%char)
      by (apply Hno; simpl; tauto).
    simpl in Hin. repeat (destruct Hin as [Hin|Hin]; [discriminate Hin|]). exact Hin.
Defined.

(** ** Phrase substitution, position by position *)

Lemma sub_english_phrases_unfold s :
  CronField.sub_english_phrases s = re.sub_go PHRASES_REGEX phrase_repl O false s.
Proof. reflexivity. Qed.

Lemma match_literal_prefix ic lit : forall s m,
  re.match_literal ic lit s = Some m ->
  exists tail, s = m +:+ tail /\ String.length m = String.length lit.
Proof.
  induction lit as [|a lit IH]; intros s m H; cbn [re.match_literal] in H.
  - inversion H; subst. now exists s.
  - destruct s as [|c s]; [discriminate|].
    destruct (Ascii.eqb _ _); [|discriminate].
    destruct (re.match_literal ic lit s) as [m'|] eqn:Hm; [|discriminate].
    inversion H; subst. destruct (IH s m' Hm) as (tail & -> & Hlen).
    exists tail. split; [reflexivity|]. simpl. now rewrite Hlen.
Qed.

Lemma alternatives_are_words :
  forallb (fun alt => negb (String.eqb alt "") &&
                      forallb is_lower_letter (Py.chars alt))
          (re.alternatives PHRASES_REGEX) = true.
Proof. vm_compute. reflexivity. Qed.

Lemma match_at_nonempty s m :
  re.match_at PHRASES_REGEX s = Some m -> exists k, String.length m = S k.
Proof.
  intros H. apply match_first_alternative in H as (alt & Hin & Hm).
  apply match_literal_prefix in Hm as (_ & _ & Hlen).
  pose proof alternatives_are_words as Hw. rewrite forallb_forall in Hw.
  specialize (Hw alt Hin). apply andb_prop in Hw as [Hne _].
  destruct alt as [|a alt]; [discriminate Hne|]. exists (String.length alt).
  now rewrite Hlen.
Qed.

(** No alternative is empty, so the flag for empty matches is idle. *)
Lemma sub_go_flag repl skip am am' s :
  re.sub_go PHRASES_REGEX repl skip am s = re.sub_go PHRASES_REGEX repl skip am' s.
Proof.
  destruct s as [|c s]; destruct skip as [|k]; cbn [re.sub_go]; try reflexivity.
  destruct (re.match_at PHRASES_REGEX (String c s)) as [m|] eqn:Hm; [|reflexivity].
  destruct (match_at_nonempty _ _ Hm) as (k & Hk). now rewrite Hk.
Qed.

Lemma PHRASES_values_nonneg :
  forallb (fun kv => 0 <=? snd kv) (PyDict.items PHRASES) = true.
Proof. vm_compute. reflexivity. Qed.

Lemma getitem_in_items {V} (d : PyDict.dict V) k v :
  PyDict.getitem d k = Py.Return v -> exists k', In (k', v) (PyDict.items d).
Proof.
  unfold PyDict.getitem, PyDict.get, PyDict.items.
  destruct (List.find _ (PyDict.live d)) as [e|] eqn:Hf; [|discriminate].
  intros H. inversion H; subst. apply find_some in Hf as [Hin _].
  exists (PyDict.me_key e). apply in_map_iff. now exists e.
Qed.

(** What a match is replaced with: a non-empty run of digits. *)
Lemma phrase_repl_digits s m :
  re.match_at PHRASES_REGEX s = Some m ->
  exists n, PyDict.getitem PHRASES (Py.lower m) = Py.Return n /\
            phrase_repl m = Py.Return (Py.str_nat n) /\ 0 <= n.
Proof.
  intros H. destruct (repl_defined _ _ H) as (n & Hn). exists n.
  destruct (getitem_in_items _ _ _ Hn) as (k' & Hin).
  pose proof PHRASES_values_nonneg as Hv. rewrite forallb_forall in Hv.
  specialize (Hv _ Hin). cbn [snd] in Hv. apply Z.leb_le in Hv.
  split; [exact Hn|]. split; [|exact Hv].
  unfold phrase_repl. rewrite Hn. cbn [Py.bind]. unfold Py.str.
  now replace (n <? 0) with false by (symmetry; apply Z.ltb_ge; lia).
Qed.

Lemma sub_go_digits r : forall am rest,
  is_digits r = true ->
  re.sub_go PHRASES_REGEX phrase_repl O am (r +:+ rest) =
  (x <- re.sub_go PHRASES_REGEX phrase_repl O false rest;; Py.Return (r +:+ x)).
Proof.
  induction r as [|c r IH]; intros am rest Hd.
  - change ("" +:+ rest) with rest. rewrite (sub_go_flag _ O am false).
    destruct (re.sub_go _ _ _ _ rest); reflexivity.
  - unfold is_digits in Hd. cbn [Py.chars forallb] in Hd.
    apply andb_prop in Hd as [Hc Hr].
    change (String c r +:+ rest) with (String c (r +:+ rest)).
    cbn [re.sub_go].
    rewrite (match_at_no_phrase c _ (digit_starts_no_phrase c Hc)).
    rewrite (IH false rest Hr).
    destruct (re.sub_go _ _ _ _ rest); reflexivity.
Qed.

Lemma letter_not_digit a x :
  is_lower_letter a = true -> Py.isdigit x = true ->
  Ascii.eqb (Py.lower_char a) (Py.lower_char x) = false.
Proof.
  intros Ha Hx.
  destruct a as [[] [] [] [] [] [] [] []]; try discriminate Ha;
    destruct x as [[] [] [] [] [] [] [] []]; try discriminate Hx; reflexivity.
Qed.

Lemma match_first_some ic alts : forall alt s m,
  In alt alts -> re.match_literal ic alt s = Some m ->
  exists m', re.match_first ic alts s = Some m'.
Proof.
  induction alts as [|a alts IH]; intros alt s m Hin Hm; [contradiction|].
  cbn [re.match_first]. destruct (re.match_literal ic a s) as [m0|] eqn:Ha;
    [now exists m0|].
  destruct Hin as [->|Hin]; [congruence|]. now apply (IH alt s m).
Qed.

(** A word that matches the output up to some point matches the input
    there too: the output differs from the input only from a digit on. *)
Lemma match_literal_output lit : forall s am out m,
  forallb is_lower_letter (Py.chars lit) = true ->
  re.sub_go PHRASES_REGEX phrase_repl O am s = Py.Return out ->
  re.match_literal true lit out = Some m ->
  exists m', re.match_literal true lit s = Some m'.
Proof.
  induction lit as [|a lit IH]; intros s am out m Hl Hout Hm.
  - now exists EmptyString.
  - cbn [Py.chars forallb] in Hl. apply andb_prop in Hl as [Ha Hl].
    cbn [re.match_literal] in Hm. destruct out as [|x out]; [discriminate|].
    cbn [re.fold_case] in Hm.
    destruct (Ascii.eqb_spec (Py.lower_char a) (Py.lower_char x)) as [E|_];
      [|discriminate].
    destruct (re.match_literal true lit out) as [m0|] eqn:Hm0; [|discriminate].
    destruct s as [|c s]; [discriminate Hout|].
    cbn [re.sub_go] in Hout.
    destruct (re.match_at PHRASES_REGEX (String c s)) as [w|] eqn:Hw.
    + exfalso. destruct (match_at_nonempty _ _ Hw) as (k & Hk). rewrite Hk in Hout.
      destruct (phrase_repl_digits _ _ Hw) as (n & _ & Hr & Hn).
      rewrite Hr in Hout. cbn [Py.bind] in Hout.
      destruct (re.sub_go _ _ k true s) as [rest|]; [|discriminate].
      cbn [Py.bind] in Hout. inversion Hout as [Ho].
      pose proof (str_nat_is_digits n Hn) as Hd.
      pose proof (str_nat_nonempty n) as Hne.
      destruct (Py.str_nat n) as [|d ds]; [congruence|].
      inversion Ho; subst. unfold is_digits in Hd. cbn [Py.chars forallb] in Hd.
      apply andb_prop in Hd as [Hd _].
      pose proof (letter_not_digit a x Ha Hd) as Hneq.
      rewrite E, Ascii.eqb_refl in Hneq. discriminate.
    + destruct (re.sub_go _ _ O false s) as [rest|] eqn:Hrest; [|discriminate].
      cbn [Py.bind] in Hout. injection Hout as Hx Ho. subst x out.
      destruct (IH s false rest m0 Hl Hrest Hm0) as (m' & Hm').
      exists (String c m'). cbn [re.match_literal re.fold_case].
      now rewrite E, Ascii.eqb_refl, Hm'.
Qed.

Lemma sub_go_idempotent s : forall skip am out,
  re.sub_go PHRASES_REGEX phrase_repl skip am s = Py.Return out ->
  re.sub_go PHRASES_REGEX phrase_repl O false out = Py.Return out.
Proof.
  induction s as [|c s IH]; intros skip am out H.
  - destruct skip; cbn in H; inversion H; reflexivity.
  - destruct skip as [|k]; cbn [re.sub_go] in H; [|now apply (IH k true)].
    destruct (re.match_at PHRASES_REGEX (String c s)) as [w|] eqn:Hw.
    + destruct (match_at_nonempty _ _ Hw) as (k & Hk). rewrite Hk in H.
      destruct (phrase_repl_digits _ _ Hw) as (n & _ & Hr & Hn).
      rewrite Hr in H. cbn [Py.bind] in H.
      destruct (re.sub_go _ _ k true s) as [rest|] eqn:Hrest; [|discriminate].
      cbn [Py.bind] in H. inversion H; subst.
      rewrite (sub_go_digits _ false rest (str_nat_is_digits n Hn)).
      now rewrite (IH k true rest Hrest).
    + destruct (re.sub_go _ _ O false s) as [rest|] eqn:Hrest; [|discriminate].
      cbn [Py.bind] in H. inversion H; subst.
      cbn [re.sub_go].
      destruct (re.match_at PHRASES_REGEX (String c rest)) as [w|] eqn:Hw'.
      * exfalso. apply match_first_alternative in Hw' as (alt & Hin & Hm).
        change (re.ignorecase PHRASES_REGEX) with true in Hm.
        pose proof alternatives_are_words as Hwords.
        rewrite forallb_forall in Hwords. specialize (Hwords alt Hin).
        apply andb_prop in Hwords as [_ Hl].
        destruct alt as [|a alt]; [|].
        { assert (Hmatch : re.match_literal true EmptyString (String c s) = Some EmptyString)
            by reflexivity.
          destruct (match_first_some true _ _ _ _ Hin Hmatch) as (m' & Hm').
          unfold re.match_at in Hw. change (re.ignorecase PHRASES_REGEX) with true in Hw.
          congruence. }
        cbn [re.match_literal re.fold_case] in Hm.
        destruct (Ascii.eqb_spec (Py.lower_char a) (Py.lower_char c)) as [E|_];
          [|discriminate].
        destruct (re.match_literal true alt rest) as [m0|] eqn:Hm0; [|discriminate].
        cbn [Py.chars forallb] in Hl. apply andb_prop in Hl as [_ Hl].
        destruct (match_literal_output alt s false rest m0 Hl Hrest Hm0) as (m1 & Hm1).
        assert (Hmatch : re.match_literal true (String a alt) (String c s)
                         = Some (String c m1)).
        { cbn [re.match_literal re.fold_case]. now rewrite E, Ascii.eqb_refl, Hm1. }
        destruct (match_first_some true _ _ _ _ Hin Hmatch) as (m' & Hm').
        unfold re.match_at in Hw. change (re.ignorecase PHRASES_REGEX) with true in Hw.
        congruence.
      * now rewrite (IH O false rest Hrest).
Qed.

Lemma sub_english_phrases_idempotent s s' :
  CronField.sub_english_phrases s = Py.Return s' ->
  CronField.sub_english_phrases s' = Py.Return s'.
Proof. rewrite !sub_english_phrases_unfold. apply sub_go_idempotent. Qed.

Lemma sorted_of_sorted l : StronglySorted Z.le l -> Py.sorted l = l.
Proof.
  induction 1 as [|x l Hs IH Hx]; [reflexivity|].
  unfold Py.sorted in *. cbn [fold_right]. rewrite IH.
  destruct l as [|y l]; [reflexivity|]. cbn [Py.insert_sorted].
  inversion Hx; subst. now replace (x <=? y) with true by (symmetry; apply Z.leb_le; lia).
Qed.

(** Building a field again from what a field stores gives the same
    field: substituted text has no phrase left to substitute, a sorted
    list stays as it is, and the checks pass as they did. *)
Theorem rebuilding_a_field_changes_nothing (v : CronField.Value) (mn mx : Z)
        (sp : list ascii) (f : CronField.t) :
  CronField.__init__ v mn mx sp = Py.Return f ->
  CronField.__init__ (CronField.value f) (CronField.min f) (CronField.max f)
                     (CronField.specials f) = Py.Return f.
Proof.
  intros H. destruct v as [n|s|l].
  - unfold CronField.__init__ in H.
    destruct ((mn <=? n) && (n <=? mx)) eqn:Hb; [|discriminate].
    cbn [Py.bind] in H. inversion H; subst. cbn [CronField.value CronField.min
      CronField.max CronField.specials]. unfold CronField.__init__. now rewrite Hb.
  - destruct (sub_english_phrases_total s) as (s' & Hs').
    rewrite (init_pattern_result s s' mn mx sp Hs') in H.
    destruct (CronField.intersection _ _) as [|d ds] eqn:E; [|discriminate].
    inversion H; subst. cbn [CronField.value CronField.min CronField.max
      CronField.specials].
    rewrite (init_pattern_result s' s' mn mx sp (sub_english_phrases_idempotent _ _ Hs')).
    now rewrite E.
  - inversion H; subst. cbn [CronField.value CronField.min CronField.max
      CronField.specials]. unfold CronField.__init__. cbn [Py.bind].
    now rewrite (sorted_of_sorted _ (sorted_sorted l)).
Qed.

(** Witness: the weekday field of [Mon-FRI] stores [0-4]. *)
Lemma rebuilding_a_field_changes_nothing_witness :
  exists f,
    dow (VStr "Mon-FRI") = Py.Return f /\
    CronField.value f = VStr "0-4" /\
    dow (CronField.value f) = Py.Return f.
Proof.
  pose (f := {| CronField.value := VStr "0-4"; CronField.min := 0; CronField.max := 6;
                CronField.specials := ["*"; "/"; "-"; "?"; "L"; "#"]%char |}).
  assert (Hf : dow (VStr "Mon-FRI") = Py.Return f) by (vm_compute; reflexivity).
  exists f. split; [exact Hf|]. split; [reflexivity|].
  exact (rebuilding_a_field_changes_nothing (VStr "Mon-FRI") 0 6
           ["*"; "/"; "-"; "?"; "L"; "#"]%char f Hf).
Defined.

(** ** Phrases in any letter case *)

Lemma lower_char_idem c : Py.lower_char (Py.lower_char c) = Py.lower_char c.
Proof. destruct c as [[] [] [] [] [] [] [] []]; reflexivity. Qed.

Lemma lower_idem s : Py.lower (Py.lower s) = Py.lower s.
Proof.
  induction s as [|c s IH]; [reflexivity|]. simpl. now rewrite lower_char_idem, IH.
Qed.

Lemma lower_length s : String.length (Py.lower s) = String.length s.
Proof. induction s as [|c s IH]; [reflexivity|]. simpl. now rewrite IH. Qed.

Lemma lower_app s1 s2 : Py.lower (s1 +:+ s2) = Py.lower s1 +:+ Py.lower s2.
Proof. induction s1 as [|c s1 IH]; [reflexivity|]. simpl. now rewrite IH. Qed.

Lemma match_literal_lower_text lit : forall s,
  re.match_literal true lit (Py.lower s) =
  option_map Py.lower (re.match_literal true lit s).
Proof.
  induction lit as [|a lit IH]; intros s; [reflexivity|].
  destruct s as [|c s]; [reflexivity|].
  cbn [Py.lower re.match_literal re.fold_case]. rewrite lower_char_idem, IH.
  destruct (Ascii.eqb _ _); [|reflexivity].
  now destruct (re.match_literal true lit s).
Qed.

Lemma match_at_lower_text s :
  re.match_at PHRASES_REGEX (Py.lower s) =
  option_map Py.lower (re.match_at PHRASES_REGEX s).
Proof.
  unfold re.match_at. change (re.ignorecase PHRASES_REGEX) with true.
  induction (re.alternatives PHRASES_REGEX) as [|alt alts IH]; [reflexivity|].
  cbn [re.match_first]. rewrite match_literal_lower_text.
  now destruct (re.match_literal true alt s).
Qed.

Lemma unmatched_stays s am :
  unmatched (Py.lower s) = true ->
  re.sub_go PHRASES_REGEX phrase_repl O am s = Py.Return s.
Proof.
  revert am. induction s as [|c s IH]; intros am H; [reflexivity|].
  cbn [Py.lower unmatched] in H.
  change (String (Py.lower_char c) (Py.lower s)) with (Py.lower (String c s)) in H.
  rewrite match_at_lower_text in H.
  cbn [re.sub_go].
  destruct (re.match_at PHRASES_REGEX (String c s)); [discriminate H|].
  cbn [option_map] in H. now rewrite (IH false H).
Qed.

Lemma sub_go_skip pre : forall am tail,
  re.sub_go PHRASES_REGEX phrase_repl (String.length pre) am (pre +:+ tail) =
  re.sub_go PHRASES_REGEX phrase_repl O false tail.
Proof.
  induction pre as [|c pre IH]; intros am tail.
  - apply sub_go_flag.
  - change (String c pre +:+ tail) with (String c (pre +:+ tail)).
    cbn [String.length re.sub_go]. apply IH.
Qed.

Lemma string_drop_app pre tail :
  string_drop (String.length pre) (pre +:+ tail) = tail.
Proof.
  induction pre as [|c pre IH]; [now destruct tail|]. exact IH.
Qed.

Lemma append_empty_r s : s +:+ "" = s.
Proof.
  induction s as [|c s IH]; [reflexivity|].
  change (String c s +:+ "") with (String c (s +:+ "")). now rewrite IH.
Qed.

(** The text is cut after the first alternative that matches its
    lower-case form; that head is replaced and the tail kept. *)
Lemma phrase_effect s k0 n :
  re.match_at PHRASES_REGEX (Py.lower s) = Some k0 ->
  PyDict.getitem PHRASES (Py.lower k0) = Py.Return n ->
  unmatched (string_drop (String.length k0) (Py.lower s)) = true ->
  exists head tail,
    s = head +:+ tail /\ String.length head = String.length k0 /\
    CronField.sub_english_phrases s = Py.Return (Py.str n +:+ tail).
Proof.
  intros Hk Hn Htail. rewrite match_at_lower_text in Hk.
  destruct (re.match_at PHRASES_REGEX s) as [m|] eqn:Hm; [|discriminate].
  cbn [option_map] in Hk. injection Hk as Hlow.
  pose proof Hm as Hm'. apply match_first_alternative in Hm' as (alt & _ & Halt).
  apply match_literal_prefix in Halt as (tail & Hs & _).
  exists m, tail. split; [exact Hs|].
  split; [now rewrite <- Hlow, lower_length|].
  rewrite Hs, lower_app, Hlow, string_drop_app in Htail.
  rewrite <- Hlow, lower_idem in Hn.
  rewrite sub_english_phrases_unfold.
  destruct (match_at_nonempty _ _ Hm) as (k & Hlen).
  destruct m as [|c m]; [discriminate Hlen|].
  rewrite Hs in Hm |- *.
  change (String c m +:+ tail) with (String c (m +:+ tail)) in *.
  cbn [re.sub_go]. rewrite Hm. cbn [String.length].
  unfold phrase_repl at 1. rewrite Hn. cbn [Py.bind].
  rewrite sub_go_skip, (unmatched_stays tail false Htail). reflexivity.
Qed.

Lemma append_length s1 s2 :
  String.length (s1 +:+ s2) = (String.length s1 + String.length s2)%nat.
Proof.
  induction s1 as [|c s1 IH]; [reflexivity|].
  change (String c s1 +:+ s2) with (String c (s1 +:+ s2)).
  cbn [String.length]. now rewrite IH.
Qed.

Ltac phrase_case s Hk :=
  lazymatch type of Hk with
  | ?k = Py.lower s =>
      let r := eval vm_compute in (re.match_at PHRASES_REGEX k) in
      lazymatch r with
      | Some ?k0 =>
          let v := eval vm_compute in (PyDict.get PHRASES k0) in
          lazymatch v with
          | Some ?n =>
              let head := fresh "head" in
              let tail := fresh "tail" in
              let Hs := fresh "Hs" in
              let Hlen := fresh "Hlen" in
              let Hsub := fresh "Hsub" in
              destruct (phrase_effect s k0 n) as (head & tail & Hs & Hlen & Hsub);
              [rewrite <- Hk; vm_compute; reflexivity
              |vm_compute; reflexivity
              |rewrite <- Hk; vm_compute; reflexivity
              |exists n; (split; [rewrite <- Hk; vm_compute; reflexivity|])]
          end
      end
  end.

(** Month and weekday names in any letter case.  Every three-letter
    abbreviation and the names Monday, Tuesday, Thursday, Saturday,
    November and December are replaced by their number.  Of the twelve
    other names only the leading abbreviation is replaced and the rest of
    the name stays in the text. *)
Theorem phrases_in_any_letter_case (s : string) :
  (In (Py.lower s) whole_phrases ->
   exists n, PyDict.get PHRASES (Py.lower s) = Some n /\
             CronField.sub_english_phrases s = Py.Return (Py.str n)) /\
  (In (Py.lower s) cut_phrases ->
   exists n, PyDict.get PHRASES (Py.lower s) = Some n /\
             exists head tail,
               s = head +:+ tail /\ String.length head = 3%nat /\
               CronField.sub_english_phrases s = Py.Return (Py.str n +:+ tail)).
Proof.
  split; intros Hin; simpl in Hin.
  - repeat (destruct Hin as [Hk|Hin];
            [phrase_case s Hk;
             assert (Ht : tail = EmptyString);
             [apply (f_equal String.length) in Hk; rewrite lower_length, Hs,
                append_length, Hlen in Hk; cbn [String.length] in Hk;
              destruct tail; [reflexivity|cbn [String.length] in Hk; lia]
             |rewrite Hsub, Ht; now rewrite append_empty_r]|]).
    contradiction.
  - repeat (destruct Hin as [Hk|Hin];
            [phrase_case s Hk; exists head, tail; repeat split; assumption|]).
    contradiction.
Qed.

(** Witness: [SEP] is 9, [Sunday] becomes [6day]. *)
Lemma phrases_in_any_letter_case_witness :
  In (Py.lower "SEP") whole_phrases /\
  CronField.sub_english_phrases "SEP" = Py.Return "9" /\
  In (Py.lower "Sunday") cut_phrases /\
  CronField.sub_english_phrases "Sunday" = Py.Return "6day".
Proof.
  assert (H1 : In (Py.lower "SEP") whole_phrases) by (vm_compute; tauto).
  assert (H2 : In (Py.lower "Sunday") cut_phrases) by (vm_compute; tauto).
  split; [exact H1|]. split; [|split; [exact H2|]].
  - destruct (proj1 (phrases_in_any_letter_case "SEP") H1) as (n & Hn & Hsub).
    vm_compute in Hn. injection Hn as <-. exact Hsub.
  - destruct (proj2 (phrases_in_any_letter_case "Sunday") H2)
      as (n & Hn & head & tail & Hs & Hlen & Hsub).
    vm_compute in Hn. injection Hn as <-.
    destruct head as [|a [|b [|c [|d head]]]]; try discriminate Hlen.
    change (String a (String b (String c "")) +:+ tail)
      with (String a (String b (String c tail))) in Hs.
    injection Hs as _ _ _ Ht. rewrite Hsub, <- Ht. reflexivity.
Defined.

(** * Further properties of expressions *)

Lemma contains_unrolled e dt :
  CronExpression.__contains__ e (Datetime dt) =
  Py.all (fun p : CronField.t * Z => CronField.__contains__ (fst p) (snd p))
    [(CronExpression.hour e, datetime.hour dt);
     (CronExpression.month e, datetime.month dt);
     (CronExpression.second e, datetime.second dt);
     (CronExpression.weekday e, datetime.weekday dt);
     (CronExpression.year e, datetime.year dt);
     (CronExpression.day e, datetime.day dt);
     (CronExpression.minute e, datetime.minute dt)].
Proof.
  unfold CronExpression.__contains__. rewrite dict_items.
  cbn [datetime.timetuple firstn].
  destruct (struct_time_items (datetime.year dt) (datetime.month dt) (datetime.day dt)
              (datetime.hour dt) (datetime.minute dt) (datetime.second dt)
              (datetime.weekday dt)) as (Hy & Hmo & Hd & Hh & Hmi & Hs & Hw).
  cbn [Py.all fst snd]. rewrite Hy, Hmo, Hd, Hh, Hmi, Hs, Hw. reflexivity.
Qed.

(** The fields are tested in the order hour, month, second, weekday,
    year, day, minute, and the test stops at the first field that does
    not accept: a refusing hour field answers [False] even when a later
    field would raise, and a raising hour field raises even when a later
    field refuses. *)
Theorem expression_tests_fields_in_order (e : CronExpression.t)
        (dt : datetime.datetime) :
  CronExpression.__contains__ e (Datetime dt) =
  Py.all (fun p : CronField.t * Z => CronField.__contains__ (fst p) (snd p))
    [(CronExpression.hour e, datetime.hour dt);
     (CronExpression.month e, datetime.month dt);
     (CronExpression.second e, datetime.second dt);
     (CronExpression.weekday e, datetime.weekday dt);
     (CronExpression.year e, datetime.year dt);
     (CronExpression.day e, datetime.day dt);
     (CronExpression.minute e, datetime.minute dt)] /\
  (CronField.__contains__ (CronExpression.hour e) (datetime.hour dt) = Py.Return false ->
   CronExpression.__contains__ e (Datetime dt) = Py.Return false) /\
  (forall x,
     CronField.__contains__ (CronExpression.hour e) (datetime.hour dt) = Py.Raise x ->
     CronExpression.__contains__ e (Datetime dt) = Py.Raise x) /\
  (CronField.__contains__ (CronExpression.hour e) (datetime.hour dt) = Py.Return true ->
   CronField.__contains__ (CronExpression.month e) (datetime.month dt) = Py.Return true ->
   CronField.__contains__ (CronExpression.second e) (datetime.second dt) = Py.Return false ->
   CronExpression.__contains__ e (Datetime dt) = Py.Return false).
Proof.
  rewrite contains_unrolled. cbn [Py.all fst snd].
  split; [reflexivity|]. split; [|split].
  - intros H. now rewrite H.
  - intros x H. now rewrite H.
  - intros H1 H2 H3. now rewrite H1, H2, H3.
Qed.

(** Witness: with [1 * * * * foo *] the seconds field refuses noon
    before the malformed weekday field is asked. *)
Lemma expression_tests_fields_in_order_witness :
  exists e,
    CronExpression.__init__ (Some "1 * * * * foo *") [] = Py.Return e /\
    CronField.__contains__ (CronExpression.weekday e) (datetime.weekday noon) =
      Py.Raise (Py.InvalidLiteral "foo") /\
    CronExpression.__contains__ e (Datetime noon) = Py.Return false.
Proof.
  eexists. split; [vm_compute; reflexivity|]. split; [vm_compute; reflexivity|].
  apply (proj2 (proj2 (proj2 (expression_tests_fields_in_order _ noon))));
    vm_compute; reflexivity.
Defined.

(** ** Wildcards and presets *)

Lemma wildcard_field c mn mx sp :
  CronField.__contains__
    {| CronField.value := VStr "*"; CronField.min := mn; CronField.max := mx;
       CronField.specials := sp |} c = Py.Return ((mn <=? c) && (c <=? mx)).
Proof. reflexivity. Qed.

Lemma zero_field c mn mx sp :
  CronField.__contains__
    {| CronField.value := VStr "0"; CronField.min := mn; CronField.max := mx;
       CronField.specials := sp |} c = Py.Return (0 =? c).
Proof. reflexivity. Qed.

Lemma one_field c mn mx sp :
  CronField.__contains__
    {| CronField.value := VStr "1"; CronField.min := mn; CronField.max := mx;
       CronField.specials := sp |} c = Py.Return (1 =? c).
Proof. reflexivity. Qed.

Lemma days_in_month_bound y m : 1 <= m <= 12 -> days_in_month y m <= 31.
Proof.
  intros Hm. unfold days_in_month.
  destruct ((m =? 2) && datetime.is_leap y); [lia|].
  assert (H : m = 1 \/ m = 2 \/ m = 3 \/ m = 4 \/ m = 5 \/ m = 6 \/ m = 7 \/
              m = 8 \/ m = 9 \/ m = 10 \/ m = 11 \/ m = 12) by lia.
  repeat (destruct H as [->|H]; [vm_compute; congruence|]). subst; vm_compute; congruence.
Qed.

(** The components of a timestamp lie within the bounds of the fields,
    the year apart. *)
Lemma valid_components dt :
  valid_datetime dt ->
  ((0 <=? datetime.second dt) && (datetime.second dt <=? 59) = true) /\
  ((0 <=? datetime.minute dt) && (datetime.minute dt <=? 59) = true) /\
  ((0 <=? datetime.hour dt) && (datetime.hour dt <=? 23) = true) /\
  ((1 <=? datetime.day dt) && (datetime.day dt <=? 31) = true) /\
  ((1 <=? datetime.month dt) && (datetime.month dt <=? 12) = true) /\
  ((0 <=? datetime.weekday dt) && (datetime.weekday dt <=? 6) = true).
Proof.
  intros (Hy & Hmo & Hd & Hh & Hmi & Hs & _).
  pose proof (days_in_month_bound (datetime.year dt) _ Hmo).
  assert (0 <= datetime.weekday dt < 7) by (apply Z.mod_pos_bound; lia).
  repeat split; apply andb_true_intro; split; apply Z.leb_le; lia.
Qed.

(** With no argument at all every field is the wildcard, and yet the
    expression does not match every timestamp: it matches exactly those
    of the years 1970 to 2099, the bounds of the year field. *)
Theorem default_expression_matches_1970_to_2099 :
  exists e,
    CronExpression.__init__ None [] = Py.Return e /\
    CronExpression.__str__ e = "* * * * * * *" /\
    forall dt, valid_datetime dt ->
      CronExpression.__contains__ e (Datetime dt) =
      Py.Return ((1970 <=? datetime.year dt) && (datetime.year dt <=? 2099)).
Proof.
  eexists. split; [vm_compute; reflexivity|]. split; [vm_compute; reflexivity|].
  intros dt Hv. rewrite contains_unrolled.
  destruct (valid_components dt Hv) as (Hs & Hmi & Hh & Hd & Hmo & Hw).
  cbn [Py.all fst snd CronExpression.hour CronExpression.month CronExpression.second
       CronExpression.weekday CronExpression.year CronExpression.day
       CronExpression.minute].
  rewrite !wildcard_field, Hs, Hmi, Hh, Hd, Hmo, Hw. cbn [Py.bind].
  destruct ((1970 <=? datetime.year dt) && (datetime.year dt <=? 2099)); reflexivity.
Qed.

(** Witness: New Year 2100 is not matched by the all-wildcard expression. *)
Lemma default_expression_matches_1970_to_2099_witness :
  let dt := {| datetime.year := 2100; datetime.month := 1; datetime.day := 1;
               datetime.hour := 0; datetime.minute := 0; datetime.second := 0;
               datetime.microsecond := 0 |} in
  valid_datetime dt /\
  exists e, CronExpression.__init__ None [] = Py.Return e /\
            CronExpression.__contains__ e (Datetime dt) = Py.Return false /\
            CronExpression.__contains__ e (Datetime noon) = Py.Return true.
Proof.
  intros dt.
  assert (Hv : valid_datetime dt).
  { unfold valid_datetime, dt. cbn [datetime.year datetime.month datetime.day
      datetime.hour datetime.minute datetime.second datetime.microsecond].
    change (days_in_month 2100 1) with 31. lia. }
  assert (Hn : valid_datetime noon).
  { unfold valid_datetime, noon. cbn [datetime.year datetime.month datetime.day
      datetime.hour datetime.minute datetime.second datetime.microsecond].
    change (days_in_month 2013 1) with 31. lia. }
  split; [exact Hv|].
  destruct default_expression_matches_1970_to_2099 as (e & He & _ & Hc).
  exists e. split; [exact He|]. rewrite (Hc dt Hv), (Hc noon Hn).
  split; reflexivity.
Defined.

Lemma fires_iff e dt :
  CronExpression.__contains__ e (Datetime dt) = Py.Return true <->
  CronField.__contains__ (CronExpression.hour e) (datetime.hour dt) = Py.Return true /\
  CronField.__contains__ (CronExpression.month e) (datetime.month dt) = Py.Return true /\
  CronField.__contains__ (CronExpression.second e) (datetime.second dt) = Py.Return true /\
  CronField.__contains__ (CronExpression.weekday e) (datetime.weekday dt) = Py.Return true /\
  CronField.__contains__ (CronExpression.year e) (datetime.year dt) = Py.Return true /\
  CronField.__contains__ (CronExpression.day e) (datetime.day dt) = Py.Return true /\
  CronField.__contains__ (CronExpression.minute e) (datetime.minute dt) = Py.Return true.
Proof.
  rewrite contains_unrolled, all_true_iff. split.
  - intros H. repeat split;
      match goal with
      | |- CronField.__contains__ ?f ?c = _ => apply (H (f, c)); simpl; tauto
      end.
  - intros (H1 & H2 & H3 & H4 & H5 & H6 & H7) p Hp. simpl in Hp.
    repeat (destruct Hp as [<-|Hp]; [assumption|]). contradiction.
Qed.

Lemma zero_field_iff c mn mx sp :
  CronField.__contains__
    {| CronField.value := VStr "0"; CronField.min := mn; CronField.max := mx;
       CronField.specials := sp |} c = Py.Return true <-> c = 0.
Proof.
  rewrite zero_field. split.
  - intros H. assert (E : (0 =? c) = true) by congruence.
    apply Z.eqb_eq in E. congruence.
  - intros ->. reflexivity.
Qed.

Lemma one_field_iff c mn mx sp :
  CronField.__contains__
    {| CronField.value := VStr "1"; CronField.min := mn; CronField.max := mx;
       CronField.specials := sp |} c = Py.Return true <-> c = 1.
Proof.
  rewrite one_field. split.
  - intros H. assert (E : (1 =? c) = true) by congruence.
    apply Z.eqb_eq in E. congruence.
  - intros ->. reflexivity.
Qed.

Lemma wildcard_field_iff c mn mx sp :
  CronField.__contains__
    {| CronField.value := VStr "*"; CronField.min := mn; CronField.max := mx;
       CronField.specials := sp |} c = Py.Return true <-> mn <= c <= mx.
Proof.
  rewrite wildcard_field. split.
  - intros H. assert (E : (mn <=? c) && (c <=? mx) = true) by congruence.
    apply andb_prop in E as [H1 H2].
    apply Z.leb_le in H1. apply Z.leb_le in H2. lia.
  - intros [H1 H2]. f_equal. apply andb_true_intro. split; now apply Z.leb_le.
Qed.

Ltac preset key :=
  let v := eval vm_compute in (PyDict.get KEYWORDS key) in
  replace (PyDict.get KEYWORDS key) with v by (vm_compute; reflexivity);
  cbv beta iota; rewrite fires_iff;
  cbn [CronExpression.hour CronExpression.month CronExpression.second
       CronExpression.weekday CronExpression.year CronExpression.day
       CronExpression.minute];
  rewrite ?zero_field_iff, ?one_field_iff, ?wildcard_field_iff.

(** The presets, on timestamps a [datetime] can hold.  Each fires at
    second 0 (and minute 0, hour 0, ... as far as it is fixed) in the years
    1970 to 2099 only; [weekly] fires on weekday 0, which is Monday;
    [reboot] has no expression at all. *)
Theorem presets_fire_at (dt : datetime.datetime) :
  let fires := fun key =>
    match PyDict.get KEYWORDS key with
    | Some (Some (Py.Return e)) =>
        CronExpression.__contains__ e (Datetime dt) = Py.Return true
    | _ => False
    end in
  let in_years := 1970 <= datetime.year dt <= 2099 in
  let midnight :=
    datetime.hour dt = 0 /\ datetime.minute dt = 0 /\ datetime.second dt = 0 in
  valid_datetime dt ->
  (fires "yearly" <->
     in_years /\ midnight /\ datetime.month dt = 1 /\ datetime.day dt = 1) /\
  (fires "annually" <->
     in_years /\ midnight /\ datetime.month dt = 1 /\ datetime.day dt = 1) /\
  (fires "monthly" <-> in_years /\ midnight /\ datetime.day dt = 1) /\
  (fires "weekly" <-> in_years /\ midnight /\ datetime.weekday dt = 0) /\
  (fires "daily" <-> in_years /\ midnight) /\
  (fires "hourly" <->
     in_years /\ datetime.minute dt = 0 /\ datetime.second dt = 0) /\
  (fires "minutely" <-> in_years /\ datetime.second dt = 0) /\
  PyDict.get KEYWORDS "reboot" = Some None.
Proof.
  intros fires in_years midnight (Hy & Hmo & Hd & Hh & Hmi & Hs & _).
  pose proof (days_in_month_bound (datetime.year dt) _ Hmo) as Hdim.
  assert (Hw : 0 <= datetime.weekday dt < 7) by (apply Z.mod_pos_bound; lia).
  unfold fires, in_years, midnight. clear fires in_years midnight.
  split; [preset "yearly"; lia|].
  split; [preset "annually"; lia|].
  split; [preset "monthly"; lia|].
  split; [preset "weekly"; lia|].
  split; [preset "daily"; lia|].
  split; [preset "hourly"; lia|].
  split; [preset "minutely"; lia|].
  vm_compute. reflexivity.
Qed.

(** Witness: Monday 7 January 2013, 00:00:00, fires [weekly]. *)
Lemma presets_fire_at_witness :
  let dt := {| datetime.year := 2013; datetime.month := 1; datetime.day := 7;
               datetime.hour := 0; datetime.minute := 0; datetime.second := 0;
               datetime.microsecond := 0 |} in
  valid_datetime dt /\
  match PyDict.get KEYWORDS "weekly" with
  | Some (Some (Py.Return e)) =>
      CronExpression.__contains__ e (Datetime dt) = Py.Return true
  | _ => False
  end.
Proof.
  intros dt.
  assert (Hv : valid_datetime dt).
  { unfold valid_datetime, dt. cbn [datetime.year datetime.month datetime.day
      datetime.hour datetime.minute datetime.second datetime.microsecond].
    change (days_in_month 2013 1) with 31. lia. }
  split; [exact Hv|].
  destruct (presets_fire_at dt Hv) as (_ & _ & _ & Hweekly & _).
  apply Hweekly. unfold dt. cbn [datetime.year datetime.hour datetime.minute
    datetime.second]. repeat split; try lia; reflexivity.
Defined.

(** ** Construction of expressions *)

Lemma zipped_fields_items {V} (a b c d e f g : V) :
  PyDict.items (PyDict.of_list (combine CronExpression.FIELD_NAMES [a; b; c; d; e; f; g])) =
  [("hour", c); ("month", e); ("second", a); ("weekday", f); ("year", g);
   ("day", d); ("minute", b)].
Proof. vm_compute. reflexivity. Qed.

Lemma FIELDS_items :
  PyDict.items CronExpression.FIELDS =
  [("hour", hr); ("month", mon); ("second", sec); ("weekday", dow);
   ("year", yr); ("day", dom); ("minute", min)].
Proof. apply zipped_fields_items. Qed.

(** The token a field name is paired with by
    [dict(zip(FIELD_NAMES, tokens))]: the token at the name's position. *)
Lemma expression_tokens (toks : list string) :
  let expression := PyDict.of_list (combine CronExpression.FIELD_NAMES toks) in
  PyDict.get expression "second" = nth_error toks 0%nat /\
  PyDict.get expression "minute" = nth_error toks 1%nat /\
  PyDict.get expression "hour" = nth_error toks 2%nat /\
  PyDict.get expression "day" = nth_error toks 3%nat /\
  PyDict.get expression "month" = nth_error toks 4%nat /\
  PyDict.get expression "weekday" = nth_error toks 5%nat /\
  PyDict.get expression "year" = nth_error toks 6%nat.
Proof.
  destruct toks as [|t0 [|t1 [|t2 [|t3 [|t4 [|t5 [|t6 [|t7 rest]]]]]]]];
    vm_compute; repeat split; reflexivity.
Qed.

Lemma attrs_by_name (h mo s w y d mi : CronField.t) :
  let attrs := PyDict.of_list
    [("hour", h); ("month", mo); ("second", s); ("weekday", w); ("year", y);
     ("day", d); ("minute", mi)] in
  PyDict.getitem attrs "second" = Py.Return s /\
  PyDict.getitem attrs "minute" = Py.Return mi /\
  PyDict.getitem attrs "hour" = Py.Return h /\
  PyDict.getitem attrs "day" = Py.Return d /\
  PyDict.getitem attrs "month" = Py.Return mo /\
  PyDict.getitem attrs "weekday" = Py.Return w /\
  PyDict.getitem attrs "year" = Py.Return y.
Proof. vm_compute. repeat split; reflexivity. Qed.

Lemma init_unrolled expr kwargs :
  let toks := Py.split_ws (match expr with Some e => e | None => "* * * * * * *" end) in
  let arg := field_argument kwargs toks in
  CronExpression.__init__ expr kwargs =
  (h <- hr (arg "hour" 2%nat);;
   mo <- mon (arg "month" 4%nat);;
   s <- sec (arg "second" 0%nat);;
   w <- dow (arg "weekday" 5%nat);;
   y <- yr (arg "year" 6%nat);;
   d <- dom (arg "day" 3%nat);;
   mi <- min (arg "minute" 1%nat);;
   Py.Return {| CronExpression.second := s; CronExpression.minute := mi;
                CronExpression.hour := h; CronExpression.day := d;
                CronExpression.month := mo; CronExpression.weekday := w;
                CronExpression.year := y |}).
Proof.
  intros toks arg. unfold CronExpression.__init__. rewrite FIELDS_items.
  fold toks.
  destruct (expression_tokens toks) as (Es & Emi & Eh & Ed & Emo & Ew & Ey).
  cbn [Py.mapM]. rewrite Es, Emi, Eh, Ed, Emo, Ew, Ey.
  change (match PyDict.get (PyDict.of_list kwargs) "hour" with
          | Some v => v
          | None => match nth_error toks 2 with Some tok => VStr tok | None => VStr "*" end
          end) with (arg "hour" 2%nat).
  change (match PyDict.get (PyDict.of_list kwargs) "month" with
          | Some v => v
          | None => match nth_error toks 4 with Some tok => VStr tok | None => VStr "*" end
          end) with (arg "month" 4%nat).
  change (match PyDict.get (PyDict.of_list kwargs) "second" with
          | Some v => v
          | None => match nth_error toks 0 with Some tok => VStr tok | None => VStr "*" end
          end) with (arg "second" 0%nat).
  change (match PyDict.get (PyDict.of_list kwargs) "weekday" with
          | Some v => v
          | None => match nth_error toks 5 with Some tok => VStr tok | None => VStr "*" end
          end) with (arg "weekday" 5%nat).
  change (match PyDict.get (PyDict.of_list kwargs) "year" with
          | Some v => v
          | None => match nth_error toks 6 with Some tok => VStr tok | None => VStr "*" end
          end) with (arg "year" 6%nat).
  change (match PyDict.get (PyDict.of_list kwargs) "day" with
          | Some v => v
          | None => match nth_error toks 3 with Some tok => VStr tok | None => VStr "*" end
          end) with (arg "day" 3%nat).
  change (match PyDict.get (PyDict.of_list kwargs) "minute" with
          | Some v => v
          | None => match nth_error toks 1 with Some tok => VStr tok | None => VStr "*" end
          end) with (arg "minute" 1%nat).
  destruct (hr _) as [h|x]; [|reflexivity].
  destruct (mon _) as [mo|x]; [|reflexivity].
  destruct (sec _) as [s|x]; [|reflexivity].
  destruct (dow _) as [w|x]; [|reflexivity].
  destruct (yr _) as [y|x]; [|reflexivity].
  destruct (dom _) as [d|x]; [|reflexivity].
  destruct (min _) as [mi|x]; [|reflexivity].
  cbn [Py.bind].
  destruct (attrs_by_name h mo s w y d mi) as (As & Ami & Ah & Ad & Amo & Aw & Ay).
  rewrite As, Ami, Ah, Ad, Amo, Aw, Ay. reflexivity.
Qed.

(** How an expression is put together.  The whitespace-separated tokens
    of [expr] go to second, minute, hour, day, month, weekday, year in
    that order; a keyword argument takes precedence over the token, and a
    field with neither is the wildcard.  The fields are built in the order
    hour, month, second, weekday, year, day, minute, so that of several
    invalid fields the first in this order is the one reported. *)
Theorem expression_is_built_field_by_field (expr : option string)
        (kwargs : list (string * CronField.Value)) :
  let toks := Py.split_ws (match expr with Some e => e | None => "* * * * * * *" end) in
  let arg := field_argument kwargs toks in
  CronExpression.__init__ expr kwargs =
  (h <- hr (arg "hour" 2%nat);;
   mo <- mon (arg "month" 4%nat);;
   s <- sec (arg "second" 0%nat);;
   w <- dow (arg "weekday" 5%nat);;
   y <- yr (arg "year" 6%nat);;
   d <- dom (arg "day" 3%nat);;
   mi <- min (arg "minute" 1%nat);;
   Py.Return {| CronExpression.second := s; CronExpression.minute := mi;
                CronExpression.hour := h; CronExpression.day := d;
                CronExpression.month := mo; CronExpression.weekday := w;
                CronExpression.year := y |}).
Proof. apply init_unrolled. Qed.

(** Witness: with second 99 and hour 24 both out of bounds, the error
    is the one of the hour. *)
Lemma expression_is_built_field_by_field_witness :
  CronExpression.__init__ (Some "* * * * * * *")
    [("second", VInt 99); ("hour", VInt 24)] =
  Py.Raise (Py.ValueError "Value must be between 0 and 23").
Proof.
  rewrite expression_is_built_field_by_field. vm_compute. reflexivity.
Defined.

Lemma field_argument_firstn kwargs toks1 toks2 name i :
  (i < 7)%nat -> firstn 7 toks1 = firstn 7 toks2 ->
  field_argument kwargs toks1 name i = field_argument kwargs toks2 name i.
Proof.
  intros Hi H. unfold field_argument.
  destruct (PyDict.get (PyDict.of_list kwargs) name); [reflexivity|].
  assert (E : forall l : list string, nth_error l i = nth_error (firstn 7 l) i).
  { intros l. rewrite nth_error_firstn.
    now replace (i <? 7)%nat with true by (symmetry; apply Nat.ltb_lt; lia). }
  now rewrite (E toks1), (E toks2), H.
Qed.

(** Only the first seven tokens of [expr] count, and only as tokens:
    two texts with the same first seven tokens, however spaced and
    whatever follows, build the same expression or fail alike. *)
Theorem only_the_first_seven_tokens_count (expr1 expr2 : string)
        (kwargs : list (string * CronField.Value)) :
  firstn 7 (Py.split_ws expr1) = firstn 7 (Py.split_ws expr2) ->
  CronExpression.__init__ (Some expr1) kwargs =
  CronExpression.__init__ (Some expr2) kwargs.
Proof.
  intros H. rewrite !init_unrolled. cbv zeta.
  rewrite (field_argument_firstn kwargs _ _ "hour" 2 ltac:(lia) H).
  rewrite (field_argument_firstn kwargs _ _ "month" 4 ltac:(lia) H).
  rewrite (field_argument_firstn kwargs _ _ "second" 0 ltac:(lia) H).
  rewrite (field_argument_firstn kwargs _ _ "weekday" 5 ltac:(lia) H).
  rewrite (field_argument_firstn kwargs _ _ "year" 6 ltac:(lia) H).
  rewrite (field_argument_firstn kwargs _ _ "day" 3 ltac:(lia) H).
  rewrite (field_argument_firstn kwargs _ _ "minute" 1 ltac:(lia) H).
  reflexivity.
Qed.

(** Witness: an eighth token and extra blanks change nothing. *)
Lemma only_the_first_seven_tokens_count_witness :
  firstn 7 (Py.split_ws "0 30 14 * * * * 2013 x") =
  firstn 7 (Py.split_ws "  0 30  14 * * * *") /\
  CronExpression.__init__ (Some "0 30 14 * * * * 2013 x") [] =
  CronExpression.__init__ (Some "  0 30  14 * * * *") [].
Proof.
  assert (H : firstn 7 (Py.split_ws "0 30 14 * * * * 2013 x") =
              firstn 7 (Py.split_ws "  0 30  14 * * * *"))
    by (vm_compute; reflexivity).
  split; [exact H|].
  exact (only_the_first_seven_tokens_count "0 30 14 * * * * 2013 x"
           "  0 30  14 * * * *" [] H).
Defined.

(** * Further properties of the scheduler *)

(** ** The registry *)






(** Registering under a name in use replaces the job; registering a new
    name and deregistering it again gives back the scheduler as it was. *)
Theorem register_replaces_and_deregister_restores (c : CronTab.t) (n : string)
        (j j' : CronTab.Job) :
  CronTab.register (CronTab.register c n j) n j' = CronTab.register c n j' /\
  (tracks_jobs c -> CronTab.jobs c !! n = None ->
   CronTab.deregister (CronTab.register c n j) n = c).
Proof.
  split.
  - unfold CronTab.register. cbn [CronTab.jobs CronTab.stop_event].
    now rewrite insert_insert_eq.
  - intros Ht Hn. destruct c as [jobs pe se].
    unfold CronTab.deregister, CronTab.register, tracks_jobs in *.
    cbn [CronTab.jobs CronTab.proc_event CronTab.stop_event] in *.
    rewrite lookup_insert_eq, delete_insert_eq, (delete_id _ _ Hn).
    f_equal. destruct (Nat.eqb_spec (size jobs) 0) as [E|E].
    + apply map_size_empty_iff in E. destruct pe; [|reflexivity].
      exfalso. now apply (proj1 Ht).
    + destruct pe; [reflexivity|]. exfalso.
      assert (false = true); [|discriminate].
      apply Ht. intros Hempty. apply E. now apply map_size_empty_iff.
Qed.

(** Witness: a job under the name [a] on the fresh scheduler. *)
Lemma register_replaces_and_deregister_restores_witness :
  exists e,
    CronExpression.__init__ None [] = Py.Return e /\
    let j := {| CronTab.name := "a"; CronTab.cron := e |} in
    tracks_jobs CronTab.__init__ /\
    CronTab.jobs CronTab.__init__ !! "a" = None /\
    CronTab.deregister (CronTab.register CronTab.__init__ "a" j) "a" = CronTab.__init__.
Proof.
  eexists. split; [vm_compute; reflexivity|]. intros j.
  assert (Ht : tracks_jobs CronTab.__init__).
  { unfold tracks_jobs. cbn. split; [discriminate|congruence]. }
  assert (Hn : CronTab.jobs CronTab.__init__ !! "a" = None) by apply lookup_empty.
  split; [exact Ht|]. split; [exact Hn|].
  exact (proj2 (register_replaces_and_deregister_restores CronTab.__init__ "a" j j) Ht Hn).
Defined.

(** Until something is registered the loop stays parked: ticks and
    deregistrations leave a freshly started scheduler exactly as it is,
    and no sweep takes place. *)
Theorem idle_scheduler_never_sweeps (es : list CronTab.event) :
  Forall (fun e => match e with
                   | CronTab.Tick _ | CronTab.CallDeregister _ => True
                   | _ => False
                   end) es ->
  CronTab.exec (CronTab.started CronTab.__init__) es =
  CronTab.started CronTab.__init__.
Proof.
  induction 1 as [|e es He _ IH]; [reflexivity|].
  cbn [CronTab.exec fold_left].
  destruct e as [n j|n| |now]; try contradiction.
  - replace (CronTab.step (CronTab.started CronTab.__init__) (CronTab.CallDeregister n))
      with (CronTab.started CronTab.__init__); [exact IH|].
    unfold CronTab.step, CronTab.on_tab, CronTab.deregister, CronTab.started.
    cbn [CronTab.tab CronTab.jobs CronTab.__init__]. now rewrite lookup_empty.
  - exact IH.
Qed.

(** Witness: three ticks and a deregistration on the fresh scheduler. *)
Lemma idle_scheduler_never_sweeps_witness :
  let es := [CronTab.Tick noon; CronTab.CallDeregister "a"; CronTab.Tick noon;
             CronTab.Tick noon] in
  Forall (fun e => match e with
                   | CronTab.Tick _ | CronTab.CallDeregister _ => True
                   | _ => False
                   end) es /\
  CronTab.invoked (CronTab.exec (CronTab.started CronTab.__init__) es) = [].
Proof.
  intros es.
  assert (H : Forall (fun e => match e with
                               | CronTab.Tick _ | CronTab.CallDeregister _ => True
                               | _ => False
                               end) es) by (repeat constructor).
  split; [exact H|]. now rewrite (idle_scheduler_never_sweeps es H).
Defined.

(** ** Sweeps *)

Lemma mapM_returns {A B} (f : A -> Py.res B) (g : A -> B) (l : list A) :
  (forall x, In x l -> f x = Py.Return (g x)) ->
  Py.mapM f l = Py.Return (map g l).
Proof.
  induction l as [|x l IH]; intros H; [reflexivity|].
  cbn [Py.mapM map]. rewrite (H x) by now left. cbn [Py.bind].
  rewrite IH by (intros y Hy; apply H; now right). reflexivity.
Qed.

Lemma mapM_raises {A B} (f : A -> Py.res B) (l : list A) x e :
  In x l -> f x = Py.Raise e -> exists e', Py.mapM f l = Py.Raise e'.
Proof.
  induction l as [|y l IH]; intros Hin Hx; [contradiction|].
  cbn [Py.mapM]. destruct (f y) as [b|e0] eqn:Hy; [|now exists e0].
  cbn [Py.bind]. destruct Hin as [->|Hin]; [congruence|].
  destruct (IH Hin Hx) as (e' & He'). rewrite He'. now exists e'.
Qed.

(** ** Sweeps that call the jobs *)

(** The names a sweep runs: those of the jobs whose test is true. *)
Lemma sweep_calling_quiet call now c : forall js ran0,
  (forall nj, In nj js ->
     exists b, CronExpression.__contains__ (CronTab.cron (snd nj)) (Datetime now) =
               Py.Return b) ->
  (forall nj, In nj js ->
     CronExpression.__contains__ (CronTab.cron (snd nj)) (Datetime now) =
     Py.Return true -> call (snd nj) c = (c, None)) ->
  sweep_calling call now js c ran0 =
  (c, ran0 ++ concat (map (fun nj : string * CronTab.Job =>
                             match CronExpression.__contains__
                                     (CronTab.cron (snd nj)) (Datetime now) with
                             | Py.Return true => [CronTab.name (snd nj)]
                             | _ => []
                             end) js), None).
Proof.
  induction js as [|nj js IH]; intros ran0 Htotal Hquiet.
  - cbn [sweep_calling map concat]. rewrite app_nil_r. reflexivity.
  - cbn [sweep_calling map concat].
    assert (Htl : forall x, In x js ->
              exists b, CronExpression.__contains__ (CronTab.cron (snd x))
                          (Datetime now) = Py.Return b).
    { intros x Hx. apply Htotal. right. exact Hx. }
    assert (Hql : forall x, In x js ->
              CronExpression.__contains__ (CronTab.cron (snd x)) (Datetime now) =
              Py.Return true -> call (snd x) c = (c, None)).
    { intros x Hx. apply Hquiet. right. exact Hx. }
    destruct (Htotal nj (or_introl eq_refl)) as (b & Hb).
    pose proof (Hquiet nj (or_introl eq_refl)) as Hq.
    rewrite Hb in Hq |- *. destruct b.
    + rewrite (Hq eq_refl). rewrite (IH _ Htl Hql).
      rewrite <- app_assoc. reflexivity.
    + rewrite (IH _ Htl Hql). reflexivity.
Qed.

(** With quiet calls and no test that raises, the step with the calls
    is the step of [CronTab.run_step]. *)
Lemma run_step_calling_quiet now s ran :
  CronTab.sweep now (map_to_list (CronTab.jobs (CronTab.tab s))) = Py.Return ran ->
  run_step_calling (fun _ => quiet) now s = CronTab.run_step now s.
Proof.
  intros Hran. unfold run_step_calling, CronTab.run_step.
  destruct (CronTab.loop s); try reflexivity.
  rewrite Hran. unfold CronTab.sweep in Hran.
  set (js := map_to_list (CronTab.jobs (CronTab.tab s))) in *.
  assert (Htotal : forall nj, In nj js ->
            exists b, CronExpression.__contains__ (CronTab.cron (snd nj))
                        (Datetime now) = Py.Return b).
  { clearbody js. revert ran Hran. induction js as [|x js IH]; intros ran Hran nj Hin;
      [contradiction|].
    cbn [Py.mapM] in Hran.
    destruct (CronExpression.__contains__ (CronTab.cron (snd x)) (Datetime now))
      as [b|e] eqn:Hb; [|discriminate Hran].
    cbn [Py.bind] in Hran.
    destruct (Py.mapM _ js) as [rs|e] eqn:Hrs; [|discriminate Hran].
    destruct Hin as [<-|Hin]; [exists b; exact Hb|].
    apply (IH (concat rs)); [reflexivity|exact Hin]. }
  rewrite (sweep_calling_quiet _ now (CronTab.tab s) js [] Htotal)
    by (intros; reflexivity).
  cbn [app]. f_equal. f_equal. f_equal.
  rewrite (mapM_returns _ (fun nj : string * CronTab.Job =>
             match CronExpression.__contains__ (CronTab.cron (snd nj)) (Datetime now) with
             | Py.Return true => [CronTab.name (snd nj)]
             | _ => []
             end)) in Hran.
  - cbn [Py.bind] in Hran. congruence.
  - intros x Hx. destruct (Htotal x Hx) as (b & Hb). rewrite Hb. cbn [Py.bind].
    destruct b; reflexivity.
Qed.

(** One turn of the loop of an active scheduler, the calls of the jobs
    included: from [wait()] through the stop check, the sweep and the
    sleep back to [wait()].  If no expression raises, and the call of
    every job that is due returns without an exception and leaves the
    registry and the signals as they are, the turn calls exactly the jobs
    whose expression accepts the clock reading taken at the sweep, all
    against that one reading, and leaves the scheduler as it was. *)
Theorem one_turn_runs_the_matching_jobs (call : CronTab.Job -> call_effect)
        (s : CronTab.system) (t1 t2 now t4 : datetime.datetime) :
  CronTab.loop s = CronTab.AtWait ->
  CronTab.proc_event (CronTab.tab s) = true ->
  CronTab.stop_event (CronTab.tab s) = false ->
  (forall key j, CronTab.jobs (CronTab.tab s) !! key = Some j ->
     exists b, CronExpression.__contains__ (CronTab.cron j) (Datetime now) = Py.Return b) ->
  (forall key j, CronTab.jobs (CronTab.tab s) !! key = Some j ->
     CronExpression.__contains__ (CronTab.cron j) (Datetime now) = Py.Return true ->
     call j (CronTab.tab s) = (CronTab.tab s, None)) ->
  let s' := exec_calling call s [CronTab.Tick t1; CronTab.Tick t2; CronTab.Tick now;
                                 CronTab.Tick t4] in
  CronTab.loop s' = CronTab.AtWait /\
  CronTab.tab s' = CronTab.tab s /\
  exists ran,
    CronTab.invoked s' = CronTab.invoked s ++ ran /\
    forall n, In n ran <->
      exists key j, CronTab.jobs (CronTab.tab s) !! key = Some j /\
        CronTab.name j = n /\
        CronExpression.__contains__ (CronTab.cron j) (Datetime now) = Py.Return true.
Proof.
  intros Hl Hp Hs Htotal Hquiet.
  destruct s as [c l inv]. cbn [CronTab.loop CronTab.tab CronTab.invoked] in *.
  subst l. cbv zeta. unfold exec_calling. cbn [fold_left].
  set (g := fun nj : string * CronTab.Job =>
          match CronExpression.__contains__ (CronTab.cron (snd nj)) (Datetime now) with
          | Py.Return true => [CronTab.name (snd nj)]
          | _ => []
          end).
  assert (E1 : step_calling call
                 {| CronTab.tab := c; CronTab.loop := CronTab.AtWait;
                    CronTab.invoked := inv |} (CronTab.Tick t1) =
               {| CronTab.tab := c; CronTab.loop := CronTab.AtStopCheck;
                  CronTab.invoked := inv |}).
  { unfold step_calling, run_step_calling, CronTab.run_step.
    cbn [CronTab.loop CronTab.tab CronTab.invoked]. rewrite Hp. reflexivity. }
  rewrite E1.
  assert (E2 : step_calling call
                 {| CronTab.tab := c; CronTab.loop := CronTab.AtStopCheck;
                    CronTab.invoked := inv |} (CronTab.Tick t2) =
               {| CronTab.tab := c; CronTab.loop := CronTab.AtSweep;
                  CronTab.invoked := inv |}).
  { unfold step_calling, run_step_calling, CronTab.run_step.
    cbn [CronTab.loop CronTab.tab CronTab.invoked]. rewrite Hs. reflexivity. }
  rewrite E2.
  assert (E3 : step_calling call
                 {| CronTab.tab := c; CronTab.loop := CronTab.AtSweep;
                    CronTab.invoked := inv |} (CronTab.Tick now) =
               {| CronTab.tab := c; CronTab.loop := CronTab.AtSleep;
                  CronTab.invoked := inv ++ concat (map g (map_to_list (CronTab.jobs c))) |}).
  { unfold step_calling, run_step_calling.
    cbn [CronTab.loop CronTab.tab CronTab.invoked].
    rewrite (sweep_calling_quiet call now c (map_to_list (CronTab.jobs c)) []).
    - reflexivity.
    - intros [key j] Hin. apply list_elem_of_In, elem_of_map_to_list in Hin.
      exact (Htotal key j Hin).
    - intros [key j] Hin. apply list_elem_of_In, elem_of_map_to_list in Hin.
      exact (Hquiet key j Hin). }
  rewrite E3.
  split; [reflexivity|]. split; [reflexivity|].
  exists (concat (map g (map_to_list (CronTab.jobs c)))).
  split; [reflexivity|].
  intros n. rewrite in_concat. split.
  - intros (l & Hl & Hn). apply in_map_iff in Hl as ([key j] & <- & Hin).
    apply list_elem_of_In, elem_of_map_to_list in Hin.
    unfold g in Hn. cbn [snd] in Hn.
    destruct (CronExpression.__contains__ _ _) as [[|]|] eqn:Hc;
      try contradiction.
    destruct Hn as [<-|[]]. exists key, j.
    split; [exact Hin|]. split; [reflexivity|exact Hc].
  - intros (key & j & Hkey & <- & Hc). exists (g (key, j)). split.
    + apply in_map. apply list_elem_of_In, elem_of_map_to_list. exact Hkey.
    + unfold g. cbn [snd]. rewrite Hc. left. reflexivity.
Qed.

(** Witness: one job with the default expression and a quiet call,
    swept at [noon]. *)
Lemma one_turn_runs_the_matching_jobs_witness :
  exists e,
    CronExpression.__init__ None [] = Py.Return e /\
    let j := {| CronTab.name := "a"; CronTab.cron := e |} in
    let s := CronTab.started (CronTab.register CronTab.__init__ "a" j) in
    CronTab.proc_event (CronTab.tab s) = true /\
    CronTab.stop_event (CronTab.tab s) = false /\
    CronExpression.__contains__ e (Datetime noon) = Py.Return true /\
    CronTab.loop (exec_calling (fun _ => quiet) s
                    [CronTab.Tick noon; CronTab.Tick noon;
                     CronTab.Tick noon; CronTab.Tick noon]) =
    CronTab.AtWait.
Proof.
  eexists. split; [vm_compute; reflexivity|]. intros j s.
  assert (Hc : CronExpression.__contains__ (CronTab.cron j) (Datetime noon) =
               Py.Return true) by (vm_compute; reflexivity).
  assert (Htotal : forall key j0,
             CronTab.jobs (CronTab.tab s) !! key = Some j0 ->
             exists b, CronExpression.__contains__ (CronTab.cron j0) (Datetime noon) =
                       Py.Return b).
  { intros key j0 Hk. exists true.
    unfold s, CronTab.started, CronTab.register in Hk.
    cbn [CronTab.tab CronTab.jobs CronTab.__init__] in Hk.
    apply lookup_insert_Some in Hk as [[_ <-]|[_ Hk]]; [exact Hc|].
    rewrite lookup_empty in Hk. discriminate Hk. }
  assert (Hquiet : forall key j0,
             CronTab.jobs (CronTab.tab s) !! key = Some j0 ->
             CronExpression.__contains__ (CronTab.cron j0) (Datetime noon) =
             Py.Return true ->
             quiet (CronTab.tab s) = (CronTab.tab s, None)).
  { intros key j0 _ _. reflexivity. }
  split; [reflexivity|]. split; [reflexivity|]. split; [exact Hc|].
  exact (proj1 (one_turn_runs_the_matching_jobs (fun _ => quiet) s noon noon noon noon
                  eq_refl eq_refl eq_refl Htotal Hquiet)).
Defined.

(** ** Calls that let an exception escape *)

Lemma halted_stays_calling call s es :
  CronTab.loop s = CronTab.Crashed \/ CronTab.loop s = CronTab.Returned ->
  CronTab.loop (exec_calling call s es) = CronTab.loop s /\
  CronTab.invoked (exec_calling call s es) = CronTab.invoked s.
Proof.
  revert s. induction es as [|e es IH]; intros s Hs; [split; reflexivity|].
  unfold exec_calling. cbn [fold_left].
  assert (E : CronTab.loop (step_calling call s e) = CronTab.loop s /\
              CronTab.invoked (step_calling call s e) = CronTab.invoked s).
  { destruct e as [n j|n| |now]; try (split; reflexivity).
    unfold step_calling, run_step_calling, CronTab.run_step.
    destruct Hs as [Hs|Hs]; rewrite Hs; cbn iota; rewrite Hs; split; reflexivity. }
  destruct E as [El Ei].
  destruct (IH (step_calling call s e)) as [Il Ii]; [rewrite El; exact Hs|].
  unfold exec_calling in Il, Ii. rewrite Il, Ii, El, Ei. split; reflexivity.
Qed.

Lemma sweep_calling_escapes call now nj : forall js c ran0,
  In nj js ->
  CronExpression.__contains__ (CronTab.cron (snd nj)) (Datetime now) = Py.Return true ->
  (forall c0, snd (call (snd nj) c0) <> None) ->
  exists c' ran e,
    sweep_calling call now js c ran0 = (c', ran0 ++ ran, Some e).
Proof.
  induction js as [|x js IH]; intros c ran0 Hin Hc Hesc; [contradiction|].
  cbn [sweep_calling].
  destruct (CronExpression.__contains__ (CronTab.cron (snd x)) (Datetime now))
    as [[|]|e] eqn:Hx.
  - destruct (call (snd x) c) as [c' [e|]] eqn:Hcall.
    + exists c', [CronTab.name (snd x)], e. reflexivity.
    + destruct Hin as [->|Hin].
      * exfalso. apply (Hesc c). rewrite Hcall. reflexivity.
      * destruct (IH c' (ran0 ++ [CronTab.name (snd x)]) Hin Hc Hesc)
          as (c'' & ran & e & E).
        exists c'', (CronTab.name (snd x) :: ran), e. rewrite E.
        rewrite <- app_assoc. reflexivity.
  - destruct Hin as [->|Hin]; [congruence|].
    exact (IH c ran0 Hin Hc Hesc).
  - exists c, [], e. rewrite app_nil_r. reflexivity.
Qed.

(** An exception that escapes the call of a job ends the scheduler like
    one out of a membership test: if a registered job is due at a sweep
    and its call lets an exception escape, as the wrapper of [job] does
    when [on_failure] raises, the loop is left for good in that sweep,
    and nothing that happens afterwards calls a job again. *)
Theorem escaping_call_ends_the_loop (call : CronTab.Job -> call_effect)
        (s : CronTab.system) (now : datetime.datetime) (key : string)
        (j : CronTab.Job) :
  CronTab.loop s = CronTab.AtSweep ->
  CronTab.jobs (CronTab.tab s) !! key = Some j ->
  CronExpression.__contains__ (CronTab.cron j) (Datetime now) = Py.Return true ->
  (forall c, snd (call j c) <> None) ->
  let s' := step_calling call s (CronTab.Tick now) in
  CronTab.loop s' = CronTab.Crashed /\
  forall es, CronTab.loop (exec_calling call s' es) = CronTab.Crashed /\
             CronTab.invoked (exec_calling call s' es) = CronTab.invoked s'.
Proof.
  intros Hl Hk Hc Hesc. cbv zeta.
  assert (Hcrash : CronTab.loop (step_calling call s (CronTab.Tick now)) =
                   CronTab.Crashed).
  { unfold step_calling, run_step_calling. rewrite Hl.
    assert (Hin : In (key, j) (map_to_list (CronTab.jobs (CronTab.tab s)))).
    { apply list_elem_of_In, elem_of_map_to_list. exact Hk. }
    destruct (sweep_calling_escapes call now (key, j) _ (CronTab.tab s) [] Hin Hc Hesc)
      as (c' & ran & e & E).
    rewrite E. reflexivity. }
  split; [exact Hcrash|]. intros es.
  destruct (halted_stays_calling call (step_calling call s (CronTab.Tick now)) es)
    as [Il Ii]; [left; exact Hcrash|].
  rewrite Il. split; [exact Hcrash|exact Ii].
Qed.

(** Witness: a job that is due at [noon] and whose call lets a
    [KeyError] escape. *)
Lemma escaping_call_ends_the_loop_witness :
  exists e,
    CronExpression.__init__ None [] = Py.Return e /\
    let j := {| CronTab.name := "a"; CronTab.cron := e |} in
    let s := {| CronTab.tab := CronTab.register CronTab.__init__ "a" j;
                CronTab.loop := CronTab.AtSweep; CronTab.invoked := [] |} in
    let call := fun (_ : CronTab.Job) (c : CronTab.t) => (c, Some (Py.KeyError "k")) in
    CronTab.jobs (CronTab.tab s) !! "a" = Some j /\
    CronExpression.__contains__ e (Datetime noon) = Py.Return true /\
    CronTab.loop (step_calling call s (CronTab.Tick noon)) = CronTab.Crashed.
Proof.
  eexists. split; [vm_compute; reflexivity|]. intros j s call.
  assert (Hk : CronTab.jobs (CronTab.tab s) !! "a" = Some j) by apply lookup_insert_eq.
  assert (Hc : CronExpression.__contains__ (CronTab.cron j) (Datetime noon) =
               Py.Return true) by (vm_compute; reflexivity).
  assert (Hesc : forall c, snd (call j c) <> None) by (intros c; discriminate).
  split; [exact Hk|]. split; [exact Hc|].
  exact (proj1 (escaping_call_ends_the_loop call s noon "a" j eq_refl Hk Hc Hesc)).
Defined.

(** ** The ways out of the loop *)

Lemma halted_stays s es :
  CronTab.loop s = CronTab.Crashed \/ CronTab.loop s = CronTab.Returned ->
  CronTab.loop (CronTab.exec s es) = CronTab.loop s /\
  CronTab.invoked (CronTab.exec s es) = CronTab.invoked s.
Proof.
  revert s. induction es as [|e es IH]; intros s Hs; [split; reflexivity|].
  cbn [CronTab.exec fold_left].
  assert (E : CronTab.loop (CronTab.step s e) = CronTab.loop s /\
              CronTab.invoked (CronTab.step s e) = CronTab.invoked s).
  { destruct e as [n j|n| |now]; try (split; reflexivity).
    unfold CronTab.step, CronTab.run_step.
    destruct Hs as [Hs|Hs]; rewrite Hs; cbn iota; rewrite Hs; split; reflexivity. }
  destruct E as [El Ei].
  destruct (IH (CronTab.step s e)) as [Il Ii]; [rewrite El; exact Hs|].
  unfold CronTab.exec in Il, Ii. rewrite Il, Ii, El, Ei. split; reflexivity.
Qed.

(** An exception out of one membership test ends the scheduler: if the
    expression of any registered job raises on the clock reading of a
    sweep, the loop is left for good, and whatever is registered,
    deregistered or stopped afterwards, no job runs any more. *)
Theorem raising_expression_ends_the_loop (s : CronTab.system)
        (now : datetime.datetime) (key : string) (j : CronTab.Job) (e : Py.exn) :
  CronTab.loop s = CronTab.AtSweep ->
  CronTab.jobs (CronTab.tab s) !! key = Some j ->
  CronExpression.__contains__ (CronTab.cron j) (Datetime now) = Py.Raise e ->
  let s' := CronTab.step s (CronTab.Tick now) in
  CronTab.loop s' = CronTab.Crashed /\
  forall es, CronTab.loop (CronTab.exec s' es) = CronTab.Crashed /\
             CronTab.invoked (CronTab.exec s' es) = CronTab.invoked s'.
Proof.
  intros Hl Hk Hc. cbv zeta.
  assert (Hcrash : CronTab.loop (CronTab.step s (CronTab.Tick now)) = CronTab.Crashed).
  { unfold CronTab.step, CronTab.run_step. rewrite Hl.
    assert (Hin : In (key, j) (map_to_list (CronTab.jobs (CronTab.tab s)))).
    { apply list_elem_of_In, elem_of_map_to_list. exact Hk. }
    unfold CronTab.sweep.
    destruct (mapM_raises
                (fun nj : string * CronTab.Job =>
                   Py.bind (CronExpression.__contains__ (CronTab.cron (snd nj))
                                                         (Datetime now))
                           (fun b => Py.Return (if b then [CronTab.name (snd nj)]
                                                else [])))
                _ (key, j) e Hin) as (e' & He').
    { cbn [snd]. rewrite Hc. reflexivity. }
    rewrite He'. reflexivity. }
  split; [exact Hcrash|]. intros es.
  destruct (halted_stays (CronTab.step s (CronTab.Tick now)) es) as [Il Ii];
    [left; exact Hcrash|].
  rewrite Il. split; [exact Hcrash|exact Ii].
Qed.

(** Witness: a job whose seconds pattern is no number. *)
Lemma raising_expression_ends_the_loop_witness :
  exists e,
    CronExpression.__init__ (Some "x") [] = Py.Return e /\
    let j := {| CronTab.name := "a"; CronTab.cron := e |} in
    let s := {| CronTab.tab := CronTab.register CronTab.__init__ "a" j;
                CronTab.loop := CronTab.AtSweep; CronTab.invoked := [] |} in
    CronTab.jobs (CronTab.tab s) !! "a" = Some j /\
    CronExpression.__contains__ e (Datetime noon) = Py.Raise (Py.InvalidLiteral "x") /\
    CronTab.loop (CronTab.step s (CronTab.Tick noon)) = CronTab.Crashed.
Proof.
  eexists. split; [vm_compute; reflexivity|]. intros j s.
  assert (Hk : CronTab.jobs (CronTab.tab s) !! "a" = Some j) by apply lookup_insert_eq.
  assert (Hc : CronExpression.__contains__ (CronTab.cron j) (Datetime noon) =
               Py.Raise (Py.InvalidLiteral "x")) by (vm_compute; reflexivity).
  split; [exact Hk|]. split; [exact Hc|].
  exact (proj1 (raising_expression_ends_the_loop s noon "a" j _ eq_refl Hk Hc)).
Defined.

(** Once [stop] has been called no job is started any more, unless the
    loop is already past its stop check: the stop signal is never
    cleared, and nothing that happens afterwards, registrations
    included, leads to another sweep. *)
Theorem no_job_starts_after_stop (s : CronTab.system) (es : list CronTab.event) :
  CronTab.stop_event (CronTab.tab s) = true ->
  CronTab.loop s <> CronTab.AtSweep ->
  CronTab.invoked (CronTab.exec s es) = CronTab.invoked s /\
  CronTab.stop_event (CronTab.tab (CronTab.exec s es)) = true /\
  CronTab.loop (CronTab.exec s es) <> CronTab.AtSweep.
Proof.
  revert s. induction es as [|e es IH]; intros s Hs Hl;
    [split; [reflexivity|split; assumption]|].
  cbn [CronTab.exec fold_left].
  assert (E : CronTab.invoked (CronTab.step s e) = CronTab.invoked s /\
              CronTab.stop_event (CronTab.tab (CronTab.step s e)) = true /\
              CronTab.loop (CronTab.step s e) <> CronTab.AtSweep).
  { destruct e as [n j|n| |now].
    - split; [reflexivity|]. split; [exact Hs|exact Hl].
    - split; [reflexivity|]. split; [|exact Hl].
      cbn [CronTab.step CronTab.on_tab CronTab.tab]. unfold CronTab.deregister.
      destruct (CronTab.jobs (CronTab.tab s) !! n); exact Hs.
    - split; [reflexivity|]. split; [reflexivity|exact Hl].
    - unfold CronTab.step, CronTab.run_step.
      destruct (CronTab.loop s) eqn:El.
      + destruct (CronTab.proc_event (CronTab.tab s));
          cbn [CronTab.invoked CronTab.tab CronTab.loop];
          (split; [reflexivity|]); (split; [exact Hs|]);
          [discriminate|rewrite El; discriminate].
      + cbn [CronTab.invoked CronTab.tab CronTab.loop]. rewrite Hs.
        split; [reflexivity|]. split; [reflexivity|discriminate].
      + contradiction Hl; reflexivity.
      + cbn [CronTab.invoked CronTab.tab CronTab.loop].
        split; [reflexivity|]. split; [exact Hs|discriminate].
      + split; [reflexivity|]. split; [exact Hs|rewrite El; discriminate].
      + split; [reflexivity|]. split; [exact Hs|rewrite El; discriminate]. }
  destruct E as (Ei & Es & El).
  destruct (IH (CronTab.step s e) Es El) as (Ii & Is & Il).
  unfold CronTab.exec in Ii, Is, Il.
  split; [rewrite Ii; exact Ei|]. split; [exact Is|exact Il].
Qed.

(** Witness: a job registered, [stop], the job registered again, and the
    loop scheduled four times. *)
Lemma no_job_starts_after_stop_witness :
  exists e,
    CronExpression.__init__ None [] = Py.Return e /\
    let j := {| CronTab.name := "a"; CronTab.cron := e |} in
    let s := CronTab.exec (CronTab.started CronTab.__init__)
               [CronTab.CallRegister "a" j; CronTab.CallStop] in
    CronTab.stop_event (CronTab.tab s) = true /\
    CronTab.loop s <> CronTab.AtSweep /\
    CronTab.invoked
      (CronTab.exec s [CronTab.CallRegister "a" j; CronTab.Tick noon; CronTab.Tick noon;
                       CronTab.Tick noon; CronTab.Tick noon]) = [].
Proof.
  eexists. split; [vm_compute; reflexivity|]. intros j s.
  assert (Hs : CronTab.stop_event (CronTab.tab s) = true) by reflexivity.
  assert (Hl : CronTab.loop s <> CronTab.AtSweep) by discriminate.
  split; [exact Hs|]. split; [exact Hl|].
  exact (proj1 (no_job_starts_after_stop s _ Hs Hl)).
Defined.

(** ** The decorator *)



(** * Printing an expression and reading it back *)

Lemma str_app_assoc s1 s2 s3 : (s1 +:+ s2) +:+ s3 = s1 +:+ (s2 +:+ s3).
Proof.
  induction s1 as [|c s1 IH]; [reflexivity|].
  change (String c ((s1 +:+ s2) +:+ s3) = String c (s1 +:+ (s2 +:+ s3))).
  now rewrite IH.
Qed.

Lemma split_ws_go_word t : forall w rest,
  free_of Py.isspace t = true ->
  Py.split_ws_go (Some w) (t +:+ rest) = Py.split_ws_go (Some (w +:+ t)) rest.
Proof.
  induction t as [|c t IH]; intros w rest H.
  - change ("" +:+ rest) with rest. now rewrite append_empty_r.
  - unfold free_of in H. cbn [Py.chars forallb] in H. apply andb_prop in H as [Hc Ht].
    apply negb_true_iff in Hc.
    change (String c t +:+ rest) with (String c (t +:+ rest)).
    cbn [Py.split_ws_go]. rewrite Hc. rewrite (IH _ _ Ht).
    rewrite str_app_assoc. reflexivity.
Qed.

Lemma split_ws_go_start t rest :
  is_token t = true ->
  Py.split_ws_go None (t +:+ rest) = Py.split_ws_go (Some t) rest.
Proof.
  unfold is_token. intros H. apply andb_prop in H as [Hne Hf].
  destruct t as [|c t]; [discriminate Hne|].
  unfold free_of in Hf. cbn [Py.chars forallb] in Hf. apply andb_prop in Hf as [Hc Ht].
  apply negb_true_iff in Hc.
  change (String c t +:+ rest) with (String c (t +:+ rest)).
  cbn [Py.split_ws_go]. rewrite Hc.
  change ("" +:+ String c "") with (String c "").
  rewrite (split_ws_go_word t _ rest Ht). reflexivity.
Qed.

(** Tokens joined by blanks split into the same tokens. *)
Lemma split_ws_join l :
  Forall (fun t => is_token t = true) l -> Py.split_ws (Py.join " " l) = l.
Proof.
  unfold Py.split_ws. induction 1 as [|t l Ht Hl IH]; [reflexivity|].
  destruct l as [|u l].
  - cbn [Py.join]. rewrite <- (append_empty_r t) at 1.
    rewrite (split_ws_go_start t "" Ht). reflexivity.
  - change (Py.join " " (t :: u :: l)) with (t +:+ String " " (Py.join " " (u :: l))).
    rewrite (split_ws_go_start t _ Ht). cbn [Py.split_ws_go].
    change (Py.isspace " ") with true. cbn iota. now rewrite IH.
Qed.

Lemma split_ws_go_tokens s : forall cur,
  (forall w, cur = Some w -> is_token w = true) ->
  Forall (fun t => is_token t = true) (Py.split_ws_go cur s).
Proof.
  induction s as [|c s IH]; intros cur Hcur; cbn [Py.split_ws_go].
  - destruct cur as [w|]; [|constructor]. constructor; [now apply Hcur|constructor].
  - destruct (Py.isspace c) eqn:Hc.
    + destruct cur as [w|].
      * constructor; [now apply Hcur|]. apply IH. discriminate.
      * apply IH. discriminate.
    + apply IH. intros w' Hw'. inversion Hw'; subst. clear Hw'.
      unfold is_token. apply andb_true_intro. split.
      * destruct cur as [w|]; [destruct w|]; reflexivity.
      * rewrite free_of_app. apply andb_true_intro. split.
        -- destruct cur as [w|]; [|reflexivity].
           specialize (Hcur w eq_refl). unfold is_token in Hcur.
           now apply andb_prop in Hcur as [_ Hf].
        -- unfold free_of. cbn [Py.chars forallb]. now rewrite Hc.
Qed.

Lemma split_ws_tokens s : Forall (fun t => is_token t = true) (Py.split_ws s).
Proof. apply split_ws_go_tokens. discriminate. Qed.

Lemma nth_token toks i :
  Forall (fun t => is_token t = true) toks -> is_token (nth i toks "*") = true.
Proof.
  intros H. revert i. induction H as [|t l Ht _ IH]; intros [|i]; cbn [nth];
    try reflexivity; [exact Ht|apply IH].
Qed.

Lemma digit_not_space c : Py.isdigit c = true -> Py.isspace c = false.
Proof.
  destruct c as [[] [] [] [] [] [] [] []]; intros H; try discriminate H; reflexivity.
Qed.

(** Substitution writes digits and copies the rest. *)
Lemma sub_go_free p s : forall skip am out,
  (forall c, Py.isdigit c = true -> p c = false) ->
  free_of p s = true ->
  re.sub_go PHRASES_REGEX phrase_repl skip am s = Py.Return out ->
  free_of p out = true.
Proof.
  induction s as [|c s IH]; intros skip am out Hp Hs Hout.
  - destruct skip as [|k]; cbn [re.sub_go] in Hout; [|now inversion Hout].
    destruct (re.match_at PHRASES_REGEX "") as [m|] eqn:Hm; [|now inversion Hout].
    destruct (match_at_nonempty _ _ Hm) as (k & Hk). rewrite Hk in Hout.
    destruct (phrase_repl_digits _ _ Hm) as (n & _ & Hr & Hn).
    rewrite Hr in Hout. cbn [Py.bind] in Hout. inversion Hout; subst.
    apply (is_digits_free _ _ Hp (str_nat_is_digits n Hn)).
  - unfold free_of in Hs. cbn [Py.chars forallb] in Hs.
    apply andb_prop in Hs as [Hc Hs'].
    destruct skip as [|k]; cbn [re.sub_go] in Hout; [|exact (IH _ _ _ Hp Hs' Hout)].
    destruct (re.match_at PHRASES_REGEX (String c s)) as [m|] eqn:Hm.
    + destruct (match_at_nonempty _ _ Hm) as (k & Hk). rewrite Hk in Hout.
      destruct (phrase_repl_digits _ _ Hm) as (n & _ & Hr & Hn).
      rewrite Hr in Hout. cbn [Py.bind] in Hout.
      destruct (re.sub_go PHRASES_REGEX phrase_repl k true s) as [rest|x] eqn:Hrest;
        [|discriminate Hout].
      cbn [Py.bind] in Hout. inversion Hout; subst.
      rewrite free_of_app. apply andb_true_intro. split.
      * apply (is_digits_free _ _ Hp (str_nat_is_digits n Hn)).
      * exact (IH _ _ _ Hp Hs' Hrest).
    + destruct (re.sub_go PHRASES_REGEX phrase_repl 0 false s) as [rest|x] eqn:Hrest;
        [|discriminate Hout].
      cbn [Py.bind] in Hout. inversion Hout; subst.
      unfold free_of. cbn [Py.chars forallb]. rewrite Hc.
      exact (IH _ _ _ Hp Hs' Hrest).
Qed.

Lemma sub_go_nonempty c s am out :
  re.sub_go PHRASES_REGEX phrase_repl O am (String c s) = Py.Return out ->
  out <> "".
Proof.
  intros Hout. cbn [re.sub_go] in Hout.
  destruct (re.match_at PHRASES_REGEX (String c s)) as [m|] eqn:Hm.
  - destruct (match_at_nonempty _ _ Hm) as (k & Hk). rewrite Hk in Hout.
    destruct (phrase_repl_digits _ _ Hm) as (n & _ & Hr & Hn).
    rewrite Hr in Hout. cbn [Py.bind] in Hout.
    destruct (re.sub_go PHRASES_REGEX phrase_repl k true s) as [rest|x];
      [|discriminate Hout].
    cbn [Py.bind] in Hout. inversion Hout; subst.
    pose proof (str_nat_nonempty n) as Hne.
    destruct (Py.str_nat n) as [|d ds]; [congruence|discriminate].
  - destruct (re.sub_go PHRASES_REGEX phrase_repl 0 false s) as [rest|x];
      [|discriminate Hout].
    cbn [Py.bind] in Hout. inversion Hout; subst. discriminate.
Qed.

Lemma sub_token tok s' :
  is_token tok = true -> CronField.sub_english_phrases tok = Py.Return s' ->
  is_token s' = true.
Proof.
  unfold is_token. intros H Hs. apply andb_prop in H as [Hne Hf].
  rewrite sub_english_phrases_unfold in Hs. apply andb_true_intro. split.
  - destruct tok as [|c tok]; [discriminate Hne|].
    apply sub_go_nonempty in Hs. destruct s'; [congruence|reflexivity].
  - exact (sub_go_free _ _ _ _ _ digit_not_space Hf Hs).
Qed.

(** A field built from text stores the substituted text, and is built
    again from it. *)
Lemma field_of_text tok mn mx sp f :
  CronField.__init__ (VStr tok) mn mx sp = Py.Return f ->
  exists s', CronField.sub_english_phrases tok = Py.Return s' /\
             CronField.value f = VStr s' /\
             CronField.__init__ (VStr s') mn mx sp = Py.Return f.
Proof.
  intros H. destruct (sub_english_phrases_total tok) as (s' & Hs'). exists s'.
  split; [exact Hs'|].
  rewrite (init_pattern_result tok s' mn mx sp Hs') in H.
  destruct (CronField.intersection _ _) as [|d ds] eqn:E; [|discriminate].
  inversion H; subst. split; [reflexivity|].
  rewrite (init_pattern_result s' s' mn mx sp (sub_english_phrases_idempotent _ _ Hs')).
  rewrite E. reflexivity.
Qed.

Lemma field_argument_no_kwargs toks name i :
  field_argument [] toks name i = VStr (nth i toks "*").
Proof.
  unfold field_argument.
  change (PyDict.get (PyDict.of_list []) name) with (@None CronField.Value).
  revert i. induction toks as [|t toks IH]; intros [|i]; try reflexivity.
  apply IH.
Qed.

Lemma str_short f s :
  CronField.value f = VStr s -> (String.length s <? 5)%nat = true ->
  CronField.__str__ f = s.
Proof.
  intros Hv Hl. unfold CronField.__str__. rewrite Hv.
  apply Nat.ltb_lt in Hl.
  now replace (5 <=? Z.of_nat (String.length s)) with false
    by (symmetry; apply Z.leb_gt; lia).
Qed.

(** What one text field of a short expression gives. *)
Lemma short_field tok mn mx sp f :
  is_token tok = true ->
  CronField.__init__ (VStr tok) mn mx sp = Py.Return f ->
  short_text f = true ->
  is_token (CronField.__str__ f) = true /\
  CronField.__init__ (VStr (CronField.__str__ f)) mn mx sp = Py.Return f.
Proof.
  intros Ht Hf Hs. destruct (field_of_text _ _ _ _ _ Hf) as (s' & Hsub & Hv & Hre).
  unfold short_text in Hs. rewrite Hv in Hs.
  rewrite (str_short f s' Hv Hs). split; [exact (sub_token _ _ Ht Hsub)|exact Hre].
Qed.

(** Printing and reading back.  An expression read from text whose
    seven stored field texts are all shorter than five characters is
    printed as those texts separated by blanks, and reading the
    printed text gives the same expression again. *)
Theorem short_expression_reads_back (expr : string) (e : CronExpression.t) :
  CronExpression.__init__ (Some expr) [] = Py.Return e ->
  (forall k, In k ["second"; "minute"; "hour"; "day"; "month"; "weekday"; "year"] ->
             short_text (CronExpression.getattr e k) = true) ->
  CronExpression.__init__ (Some (CronExpression.__str__ e)) [] = Py.Return e.
Proof.
  intros Hinit Hshort.
  rewrite init_unrolled in Hinit. cbv zeta in Hinit.
  rewrite !field_argument_no_kwargs in Hinit.
  pose proof (split_ws_tokens expr) as Htoks.
  set (toks := Py.split_ws expr) in *.
  unfold hr, mon, sec, dow, yr, dom, min in Hinit.
  destruct (CronField.__init__ (VStr (nth 2 toks "*")) _ _ _) as [h|x] eqn:Hh;
    [|discriminate Hinit]. cbn [Py.bind] in Hinit.
  destruct (CronField.__init__ (VStr (nth 4 toks "*")) _ _ _) as [mo|x] eqn:Hmo;
    [|discriminate Hinit]. cbn [Py.bind] in Hinit.
  destruct (CronField.__init__ (VStr (nth 0 toks "*")) _ _ _) as [s|x] eqn:Hs;
    [|discriminate Hinit]. cbn [Py.bind] in Hinit.
  destruct (CronField.__init__ (VStr (nth 5 toks "*")) _ _ _) as [w|x] eqn:Hw;
    [|discriminate Hinit]. cbn [Py.bind] in Hinit.
  destruct (CronField.__init__ (VStr (nth 6 toks "*")) _ _ _) as [y|x] eqn:Hy;
    [|discriminate Hinit]. cbn [Py.bind] in Hinit.
  destruct (CronField.__init__ (VStr (nth 3 toks "*")) _ _ _) as [d|x] eqn:Hd;
    [|discriminate Hinit]. cbn [Py.bind] in Hinit.
  destruct (CronField.__init__ (VStr (nth 1 toks "*")) _ _ _) as [mi|x] eqn:Hmi;
    [|discriminate Hinit]. cbn [Py.bind] in Hinit.
  inversion Hinit; subst e. clear Hinit.
  destruct (short_field _ _ _ _ _ (nth_token toks 2 Htoks) Hh
              (Hshort "hour" ltac:(simpl; tauto))) as [Th Rh].
  destruct (short_field _ _ _ _ _ (nth_token toks 4 Htoks) Hmo
              (Hshort "month" ltac:(simpl; tauto))) as [Tmo Rmo].
  destruct (short_field _ _ _ _ _ (nth_token toks 0 Htoks) Hs
              (Hshort "second" ltac:(simpl; tauto))) as [Ts Rs].
  destruct (short_field _ _ _ _ _ (nth_token toks 5 Htoks) Hw
              (Hshort "weekday" ltac:(simpl; tauto))) as [Tw Rw].
  destruct (short_field _ _ _ _ _ (nth_token toks 6 Htoks) Hy
              (Hshort "year" ltac:(simpl; tauto))) as [Ty Ry].
  destruct (short_field _ _ _ _ _ (nth_token toks 3 Htoks) Hd
              (Hshort "day" ltac:(simpl; tauto))) as [Td Rd].
  destruct (short_field _ _ _ _ _ (nth_token toks 1 Htoks) Hmi
              (Hshort "minute" ltac:(simpl; tauto))) as [Tmi Rmi].
  clear Hshort.
  change (CronExpression.__str__ _) with
    (Py.join " " [CronField.__str__ s; CronField.__str__ mi; CronField.__str__ h;
                  CronField.__str__ d; CronField.__str__ mo; CronField.__str__ w;
                  CronField.__str__ y]).
  rewrite init_unrolled. cbv zeta.
  rewrite split_ws_join by (repeat constructor; assumption).
  rewrite !field_argument_no_kwargs. cbn [nth].
  unfold hr, mon, sec, dow, yr, dom, min.
  rewrite Rh, Rmo, Rs, Rw, Ry, Rd, Rmi. reflexivity.
Qed.

(** Witness: weekdays at 14:30:00; the phrase range is stored, printed
    and read back as [0-4]. *)
Lemma short_expression_reads_back_witness :
  exists e,
    CronExpression.__init__ (Some "0 30 14 * * mon-fri *") [] = Py.Return e /\
    CronExpression.__str__ e = "0 30 14 * * 0-4 *" /\
    CronExpression.__init__ (Some "0 30 14 * * 0-4 *") [] = Py.Return e.
Proof.
  eexists. split; [vm_compute; reflexivity|].
  match goal with |- CronExpression.__str__ ?x = _ /\ _ => set (e := x) end.
  assert (Hinit : CronExpression.__init__ (Some "0 30 14 * * mon-fri *") [] =
                  Py.Return e) by (vm_compute; reflexivity).
  assert (Hstr : CronExpression.__str__ e = "0 30 14 * * 0-4 *")
    by (vm_compute; reflexivity).
  assert (Hshort : forall k,
             In k ["second"; "minute"; "hour"; "day"; "month"; "weekday"; "year"] ->
             short_text (CronExpression.getattr e k) = true).
  { intros k Hk. simpl in Hk.
    repeat (destruct Hk as [<-|Hk]; [vm_compute; reflexivity|]). contradiction. }
  split; [exact Hstr|]. rewrite <- Hstr.
  exact (short_expression_reads_back "0 30 14 * * mon-fri *" e Hinit Hshort).
Defined.
